(** * Rainfall question answering: parse, execute, cite

    A shallow embedding of the three core components of the repository,

    - [query_parser.py]     (class QueryParser),
    - [data_analyzer.py]    (class DataAnalyzer),
    - [answer_generator.py] (class AnswerGenerator),

    of the column names of [data_loader.py] and of the steps [app.py]
    takes for one question, followed by the properties of the
    specification that were checked against them and by further
    properties of the code.

    Modelling conventions.

    - Text is a [string] of 8-bit characters, read as UTF-8.  The
      character classes of the regular expressions and [str.lower] are
      those of Python for code points below 128; a byte above 127 is
      neither a word character, nor a space, nor a letter.  The en dash
      of the year-range pattern is its three UTF-8 bytes.
    - A pandas column is either numeric or of dtype object; a numeric
      cell is a number or NaN, an object cell is a text, a number or
      NaN.  A number is an exact rational: comparisons, minima and
      maxima are those of numpy, whereas sums and means are the exact
      ones, which numpy returns where neither int64 wraps around nor
      float64 rounds ([Spec.sums_exactly], [Spec.means_exactly]);
      statements about the value of a sum or a mean carry these
      conditions.
    - A column is looked up by the first match of its name;
      [QueryParser.parse_call] and [Spec.region_column_single] cover
      the name of the region column borne by two columns, on which
      [parse] raises.
    - A frame is a list of rows, each with its label; selecting rows
      keeps labels and cells as they are, as boolean indexing does.
    - A Python exception is a value of type [exn]; code that can raise
      returns in the monad [res]. *)

From Stdlib Require Import String Ascii List Bool Arith ZArith QArith Qabs Lia Lqa.
From Stdlib Require Import Sorted Permutation DecimalString.
Import ListNotations.

Close Scope Q_scope.
Local Open Scope string_scope.
Local Open Scope list_scope.

(* ================================================================= *)
(** ** Python strings *)

Module PyStr.

Definition is_upper (c : ascii) : bool :=
  let n := nat_of_ascii c in (65 <=? n)%nat && (n <=? 90)%nat.

Definition is_lower (c : ascii) : bool :=
  let n := nat_of_ascii c in (97 <=? n)%nat && (n <=? 122)%nat.

Definition is_digit (c : ascii) : bool :=
  let n := nat_of_ascii c in (48 <=? n)%nat && (n <=? 57)%nat.

(** [\w] *)
Definition is_word (c : ascii) : bool :=
  is_digit c || is_upper c || is_lower c || Ascii.eqb c "_"%char.

(** [\s]: tab, newline, vertical tab, form feed, carriage return, the
    four separators 28..31 and the space. *)
Definition is_space (c : ascii) : bool :=
  let n := nat_of_ascii c in
  ((9 <=? n)%nat && (n <=? 13)%nat) || ((28 <=? n)%nat && (n <=? 32)%nat).

Definition lower_char (c : ascii) : ascii :=
  if is_upper c then ascii_of_nat (nat_of_ascii c + 32) else c.

Definition upper_char (c : ascii) : ascii :=
  if is_lower c then ascii_of_nat (nat_of_ascii c - 32) else c.

(** [s.lower()] *)
Fixpoint lower (s : string) : string :=
  match s with
  | EmptyString => EmptyString
  | String c r => String (lower_char c) (lower r)
  end.

(** [s.startswith(p)] *)
Fixpoint starts_with (p s : string) : bool :=
  match p, s with
  | EmptyString, _ => true
  | String a p', String b s' => Ascii.eqb a b && starts_with p' s'
  | String _ _, EmptyString => false
  end.

(** The rest of [s] after its prefix [p]. *)
Fixpoint strip_prefix (p s : string) : option string :=
  match p, s with
  | EmptyString, _ => Some s
  | String a p', String b s' =>
      if Ascii.eqb a b then strip_prefix p' s' else None
  | String _ _, EmptyString => None
  end.

(** [p in s] *)
Fixpoint contains (p s : string) : bool :=
  starts_with p s ||
  match s with
  | EmptyString => false
  | String _ r => contains p r
  end.

(** [any(p in s for p in ps)] *)
Definition any_in (ps : list string) (s : string) : bool :=
  existsb (fun p => contains p s) ps.

(** [any(keyword in name for keyword in keywords)] *)
Definition has_keyword (ks : list string) (s : string) : bool := any_in ks s.

(** [s.replace(a, b)] for single characters *)
Fixpoint replace_char (a b : ascii) (s : string) : string :=
  match s with
  | EmptyString => EmptyString
  | String c r => String (if Ascii.eqb c a then b else c) (replace_char a b r)
  end.

(** [s.title()]: a letter that follows a letter is lowered, any other
    letter is raised. *)
Fixpoint title_from (prev_cased : bool) (s : string) : string :=
  match s with
  | EmptyString => EmptyString
  | String c r =>
      let cased := is_upper c || is_lower c in
      String (if prev_cased then lower_char c else upper_char c)
             (title_from cased r)
  end.

Definition title (s : string) : string := title_from false s.

(** [str(n)] for a non-negative integer *)
Definition of_nat (n : nat) : string := NilZero.string_of_uint (Nat.to_uint n).

(** [str(z)] for an integer *)
Definition of_Z (z : Z) : string := NilZero.string_of_int (Z.to_int z).

(** [sep.join(parts)] *)
Fixpoint join (sep : string) (parts : list string) : string :=
  match parts with
  | [] => EmptyString
  | [p] => p
  | p :: ps => p ++ sep ++ join sep ps
  end.

Definition concat_all (parts : list string) : string := join EmptyString parts.

Definition bytes (l : list nat) : string :=
  string_of_list_ascii (map ascii_of_nat l).

End PyStr.

(* ================================================================= *)
(** ** The part of pandas the program relies on *)

Module Pandas.

(** A scalar held by a table. *)
Inductive cell :=
| Num (q : Q)
| Str (s : string)
| NaN.

Inductive dtype := Numeric | Object.

(** A frame: the columns in their order, and the rows, each with its
    label (the entry of [df.index]) and its cells in column order. *)
Record DataFrame := {
  columns : list (string * dtype);
  rows : list (nat * list cell)
}.

Definition column_names (df : DataFrame) : list string :=
  map fst (columns df).

(** [len(df)] *)
Definition len (df : DataFrame) : nat := List.length (rows df).

(** [df.index.tolist()] *)
Definition index (df : DataFrame) : list nat := map fst (rows df).

(** [col in df.columns] *)
Definition has_column (df : DataFrame) (col : string) : bool :=
  existsb (String.eqb col) (column_names df).

Fixpoint position (col : string) (names : list string) : option nat :=
  match names with
  | [] => None
  | n :: r =>
      if String.eqb col n then Some 0
      else match position col r with Some k => Some (S k) | None => None end
  end.

Definition dtype_of (df : DataFrame) (col : string) : option dtype :=
  match position col (column_names df) with
  | Some k => option_map snd (nth_error (columns df) k)
  | None => None
  end.

(** [pd.api.types.is_numeric_dtype(df[col])] for a column that exists *)
Definition is_numeric (df : DataFrame) (col : string) : bool :=
  match dtype_of df col with Some Numeric => true | _ => false end.

(** The cell of a row under a column; a row too short reads as NaN. *)
Definition row_cell (df : DataFrame) (col : string) (r : list cell) : cell :=
  match position col (column_names df) with
  | Some k => nth k r NaN
  | None => NaN
  end.

(** [df[col]] as the labelled cells of the column *)
Definition column (df : DataFrame) (col : string) : list (nat * cell) :=
  map (fun lr => (fst lr, row_cell df col (snd lr))) (rows df).

Definition find_row (df : DataFrame) (label : nat) : option (list cell) :=
  option_map snd (find (fun lr => Nat.eqb (fst lr) label) (rows df)).

(** [df.loc[label, col]]; [None] stands for the KeyError *)
Definition loc (df : DataFrame) (label : nat) (col : string) : option cell :=
  if has_column df col then
    option_map (row_cell df col) (find_row df label)
  else None.

(** [pd.notna] *)
Definition notna (c : cell) : bool :=
  match c with NaN => false | _ => true end.

(** [==] on scalars: NaN equals nothing, a number never equals a text. *)
Definition cell_eqb (a b : cell) : bool :=
  match a, b with
  | Num x, Num y => Qeq_bool x y
  | Str x, Str y => String.eqb x y
  | _, _ => false
  end.

(** Membership as [Series.isin] tests it: there NaN is found in a list
    that holds NaN. *)
Definition isin (c : cell) (values : list cell) : bool :=
  existsb (fun v => match c, v with
                    | NaN, NaN => true
                    | _, _ => cell_eqb c v
                    end) values.

(** [df[mask]]: the rows whose mask is set, labels and cells untouched *)
Definition select (df : DataFrame) (mask : list cell -> bool) : DataFrame :=
  {| columns := columns df;
     rows := filter (fun lr => mask (snd lr)) (rows df) |}.

(** [df.reset_index(drop=True)] *)
Definition reset_index (df : DataFrame) : DataFrame :=
  {| columns := columns df;
     rows := combine (seq 0 (len df)) (map snd (rows df)) |}.

(** The numbers of a column, NaN left out ([skipna=True]). *)
Fixpoint numbers (cells : list cell) : list Q :=
  match cells with
  | [] => []
  | Num q :: r => q :: numbers r
  | _ :: r => numbers r
  end.

Definition Qsum (l : list Q) : Q := fold_left Qplus l (0#1)%Q.

Definition Qof_nat (n : nat) : Q := inject_Z (Z.of_nat n).

(** [Series.sum()]: NaN counts for nothing; the sum of no number is 0.
    The sum is the exact one: that of numpy where int64 does not wrap
    around and float64 does not round, as for whole numbers whose
    absolute values add up to 2^53 at most. *)
Definition series_sum (cells : list cell) : cell :=
  Num (Qsum (numbers cells)).

(** [Series.mean()]: over the numbers present; NaN when there is none.
    The mean is the exact one: that of numpy where the sum is exact and
    binary64 holds the quotient. *)
Definition series_mean (cells : list cell) : cell :=
  match numbers cells with
  | [] => NaN
  | l => Num (Qsum l / Qof_nat (List.length l))%Q
  end.

(** The extremum of a non-empty list, the first one kept on a tie. *)
Fixpoint Qbest (better : Q -> Q -> bool) (best : Q) (l : list Q) : Q :=
  match l with
  | [] => best
  | x :: r => Qbest better (if better x best then x else best) r
  end.

Definition Qgt_bool (x y : Q) : bool := negb (Qle_bool x y).
Definition Qlt_bool (x y : Q) : bool := negb (Qle_bool y x).

(** [Series.max()] and [Series.min()] *)
Definition series_max (cells : list cell) : cell :=
  match numbers cells with
  | [] => NaN
  | x :: r => Num (Qbest Qgt_bool x r)
  end.

Definition series_min (cells : list cell) : cell :=
  match numbers cells with
  | [] => NaN
  | x :: r => Num (Qbest Qlt_bool x r)
  end.

(** The label of the first extremal number of a labelled column, NaN
    skipped; [None] when the column holds no number. *)
Fixpoint arg_best (better : Q -> Q -> bool) (best : option (nat * Q))
  (l : list (nat * cell)) : option (nat * Q) :=
  match l with
  | [] => best
  | (i, Num x) :: r =>
      match best with
      | None => arg_best better (Some (i, x)) r
      | Some (j, y) =>
          arg_best better (if better x y then Some (i, x) else best) r
      end
  | _ :: r => arg_best better best r
  end.

(** [Series.idxmax()], [Series.idxmin()] on a numeric column *)
Definition idxmax (l : list (nat * cell)) : option nat :=
  option_map fst (arg_best Qgt_bool None l).

Definition idxmin (l : list (nat * cell)) : option nat :=
  option_map fst (arg_best Qlt_bool None l).

Definition is_text (c : cell) : bool :=
  match c with Str _ => true | _ => false end.

Definition is_num (c : cell) : bool :=
  match c with Num _ => true | _ => false end.

(** Whether [Series.str] exists: pandas infers the type of the values,
    NaN left out, and knows the accessor for 'empty', 'string', 'mixed'
    and 'mixed-integer' only.  A numeric column has none; a column of
    dtype object has it unless it holds numbers and no text. *)
Definition has_str (d : dtype) (cells : list cell) : bool :=
  match d with
  | Numeric => false
  | Object => existsb is_text cells || negb (existsb is_num cells)
  end.

(** Ascending insertion that keeps one of two equal numbers. *)
Fixpoint Qinsert (q : Q) (l : list Q) : list Q :=
  match l with
  | [] => [q]
  | x :: r =>
      match (q ?= x)%Q with
      | Lt => q :: l
      | Eq => l
      | Gt => x :: Qinsert q r
      end
  end.

Fixpoint str_insert (t : string) (l : list string) : list string :=
  match l with
  | [] => [t]
  | x :: r =>
      match String.compare t x with
      | Lt => t :: l
      | Eq => l
      | Gt => x :: str_insert t r
      end
  end.

Fixpoint texts (cells : list cell) : list string :=
  match cells with
  | [] => []
  | Str t :: r => t :: texts r
  | _ :: r => texts r
  end.

(** The keys of [df.groupby(col)]: the distinct values of the column in
    ascending order, NaN dropped. *)
Definition group_keys (d : dtype) (cells : list cell) : list cell :=
  match d with
  | Numeric => map Num (fold_right Qinsert [] (numbers cells))
  | Object => map Str (fold_right str_insert [] (texts cells))
  end.

(** [int(x)] for a number: towards zero *)
Definition Qtrunc (q : Q) : Z := Z.quot (Qnum q) (Zpos (Qden q)).

(** [Series.dropna().unique()]: the values in order of first appearance *)
Fixpoint unique (seen : list cell) (l : list cell) : list cell :=
  match l with
  | [] => []
  | c :: r =>
      if notna c && negb (existsb (cell_eqb c) seen)
      then c :: unique (c :: seen) r
      else unique seen r
  end.

(** Conversions between numbers and text are left to the run time:
    [str_num] is [str(x)] for a number held by a table, [fmt_fixed]
    renders the format specs [.1f], [.2f] and [,.2f] (the flag tells
    whether thousands are separated), [int_of_str] is [int(s)] for a
    text, [None] standing for its ValueError. *)
Class Format := {
  str_num : Q -> string;
  fmt_fixed : bool -> nat -> Q -> string;
  int_of_str : string -> option Z
}.

(** [str(c)] and [f"{c}"] *)
Definition str_cell `{Format} (c : cell) : string :=
  match c with
  | Num q => str_num q
  | Str s => s
  | NaN => "nan"
  end.

End Pandas.

(* ================================================================= *)
(** ** Exceptions *)

Inductive exn := AttributeError | KeyError | TypeError | ValueError | IndexError.

Inductive res (A : Type) :=
| Ok (a : A)
| Raise (e : exn).

Arguments Ok {A} a.
Arguments Raise {A} e.

Definition bind {A B : Type} (m : res A) (k : A -> res B) : res B :=
  match m with
  | Ok a => k a
  | Raise e => Raise e
  end.

Notation "x <- m ;; k" := (bind m (fun x => k))
  (at level 61, m at next level, right associativity).

(** A loop body run over a list, stopping at the first exception. *)
Fixpoint for_each {A B : Type} (f : A -> res (list B)) (l : list A)
  : res (list B) :=
  match l with
  | [] => Ok []
  | a :: r => ys <- f a ;; zs <- for_each f r ;; Ok (ys ++ zs)
  end.

(* ================================================================= *)
(** ** query_parser.py *)

Module QueryParser.
Import PyStr.

(** [self.intent_patterns]; a dict keeps insertion order, so iterating
    over its items goes through this list from the top. *)
Definition intent_patterns : list (string * list string) :=
  [ ("compare", ["compare"; "difference between"; "vs"; "versus"]);
    ("maximum", ["highest"; "maximum"; "max"; "most"; "greatest"; "largest"]);
    ("minimum", ["lowest"; "minimum"; "min"; "least"; "smallest"]);
    ("average", ["average"; "mean"; "avg"]);
    ("sum",     ["total"; "sum"; "combined"]);
    ("trend",   ["trend"; "pattern"; "over time"; "change"]);
    ("list",    ["list"; "show"; "display"; "what are"]);
    ("count",   ["how many"; "count"; "number of"]) ].

Definition month_names : list string :=
  [ "january"; "february"; "march"; "april"; "may"; "june";
    "july"; "august"; "september"; "october"; "november"; "december";
    "jan"; "feb"; "mar"; "apr"; "may"; "jun"; "jul"; "aug"; "sep"; "oct";
    "nov"; "dec" ].

Definition season_names : list string :=
  [ "monsoon"; "winter"; "summer"; "spring"; "autumn"; "fall" ].

(** The loop of [_extract_intent] over an ordered table. *)
Fixpoint first_intent (table : list (string * list string)) (question : string)
  : string :=
  match table with
  | [] => "query"
  | (intent, patterns) :: rest =>
      if any_in patterns question then intent else first_intent rest question
  end.

Definition _extract_intent (question : string) : string :=
  first_intent intent_patterns question.

(** *** Year extraction

    [re.findall] scans from the left; after a match it resumes at the
    end of the match.  Both patterns match at least four characters, so
    the scan is written with a counter of characters still covered by
    the last match. *)

(** [\b] between two neighbouring positions; a missing neighbour (start
    or end of the text) is no word character. *)
Definition word_opt (c : option ascii) : bool :=
  match c with Some a => is_word a | None => false end.

Definition boundary (before after : option ascii) : bool :=
  xorb (word_opt before) (word_opt after).

Definition head (s : string) : option ascii :=
  match s with EmptyString => None | String c _ => Some c end.

Definition digit_val (c : ascii) : Z := Z.of_nat (nat_of_ascii c - 48).

(** [(19\d{2}|20\d{2}|21\d{2})] at the start of [s]: the value of the
    group, as [int] reads it, and the rest of the text. *)
Definition year_prefix (s : string) : option (Z * string) :=
  match s with
  | String c1 (String c2 (String c3 (String c4 rest))) =>
      if ((Ascii.eqb c1 "1" && Ascii.eqb c2 "9")
          || (Ascii.eqb c1 "2" && (Ascii.eqb c2 "0" || Ascii.eqb c2 "1")))
         && is_digit c3 && is_digit c4
      then Some (1000 * digit_val c1 + 100 * digit_val c2
                 + 10 * digit_val c3 + digit_val c4, rest)%Z
      else None
  | _ => None
  end.

(** The last character of a year that was just read is a digit, so the
    closing [\b] asks for a following non-word character or the end. *)
Definition year_end (rest : string) : bool := negb (word_opt (head rest)).

(** [\b(19\d{2}|20\d{2}|21\d{2})\b] at the start of [s], [prev] being
    the character before it. *)
Definition match_year (prev : option ascii) (s : string) : option Z :=
  if boundary prev (head s) then
    match year_prefix s with
    | Some (y, rest) => if year_end rest then Some y else None
    | None => None
    end
  else None.

Fixpoint findall_year (prev : option ascii) (covered : nat) (s : string)
  : list Z :=
  match s with
  | EmptyString => []
  | String c r =>
      match covered with
      | S k => findall_year (Some c) k r
      | O =>
          match match_year prev s with
          | Some y => y :: findall_year (Some c) 3 r
          | None => findall_year (Some c) 0 r
          end
      end
  end.

(** [\s*]: greedy; what follows it in the pattern never starts with a
    space, so giving spaces back cannot help.  Returns the number of
    characters taken and the rest. *)
Fixpoint skip_spaces (s : string) : nat * string :=
  match s with
  | String c r =>
      if is_space c then let '(n, t) := skip_spaces r in (S n, t) else (0, s)
  | EmptyString => (0, s)
  end.

Definition en_dash : string := bytes [226; 128; 147].

(** [(?:to|-|\226\128\147)]: the alternatives start with different
    characters, so their order does not matter.  Returns the length of
    the alternative taken and the rest. *)
Definition separator (s : string) : option (nat * string) :=
  match strip_prefix "to" s with
  | Some r => Some (2, r)
  | None =>
      match strip_prefix "-" s with
      | Some r => Some (1, r)
      | None =>
          match strip_prefix en_dash s with
          | Some r => Some (3, r)
          | None => None
          end
      end
  end.

(** The range pattern at the start of [s]: both groups and the length
    of the match. *)
Definition match_range (prev : option ascii) (s : string)
  : option (Z * Z * nat) :=
  if boundary prev (head s) then
    match year_prefix s with
    | Some (a, r1) =>
        let '(n1, r2) := skip_spaces r1 in
        match separator r2 with
        | Some (k, r3) =>
            let '(n2, r4) := skip_spaces r3 in
            match year_prefix r4 with
            | Some (b, r5) =>
                if year_end r5 then Some (a, b, 4 + n1 + k + n2 + 4) else None
            | None => None
            end
        | None => None
        end
    | None => None
    end
  else None.

Fixpoint findall_range (prev : option ascii) (covered : nat) (s : string)
  : list (Z * Z) :=
  match s with
  | EmptyString => []
  | String c r =>
      match covered with
      | S k => findall_range (Some c) k r
      | O =>
          match match_range prev s with
          | Some (a, b, len) => (a, b) :: findall_range (Some c) (len - 1) r
          | None => findall_range (Some c) 0 r
          end
      end
  end.

(** [range(a, b + 1)] *)
Definition py_range (a b : Z) : list Z :=
  map (fun i => (a + Z.of_nat i)%Z) (seq 0 (Z.to_nat (b + 1 - a))).

(** [sorted(list(set(l)))]: insertion into an ascending list that holds
    no value twice. *)
Fixpoint insert_uniq (y : Z) (l : list Z) : list Z :=
  match l with
  | [] => [y]
  | x :: r =>
      match (y ?= x)%Z with
      | Lt => y :: l
      | Eq => l
      | Gt => x :: insert_uniq y r
      end
  end.

Definition sorted_set (l : list Z) : list Z := fold_right insert_uniq [] l.

Definition _extract_years (question : string) : list Z :=
  let years := findall_year None 0 question in
  let range_matches := findall_range None 0 question in
  let years :=
    years ++ flat_map (fun '(start_year, end_year) =>
                         py_range start_year end_year) range_matches in
  sorted_set years.

(** *** Entities, metrics and the parsed query *)

Import Pandas.

(** The dict [entities]. *)
Record Entities := {
  states : list cell;
  months : list string;
  seasons : list string
}.

(** The dict [filters]; a key that is absent is [None].  The keys are
    'states', 'years', 'months' and 'seasons'. *)
Record Filters := {
  f_states : option (list cell);
  f_years : option (list Z);
  f_months : option (list string);
  f_seasons : option (list string)
}.

(** The dict returned by [parse]. *)
Record ParsedQuery := {
  original_question : string;
  intent : string;
  entities : Entities;
  years : list Z;
  metrics : list string;
  filters : Filters
}.

Definition _find_columns_by_keywords (df : DataFrame) (keywords : list string)
  : list string :=
  filter (fun col => has_keyword keywords (lower col)) (column_names df).

Definition state_keywords : list string :=
  ["state"; "region"; "district"; "area"; "location"].

Definition rainfall_keywords : list string :=
  ["rainfall"; "rain"; "precipitation"; "mm"; "millimeter"].

Definition temperature_keywords : list string :=
  ["temperature"; "temp"; "celsius"; "fahrenheit"].

Section Extraction.
Context `{Format}.

Definition _extract_entities (question : string) (df : DataFrame) : Entities :=
  let found_states :=
    match _find_columns_by_keywords df state_keywords with
    | state_col :: _ =>
        let unique_states := unique [] (map snd (column df state_col)) in
        filter (fun state => contains (lower (str_cell state)) question)
               unique_states
    | [] => []
    end in
  {| states := found_states;
     months := filter (fun month => contains month question) month_names;
     seasons := filter (fun season => contains season question) season_names |}.

(** [df.select_dtypes(include=['number']).columns.tolist()] *)
Definition numeric_cols (df : DataFrame) : list string :=
  map fst (filter (fun cd => match snd cd with Numeric => true | Object => false end)
                  (columns df)).

Definition _extract_metrics (question : string) (df : DataFrame) : list string :=
  let picked :=
    filter (fun col =>
              let col_lower := lower col in
              if contains col_lower question then true
              else if has_keyword rainfall_keywords col_lower
                   then any_in rainfall_keywords question
              else if has_keyword temperature_keywords col_lower
                   then any_in temperature_keywords question
              else false)
           (numeric_cols df) in
  match picked with
  | [] => numeric_cols df
  | _ => picked
  end.

(** A key of [filters] is set only when its list is not empty. *)
Definition when_any {A : Type} (l : list A) : option (list A) :=
  match l with [] => None | _ => Some l end.

(** The dict that [parse] returns, when it returns; [parse_call] below
    is the call, with the one exception it can end in. *)
Definition parse (question : string) (df : DataFrame) : ParsedQuery :=
  let question_lower := lower question in
  let ents := _extract_entities question_lower df in
  let ys := _extract_years question_lower in
  {| original_question := question;
     intent := _extract_intent question_lower;
     entities := ents;
     years := ys;
     metrics := _extract_metrics question_lower df;
     filters := {| f_states := when_any (states ents);
                   f_years := when_any ys;
                   f_months := when_any (months ents);
                   f_seasons := when_any (seasons ents) |} |}.

(** How many columns bear the name [col]. *)
Definition occurrences (col : string) (names : list string) : nat :=
  List.length (filter (String.eqb col) names).

(** The call [parse(question, df)] with its exception.  Where the name
    of the first region column is borne by more than one column,
    [df[state_col]] is a frame and not a column, and a frame has no
    [unique]: the call ends in an AttributeError.  Otherwise it
    returns the dict [parse question df]. *)
Definition parse_call (question : string) (df : DataFrame)
  : res ParsedQuery :=
  match _find_columns_by_keywords df state_keywords with
  | state_col :: _ =>
      if (1 <? occurrences state_col (column_names df))%nat
      then Raise AttributeError
      else Ok (parse question df)
  | [] => Ok (parse question df)
  end.

End Extraction.

End QueryParser.

(* ================================================================= *)
(** ** data_analyzer.py *)

Module DataAnalyzer.
Import PyStr Pandas QueryParser.

(** The dict [entity_info] of an extremum; a key is present when the
    snapshot has a column of that role. *)
Record EntityInfo := {
  state : option cell;
  year : option cell
}.

(** The dicts appended to [results['data']], one constructor for each
    set of keys the analyzer writes. *)
Inductive ResultItem :=
| Comparison (entity : cell) (metric : string) (value : cell)
    (row_index : nat) (count : nat)
| Extremum (metric : string) (value : cell) (row_index : nat)
    (entity_info : EntityInfo)
| Aggregate (metric : string) (value : cell) (count : nat)
    (row_indices : list nat)
| Trend (year : Z) (metric : string) (value : cell) (row_indices : list nat)
| Count (count : nat) (row_indices : list nat)
| General (metric : string) (mean min max : cell) (count : nat)
    (row_indices : list nat).

(** The dict [results]. *)
Record ResultBundle := {
  type : string;
  data : list ResultItem;
  citations : list string
}.

Definition empty_results (kind : string) : ResultBundle :=
  {| type := kind; data := []; citations := [] |}.

Definition with_data (kind : string) (items : list ResultItem) : ResultBundle :=
  {| type := kind; data := items; citations := [] |}.

(** [DataAnalyzer(df)]: the snapshot [self.df], labels reset to
    0, 1, 2, ... *)
Definition new (df : DataFrame) : DataFrame := reset_index df.

Section Analyzer.
Context `{Format}.

(** [self.df] *)
Variable self_df : DataFrame.

Definition _find_state_columns : list string :=
  filter (fun col =>
            has_keyword ["state"; "region"; "district"; "area"; "location"]
                        (lower col))
         (column_names self_df).

Definition _find_year_columns : list string :=
  filter (fun col => has_keyword ["year"; "yr"] (lower col))
         (column_names self_df).

Definition _find_month_columns : list string :=
  filter (fun col => has_keyword ["month"; "mon"] (lower col))
         (column_names self_df).

(** [filters[key]] when the key is present, the empty list otherwise:
    the tests ['key' in filters and filters['key']] ask for a list that
    is not empty. *)
Definition requested {A : Type} (f : option (list A)) : list A :=
  match f with Some l => l | None => [] end.

(** [Series.str.lower()] cell by cell; what is no text becomes NaN. *)
Definition str_lower (c : cell) : cell :=
  match c with Str t => Str (lower t) | _ => NaN end.

Definition cells_of (df : DataFrame) (col : string) : list cell :=
  map snd (column df col).

(** [df[col].str] is there; the column is that of the frame [df], which
    the filters before may have cut down. *)
Definition str_accessor (df : DataFrame) (col : string) : bool :=
  has_str (if is_numeric df col then Numeric else Object) (cells_of df col).

Definition _apply_filters (filters : Filters) : res DataFrame :=
  let df := self_df in
  (* Filter by states *)
  let df :=
    match requested (f_states filters), _find_state_columns with
    | (_ :: _) as wanted, state_col :: _ =>
        select df (fun r => isin (row_cell df state_col r) wanted)
    | _, _ => df
    end in
  (* Filter by years *)
  let df :=
    match requested (f_years filters), _find_year_columns with
    | (_ :: _) as wanted, year_col :: _ =>
        select df (fun r => isin (row_cell df year_col r)
                                 (map (fun y => Num (inject_Z y)) wanted))
    | _, _ => df
    end in
  (* Filter by months *)
  match requested (f_months filters), _find_month_columns with
  | (_ :: _) as wanted, month_col :: _ =>
      (* [df[month_col].str] raises where there is no such accessor *)
      if str_accessor df month_col then
        Ok (select df (fun r => isin (str_lower (row_cell df month_col r))
                                     (map (fun m => Str (lower m)) wanted)))
      else Raise AttributeError
  | _, _ => Ok df
  end.

(** [Series.mean()] as the untyped paths call it: a text in the column
    makes the reduction fail. *)
Definition checked_mean (cells : list cell) : res cell :=
  if existsb is_text cells then Raise TypeError else Ok (series_mean cells).

Definition _compare_entities (df : DataFrame) (filters : Filters)
  (metrics : list string) : res ResultBundle :=
  match _find_state_columns, metrics with
  | state_col :: _, metric :: _ =>
      if String.eqb metric EmptyString then Ok (empty_results "comparison")
      else
        items <- for_each (fun state_ =>
          let state_data :=
            select df (fun r => cell_eqb (row_cell df state_col r) state_) in
          match index state_data with
          | row_idx :: _ =>
              if has_column df metric then
                agg_value <- checked_mean (cells_of state_data metric) ;;
                Ok [Comparison state_ metric agg_value row_idx (len state_data)]
              else Raise KeyError
          | [] => Ok []
          end) (requested (f_states filters)) ;;
        Ok (with_data "comparison" items)
  | _, _ => Ok (empty_results "comparison")
  end.

Definition entity_info_at (df : DataFrame) (label : nat) : EntityInfo :=
  let at_col (cols : list string) :=
    match cols with
    | col :: _ =>
        Some (match loc df label col with Some c => c | None => NaN end)
    | [] => None
    end in
  {| state := at_col _find_state_columns; year := at_col _find_year_columns |}.

(** The body shared by [_find_maximum] and [_find_minimum]: [idx] is
    [idxmax] or [idxmin].  These are not defined on a column of dtype
    object (TypeError), and a column without any number has no
    extremal row: the search raises (ValueError in pandas 3; earlier
    versions hand back NaN, on which the lookup of the next line
    raises). *)
Definition find_extremum (kind : string)
  (idx : list (nat * cell) -> option nat)
  (df : DataFrame) (metrics : list string) : res ResultBundle :=
  match metrics with
  | [] => Ok (empty_results kind)
  | metric :: _ =>
      if Nat.eqb (len df) 0 then Ok (empty_results kind)
      else if negb (has_column df metric) then Ok (empty_results kind)
      else if negb (is_numeric df metric) then Raise TypeError
      else
        match idx (column df metric) with
        | None => Raise ValueError
        | Some best_idx =>
            match loc df best_idx metric with
            | None => Raise KeyError
            | Some best_value =>
                Ok (with_data kind
                      [Extremum metric best_value best_idx
                                (entity_info_at df best_idx)])
            end
        end
  end.

Definition _find_maximum := find_extremum "maximum" idxmax.
Definition _find_minimum := find_extremum "minimum" idxmin.

(** The body shared by [_calculate_average] and [_calculate_sum]. *)
Definition aggregate (kind : string) (reduce : list cell -> cell)
  (df : DataFrame) (metrics : list string) : res ResultBundle :=
  match metrics with
  | [] => Ok (empty_results kind)
  | _ =>
      if Nat.eqb (len df) 0 then Ok (empty_results kind)
      else
        Ok (with_data kind
              (map (fun metric =>
                      Aggregate metric (reduce (cells_of df metric))
                                (len df) (index df))
                   (filter (fun metric =>
                              has_column df metric && is_numeric df metric)
                           metrics)))
  end.

Definition _calculate_average := aggregate "average" series_mean.
Definition _calculate_sum := aggregate "sum" series_sum.

Definition int_of_cell (c : cell) : res Z :=
  match c with
  | Num q => Ok (Qtrunc q)
  | Str t => match int_of_str t with Some z => Ok z | None => Raise ValueError end
  | NaN => Raise ValueError
  end.

Definition _analyze_trend (df : DataFrame) (metrics : list string)
  : res ResultBundle :=
  match _find_year_columns, metrics with
  | year_col :: _, metric :: _ =>
      if Nat.eqb (len df) 0 then Ok (empty_results "trend")
      else if negb (has_column df metric) then Ok (empty_results "trend")
      else if existsb is_text (cells_of df metric) then Raise TypeError
      (* [reset_index] cannot insert the grouping column twice *)
      else if String.eqb metric year_col then Raise ValueError
      else
        let d := match dtype_of df year_col with Some d => d | None => Object end in
        items <- for_each (fun key =>
          let group :=
            select df (fun r => cell_eqb (row_cell df year_col r) key) in
          y <- int_of_cell key ;;
          Ok [Trend y metric (series_mean (cells_of group metric))
                    (index group)])
          (group_keys d (cells_of df year_col)) ;;
        Ok (with_data "trend" items)
  | _, _ => Ok (empty_results "trend")
  end.

Definition _count_records (df : DataFrame) : res ResultBundle :=
  Ok (with_data "count" [Count (len df) (index df)]).

Definition _general_query (df : DataFrame) (metrics : list string)
  : res ResultBundle :=
  if Nat.eqb (len df) 0 then Ok (empty_results "general")
  else
    Ok (with_data "general"
          (map (fun metric =>
                  let cells := cells_of df metric in
                  General metric (series_mean cells) (series_min cells)
                          (series_max cells) (len df) (index df))
               (filter (fun metric =>
                          has_column df metric && is_numeric df metric)
                       metrics))).

Definition execute_query (parsed_query : ParsedQuery) : res ResultBundle :=
  let intent := intent parsed_query in
  let filters := filters parsed_query in
  let metrics := metrics parsed_query in
  filtered_df <- _apply_filters filters ;;
  if String.eqb intent "compare" then
    _compare_entities filtered_df filters metrics
  else if String.eqb intent "maximum" then _find_maximum filtered_df metrics
  else if String.eqb intent "minimum" then _find_minimum filtered_df metrics
  else if String.eqb intent "average" then _calculate_average filtered_df metrics
  else if String.eqb intent "sum" then _calculate_sum filtered_df metrics
  else if String.eqb intent "trend" then _analyze_trend filtered_df metrics
  else if String.eqb intent "count" then _count_records filtered_df
  else _general_query filtered_df metrics.

End Analyzer.

End DataAnalyzer.

(* ================================================================= *)
(** ** answer_generator.py *)

Module AnswerGenerator.
Import PyStr Pandas QueryParser DataAnalyzer.
Local Open Scope string_scope.

(** The dict returned by [generate_answer]. *)
Record Answer := {
  answer : string;
  citations : list string
}.

(** *** Reading the keys of an item; a missing key is a KeyError. *)

Definition get_entity (item : ResultItem) : res cell :=
  match item with
  | Comparison e _ _ _ _ => Ok e
  | _ => Raise KeyError
  end.

Definition get_metric (item : ResultItem) : res string :=
  match item with
  | Comparison _ m _ _ _ | Extremum m _ _ _ | Aggregate m _ _ _
  | Trend _ m _ _ | General m _ _ _ _ _ => Ok m
  | Count _ _ => Raise KeyError
  end.

Definition get_value (item : ResultItem) : res cell :=
  match item with
  | Comparison _ _ v _ _ | Extremum _ v _ _ | Aggregate _ v _ _
  | Trend _ _ v _ => Ok v
  | _ => Raise KeyError
  end.

Definition get_row_index (item : ResultItem) : res nat :=
  match item with
  | Comparison _ _ _ i _ | Extremum _ _ i _ => Ok i
  | _ => Raise KeyError
  end.

Definition get_count (item : ResultItem) : res nat :=
  match item with
  | Comparison _ _ _ _ n | Aggregate _ _ n _ | Count n _
  | General _ _ _ _ n _ => Ok n
  | _ => Raise KeyError
  end.

Definition get_year (item : ResultItem) : res Z :=
  match item with
  | Trend y _ _ _ => Ok y
  | _ => Raise KeyError
  end.

(** [item.get('row_indices', [])] *)
Definition get_row_indices (item : ResultItem) : list nat :=
  match item with
  | Aggregate _ _ _ l | Trend _ _ _ l | Count _ l | General _ _ _ _ _ l => l
  | _ => []
  end.

(** [item.get('entity_info', {})] *)
Definition get_entity_info (item : ResultItem) : EntityInfo :=
  match item with
  | Extremum _ _ _ info => info
  | _ => {| state := None; year := None |}
  end.

Definition get_summary (item : ResultItem) : res (cell * cell * cell) :=
  match item with
  | General _ mean min max _ _ => Ok (mean, min, max)
  | _ => Raise KeyError
  end.

(** *** Fixed pieces of text *)

Definition nl : string := bytes [10].
Definition bullet : string := bytes [195; 162; 226; 130; 172; 194; 162].
Definition pin : string := bytes [195; 176; 197; 184; 226; 128; 156].
Definition degree : string := bytes [195; 130; 194; 176].

Definition no_data_message : string :=
  "I couldn't find relevant data to answer this question. Please check if the data contains the required information.".

Section Generator.
Context `{Format}.

Definition _create_citation (row_idx : nat) (column : string) (df : DataFrame)
  : string :=
  match loc df row_idx column with
  | Some value =>
      let citation :=
        pin ++ " Row " ++ of_nat row_idx ++ ", Column '" ++ column ++ "': "
            ++ str_cell value in
      let context_cols :=
        firstn 3
          (flat_map (fun col =>
                       if negb (String.eqb col column) then
                         match loc df row_idx col with
                         | Some val =>
                             if notna val then [col ++ "=" ++ str_cell val]
                             else []
                         | None => []
                         end
                       else [])
                    (column_names df)) in
      match context_cols with
      | [] => citation
      | _ => citation ++ " (Context: " ++ join ", " context_cols ++ ")"
      end
  | None => pin ++ " Row " ++ of_nat row_idx ++ ", Column '" ++ column ++ "'"
  end.

(** A text has no order with 1000, hence the TypeError. *)
Definition _format_value (value : cell) : res string :=
  match value with
  | NaN => Ok "N/A"
  | Num q => Ok (fmt_fixed (Qle_bool (1000 # 1) q) 2 q)
  | Str _ => Raise TypeError
  end.

Definition _format_metric_name (metric : string) : string :=
  title (replace_char "_" " " metric).

Definition _get_unit (metric : string) : string :=
  let metric_lower := lower metric in
  if contains "mm" metric_lower || contains "millimeter" metric_lower then "mm"
  else if contains "cm" metric_lower || contains "centimeter" metric_lower
  then "cm"
  else if contains "inch" metric_lower then "inches"
  else if contains "temp" metric_lower || contains "celsius" metric_lower
  then degree ++ "C"
  else if contains "fahrenheit" metric_lower then degree ++ "F"
  else EmptyString.

(** ['s' if count > 1 else ''] *)
Definition plural_gt1 (count : nat) : string :=
  if (1 <? count)%nat then "s" else EmptyString.

(** ['s' if count != 1 else ''] *)
Definition plural_ne1 (count : nat) : string :=
  if Nat.eqb count 1 then EmptyString else "s".

(** [>] and [<] on the values of items; NaN is in no order with
    anything.  Values that are texts never get here: [_format_value]
    has raised on them before. *)
Definition value_gt (a b : cell) : bool :=
  match a, b with Num x, Num y => Qgt_bool x y | _, _ => false end.

Definition value_lt (a b : cell) : bool :=
  match a, b with Num x, Num y => Qlt_bool x y | _, _ => false end.

(** [max(values)] and [min(values)] on a non-empty list *)
Fixpoint best_value (better : cell -> cell -> bool) (best : cell)
  (l : list cell) : cell :=
  match l with
  | [] => best
  | x :: r => best_value better (if better x best then x else best) r
  end.

(** [values.index(v)] for a [v] taken from [values]: the first position
    that holds [v] itself or a value equal to it. *)
Fixpoint index_of (v : cell) (values : list cell) : nat :=
  match values with
  | [] => 0
  | x :: r =>
      if cell_eqb x v || (negb (notna x) && negb (notna v)) then 0
      else S (index_of v r)
  end.

(** The loop of a renderer: each item gives pieces of prose and
    citations, collected in order. *)
Fixpoint render_items (f : ResultItem -> res (list string * list string))
  (items : list ResultItem) : res (list string * list string) :=
  match items with
  | [] => Ok ([], [])
  | item :: rest =>
      pc <- f item ;;
      more <- render_items f rest ;;
      Ok ((fst pc ++ fst more)%list, (snd pc ++ snd more)%list)
  end.

Definition nth_item (items : list ResultItem) (i : nat) : res ResultItem :=
  match nth_error items i with
  | Some item => Ok item
  | None => Raise IndexError
  end.

Definition _generate_comparison_answer (question : string)
  (data : list ResultItem) (df : DataFrame) : res Answer :=
  pc <- render_items (fun item =>
    entity <- get_entity item ;;
    metric <- get_metric item ;;
    value <- get_value item ;;
    row_idx <- get_row_index item ;;
    count <- get_count item ;;
    formatted_value <- _format_value value ;;
    Ok ([bullet ++ " **" ++ str_cell entity ++ "**: " ++ formatted_value
           ++ " " ++ _format_metric_name metric ++ " (averaged from "
           ++ of_nat count ++ " record" ++ plural_gt1 count ++ ")"],
        [_create_citation row_idx metric df])) data ;;
  summary <-
    (if (2 <=? List.length data)%nat then
       values <- for_each (fun item => v <- get_value item ;; Ok [v]) data ;;
       match values with
       | [] => Raise ValueError
       | v0 :: vs =>
           max_item <- nth_item data
                         (index_of (best_value value_gt v0 vs) values) ;;
           min_item <- nth_item data
                         (index_of (best_value value_lt v0 vs) values) ;;
           max_entity <- get_entity max_item ;;
           max_value <- get_value max_item ;;
           max_text <- _format_value max_value ;;
           max_metric <- get_metric max_item ;;
           min_entity <- get_entity min_item ;;
           min_value <- get_value min_item ;;
           min_text <- _format_value min_value ;;
           min_metric <- get_metric min_item ;;
           Ok [nl ++ "**" ++ str_cell max_entity ++ "** had the highest value ("
                  ++ max_text ++ " " ++ _format_metric_name max_metric
                  ++ "), while **" ++ str_cell min_entity
                  ++ "** had the lowest (" ++ min_text ++ " "
                  ++ _format_metric_name min_metric ++ ")."]
       end
     else Ok []) ;;
  Ok {| answer :=
          concat_all (("Based on the data analysis:" ++ nl ++ nl)
                        :: (fst pc ++ summary)%list);
        citations := snd pc |}.

(** The body shared by [_generate_maximum_answer] and
    [_generate_minimum_answer]: [adj] is "highest" or "lowest", [noun]
    is "maximum" or "minimum". *)
Definition extremum_answer (adj noun : string) (data : list ResultItem)
  (df : DataFrame) : res Answer :=
  item <- nth_item data 0 ;;
  metric <- get_metric item ;;
  value <- get_value item ;;
  row_idx <- get_row_index item ;;
  let entity_info := get_entity_info item in
  shown <- _format_value value ;;
  let amount := "**" ++ shown ++ " " ++ _get_unit metric ++ "**." in
  let recorded :=
    "The " ++ adj ++ " " ++ _format_metric_name metric
      ++ " was recorded in **" in
  let text :=
    match state entity_info, year entity_info with
    | Some st, Some yr =>
        recorded ++ str_cell st ++ "** during **" ++ str_cell yr
          ++ "** with a value of " ++ amount
    | Some st, None =>
        recorded ++ str_cell st ++ "** with a value of " ++ amount
    | None, Some yr =>
        recorded ++ str_cell yr ++ "** with a value of " ++ amount
    | None, None =>
        "The " ++ noun ++ " " ++ _format_metric_name metric
          ++ " value found is " ++ amount
    end in
  Ok {| answer := text; citations := [_create_citation row_idx metric df] |}.

Definition _generate_maximum_answer (question : string) :=
  extremum_answer "highest" "maximum".

Definition _generate_minimum_answer (question : string) :=
  extremum_answer "lowest" "minimum".

(** The citations of one aggregated item: its first three rows when it
    has more than three, all its rows otherwise, and then the line that
    counts the rows left out. *)
Definition sample_citations (metric : string) (row_indices : list nat)
  (df : DataFrame) : list string :=
  let sample_indices :=
    if (3 <? List.length row_indices)%nat then firstn 3 row_indices
    else row_indices in
  (map (fun idx => _create_citation idx metric df) sample_indices
   ++ (if (3 <? List.length row_indices)%nat
       then [("... and " ++ of_nat (List.length row_indices - 3)
                ++ " more rows")%string]
       else []))%list.

(** The body shared by [_generate_average_answer] and
    [_generate_sum_answer]. *)
Definition aggregate_answer (noun verb : string) (data : list ResultItem)
  (df : DataFrame) : res Answer :=
  pc <- render_items (fun item =>
    metric <- get_metric item ;;
    value <- get_value item ;;
    count <- get_count item ;;
    let row_indices := get_row_indices item in
    shown <- _format_value value ;;
    Ok (["The " ++ noun ++ " " ++ _format_metric_name metric ++ " is **"
           ++ shown ++ " " ++ _get_unit metric ++ "** (" ++ verb ++ " from "
           ++ of_nat count ++ " record" ++ plural_gt1 count ++ ")."],
        sample_citations metric row_indices df)) data ;;
  Ok {| answer := join " " (fst pc); citations := snd pc |}.

Definition _generate_average_answer (question : string) :=
  aggregate_answer "average" "calculated".

Definition _generate_sum_answer (question : string) :=
  aggregate_answer "total" "summed".

(** [sorted(data, key=lambda x: x['year'])]: stable. *)
Fixpoint insert_by_year (x : Z * ResultItem) (l : list (Z * ResultItem))
  : list (Z * ResultItem) :=
  match l with
  | [] => [x]
  | y :: r =>
      if (fst x <=? fst y)%Z then x :: l else y :: insert_by_year x r
  end.

Definition sort_by_year (data : list ResultItem) : res (list ResultItem) :=
  keyed <- for_each (fun item => y <- get_year item ;; Ok [(y, item)]) data ;;
  Ok (map snd (fold_right insert_by_year [] keyed)).

(** The closing sentence of a trend: direction and size of the change
    between the first and the last year. *)
Definition trend_change (first_value last_value : cell) : string * string :=
  match first_value, last_value with
  | Num a, Num b =>
      let change := (b - a)%Q in
      let percent_change :=
        if Qeq_bool a (0 # 1) then (0 # 1)%Q else (change / a * (100 # 1))%Q in
      (if Qlt_bool (0 # 1) change then "increased" else "decreased",
       fmt_fixed false 1 (Qabs percent_change))
  | Num a, _ =>
      ("decreased",
       if Qeq_bool a (0 # 1) then fmt_fixed false 1 (0 # 1)%Q else "nan")
  | _, _ => ("decreased", "nan")
  end.

Definition last_item (items : list ResultItem) : res ResultItem :=
  nth_item items (List.length items - 1).

Definition _generate_trend_answer (question : string)
  (data : list ResultItem) (df : DataFrame) : res Answer :=
  sorted_data <- sort_by_year data ;;
  pc <- render_items (fun item =>
    year <- get_year item ;;
    value <- get_value item ;;
    metric <- get_metric item ;;
    shown <- _format_value value ;;
    Ok ([bullet ++ " **" ++ of_Z year ++ "**: " ++ shown ++ " "
           ++ _get_unit metric ++ nl],
        match get_row_indices item with
        | first_row :: _ => [_create_citation first_row metric df]
        | [] => []
        end)) sorted_data ;;
  closing <-
    (if (2 <=? List.length sorted_data)%nat then
       first_item <- nth_item sorted_data 0 ;;
       first_value <- get_value first_item ;;
       final <- last_item sorted_data ;;
       last_value <- get_value final ;;
       first_metric <- get_metric first_item ;;
       let '(trend_word, percent) := trend_change first_value last_value in
       Ok [nl ++ "**Overall Trend**: The " ++ _format_metric_name first_metric
              ++ " " ++ trend_word ++ " by " ++ percent
              ++ "% over this period."]
     else Ok []) ;;
  Ok {| answer :=
          concat_all (("**Rainfall Trend Analysis:**" ++ nl ++ nl)
                        :: (fst pc ++ closing)%list);
        citations := snd pc |}.

Definition _generate_count_answer (question : string)
  (data : list ResultItem) (df : DataFrame) : res Answer :=
  item <- nth_item data 0 ;;
  count <- get_count item ;;
  Ok {| answer := "There are **" ++ of_nat count ++ "** record"
                    ++ plural_ne1 count ++ " matching your query.";
        citations := [] |}.

Definition _generate_general_answer (question : string)
  (data : list ResultItem) (df : DataFrame) : res Answer :=
  pc <- render_items (fun item =>
    metric <- get_metric item ;;
    stats <- get_summary item ;;
    let '(mean, min, max) := stats in
    mean_text <- _format_value mean ;;
    min_text <- _format_value min ;;
    max_text <- _format_value max ;;
    count <- get_count item ;;
    let unit := _get_unit metric in
    Ok (["**" ++ _format_metric_name metric ++ "**:" ++ nl;
         bullet ++ " Mean: " ++ mean_text ++ " " ++ unit ++ nl;
         bullet ++ " Minimum: " ++ min_text ++ " " ++ unit ++ nl;
         bullet ++ " Maximum: " ++ max_text ++ " " ++ unit ++ nl;
         bullet ++ " Total Records: " ++ of_nat count ++ nl ++ nl],
        map (fun idx => _create_citation idx metric df)
            (firstn 3 (get_row_indices item)))) data ;;
  Ok {| answer :=
          concat_all (("Based on the available data:" ++ nl ++ nl) :: fst pc);
        citations := snd pc |}.

Definition generate_answer (question : string) (parsed_query : ParsedQuery)
  (results : ResultBundle) (df : DataFrame) : res Answer :=
  let result_type := type results in
  let data := data results in
  match data with
  | [] => Ok {| answer := no_data_message; citations := [] |}
  | _ =>
      if String.eqb result_type "comparison" then
        _generate_comparison_answer question data df
      else if String.eqb result_type "maximum" then
        _generate_maximum_answer question data df
      else if String.eqb result_type "minimum" then
        _generate_minimum_answer question data df
      else if String.eqb result_type "average" then
        _generate_average_answer question data df
      else if String.eqb result_type "sum" then
        _generate_sum_answer question data df
      else if String.eqb result_type "trend" then
        _generate_trend_answer question data df
      else if String.eqb result_type "count" then
        _generate_count_answer question data df
      else _generate_general_answer question data df
  end.

End Generator.

End AnswerGenerator.

(* ================================================================= *)
(** ** data_loader.py *)

Module DataLoader.
Import PyStr.

(** [s.lstrip(...)] and [s.rstrip(...)], for the characters that
    satisfy [p] *)
Fixpoint lstrip (p : ascii -> bool) (s : string) : string :=
  match s with
  | EmptyString => EmptyString
  | String c r => if p c then lstrip p r else s
  end.

Fixpoint rstrip (p : ascii -> bool) (s : string) : string :=
  match s with
  | EmptyString => EmptyString
  | String c r =>
      match rstrip p r with
      | EmptyString => if p c then EmptyString else String c EmptyString
      | kept => String c kept
      end
  end.

(** [s.strip()] is [strip is_space s], [s.strip('_')] strips
    underscores. *)
Definition strip (p : ascii -> bool) (s : string) : string :=
  lstrip p (rstrip p s).

(** [re.sub(r'[^...]', '', s)]: the characters of the class are kept *)
Fixpoint keep (p : ascii -> bool) (s : string) : string :=
  match s with
  | EmptyString => EmptyString
  | String c r => if p c then String c (keep p r) else keep p r
  end.

(** [re.sub(r'X+', '_', s)]: each maximal run of characters that
    satisfy [p] becomes one underscore; [in_run] tells that the
    character before was of the run. *)
Fixpoint sub_runs (p : ascii -> bool) (in_run : bool) (s : string) : string :=
  match s with
  | EmptyString => EmptyString
  | String c r =>
      if p c then
        if in_run then sub_runs p true r
        else String "_" (sub_runs p true r)
      else String c (sub_runs p false r)
  end.

Definition is_underscore (c : ascii) : bool := Ascii.eqb c "_".

Definition _clean_column_name (col_name : string) : string :=
  (* Convert to string and lowercase *)
  let cleaned := strip is_space (lower col_name) in
  (* Replace spaces and special characters with underscores *)
  let cleaned := keep (fun c => is_word c || is_space c) cleaned in
  let cleaned := sub_runs is_space false cleaned in
  (* Remove multiple consecutive underscores *)
  let cleaned := sub_runs is_underscore false cleaned in
  (* Remove leading/trailing underscores *)
  strip is_underscore cleaned.

End DataLoader.

(* ================================================================= *)
(** ** A run time and tables for the examples *)

Module Examples.
Import PyStr Pandas QueryParser DataAnalyzer AnswerGenerator.
Local Open Scope string_scope.

(** Exact decimal rendering: [q] rounded to [d] decimals, half to
    even, which is what the format specs give on a float that holds
    [q] exactly. *)
Definition pow10 (d : nat) : Z := Z.pow 10 (Z.of_nat d).

Definition round_half_even (q : Q) : Z :=
  let n := Qnum q in
  let d := Zpos (Qden q) in
  let fl := (n / d)%Z in
  match (2 * (n - fl * d) ?= d)%Z with
  | Lt => fl
  | Gt => (fl + 1)%Z
  | Eq => if Z.even fl then fl else (fl + 1)%Z
  end.

Fixpoint commas_rev (digits : list ascii) (in_group : nat) : list ascii :=
  match digits with
  | [] => []
  | c :: r =>
      if Nat.eqb in_group 3 then ","%char :: c :: commas_rev r 1
      else c :: commas_rev r (S in_group)
  end.

Definition commas (digits : string) : string :=
  string_of_list_ascii (rev (commas_rev (rev (list_ascii_of_string digits)) 0)).

Fixpoint zeros (n : nat) : string :=
  match n with O => EmptyString | S k => "0" ++ zeros k end.

Definition fixed (comma : bool) (d : nat) (q : Q) : string :=
  let scaled := round_half_even (q * inject_Z (pow10 d))%Q in
  let a := Z.abs scaled in
  let whole := of_Z (a / pow10 d) in
  let part := of_Z (a mod pow10 d) in
  (if (scaled <? 0)%Z then "-" else EmptyString)
    ++ (if comma then commas whole else whole)
    ++ (if Nat.eqb d 0 then EmptyString
        else "." ++ zeros (d - String.length part) ++ part).

(** Integers print as numerals, other rationals as fractions. *)
Definition numeral (q : Q) : string :=
  if Pos.eqb (Qden q) 1 then of_Z (Qnum q)
  else of_Z (Qnum q) ++ "/" ++ of_Z (Zpos (Qden q)).

Fixpoint digits_value (acc : Z) (s : string) : option Z :=
  match s with
  | EmptyString => Some acc
  | String c r =>
      if is_digit c then digits_value (10 * acc + digit_val c)%Z r else None
  end.

(** Plain numerals with an optional minus sign. *)
Definition read_int (s : string) : option Z :=
  match s with
  | EmptyString => None
  | String "-" (String c r) => option_map Z.opp (digits_value 0 (String c r))
  | _ => digits_value 0 s
  end.

#[export] Instance exact_format : Format := {|
  str_num := numeral;
  fmt_fixed := fixed;
  int_of_str := read_int
|}.

Definition no_filters : Filters :=
  {| f_states := None; f_years := None; f_months := None; f_seasons := None |}.

Definition no_entities : Entities :=
  {| states := []; months := []; seasons := [] |}.

(** A parsed query written by hand. *)
Definition query (kind : string) (ms : list string) (fs : Filters)
  : ParsedQuery :=
  {| original_question := EmptyString;
     intent := kind;
     entities := no_entities;
     years := requested (f_years fs);
     metrics := ms;
     filters := fs |}.

(** The table of the scenario of the specification. *)
Definition rainfall : DataFrame :=
  {| columns := [("state", Object); ("year", Numeric);
                 ("annual_rainfall_mm", Numeric)];
     rows := [(0, [Str "Maharashtra"; Num (2015 # 1); Num (1200 # 1)]);
              (1, [Str "Karnataka"; Num (2015 # 1); Num (900 # 1)]);
              (2, [Str "Maharashtra"; Num (2016 # 1); Num (1100 # 1)])] |}.

(** Five stations, one of them without a reading. *)
Definition stations : DataFrame :=
  {| columns := [("station", Object); ("rain_mm", Numeric)];
     rows := [(0, [Str "a"; Num (10 # 1)]);
              (1, [Str "b"; NaN]);
              (2, [Str "c"; Num (30 # 1)]);
              (3, [Str "d"; Num (30 # 1)]);
              (4, [Str "e"; Num (10 # 1)])] |}.

(** Four readings in one year, one in the next. *)
Definition yearly : DataFrame :=
  {| columns := [("year", Numeric); ("rain_mm", Numeric)];
     rows := [(0, [Num (2015 # 1); Num (10 # 1)]);
              (1, [Num (2015 # 1); Num (20 # 1)]);
              (2, [Num (2015 # 1); Num (30 # 1)]);
              (3, [Num (2015 # 1); Num (40 # 1)]);
              (4, [Num (2016 # 1); Num (50 # 1)])] |}.

(** Readings missing for a whole year. *)
Definition gaps : DataFrame :=
  {| columns := [("year", Numeric); ("rain_mm", Numeric)];
     rows := [(0, [Num (2015 # 1); NaN]);
              (1, [Num (2016 # 1); Num (5 # 1)])] |}.

(** A file whose second line was empty: the loader dropped the line,
    and the labels of the lines after it stayed as they were. *)
Definition dropped : DataFrame :=
  {| columns := [("station", Object); ("rain_mm", Numeric)];
     rows := [(0, [Str "Agumbe"; Num (10 # 1)]);
              (2, [Str "Hulikal"; Num (20 # 1)]);
              (3, [Str "Amboli"; Num (30 # 1)])] |}.

(** Months given by their number. *)
Definition monthly : DataFrame :=
  {| columns := [("month", Numeric); ("rain_mm", Numeric)];
     rows := [(0, [Num (5 # 1); Num (12 # 1)]);
              (1, [Num (6 # 1); Num (80 # 1)])] |}.

(** Questions put to the tables above. *)
Definition count_2019 : ParsedQuery :=
  parse "How many records are there in 2019?" rainfall.

Definition show_2019 : ParsedQuery :=
  parse "Show the rainfall in 2019" rainfall.

Definition rain_in_may : ParsedQuery :=
  parse "How much rain fell in May?" monthly.

Definition show_rain : ParsedQuery := parse "show rain" stations.
Definition rain_trend : ParsedQuery := parse "rain trend" yearly.
Definition average_rain : ParsedQuery := parse "average rain" stations.
Definition total_rain : ParsedQuery := parse "total rain" stations.
Definition highest_rain : ParsedQuery := parse "highest rain" stations.
Definition lowest_rain : ParsedQuery := parse "lowest rain" stations.
Definition highest_rain_2015 : ParsedQuery :=
  parse "highest rain in 2015" gaps.

(** Two columns that bear the same name. *)
Definition two_states : DataFrame :=
  {| columns := [("state", Object); ("state", Object); ("rain_mm", Numeric)];
     rows := [(0, [Str "Goa"; Str "Goa"; Num (10 # 1)])] |}.

(** Months given by their number in a column of dtype object. *)
Definition coded_months : DataFrame :=
  {| columns := [("month", Object); ("rain_mm", Numeric)];
     rows := [(0, [Num (5 # 1); Num (12 # 1)]);
              (1, [Num (6 # 1); Num (80 # 1)])] |}.

(** Two regions compared. *)
Definition compared : list ResultItem :=
  [Comparison (Str "Maharashtra") "annual_rainfall_mm" (Num (2300 # 2)) 0 2;
   Comparison (Str "Karnataka") "annual_rainfall_mm" (Num (900 # 1)) 1 1].

(** The pipeline of [app.py]: parse, execute, render. *)
Definition ask (question : string) (df : DataFrame) : res Answer :=
  let parsed_query := parse question df in
  results <- execute_query (new df) parsed_query ;;
  generate_answer question parsed_query results df.

End Examples.

(* ================================================================= *)
(** ** What the specification speaks of *)

Module Spec.
Import PyStr Pandas QueryParser DataAnalyzer AnswerGenerator DataLoader.
Local Open Scope string_scope.

(** [p] is a substring of [s]. *)
Definition occurs (p s : string) : Prop :=
  exists before after, s = before ++ p ++ after.

(** The intents the glossary of the specification lists, with the
    generic default. *)
Definition glossary_intents : list string :=
  ["compare"; "maximum"; "minimum"; "average"; "sum"; "trend"; "count";
   "query"].

(** The priority order the specification gives. *)
Definition priority_order : list string :=
  ["compare"; "maximum"; "minimum"; "average"; "sum"; "trend"; "list";
   "count"].

(** The trigger phrases of the intents checked before 'average'. *)
Definition checked_before_average : list string :=
  flat_map snd (firstn 3 intent_patterns).

(** The character before position [|before|] of a text that follows
    [prev]. *)
Fixpoint last_char (prev : option ascii) (before : string) : option ascii :=
  match before with
  | EmptyString => prev
  | String c r => last_char (Some c) r
  end.

(** [tok] is a four-digit numeral 19xx, 20xx or 21xx of value [y]. *)
Definition year_numeral (tok : string) (y : Z) : Prop :=
  year_prefix tok = Some (y, EmptyString).

(** The text [s], which follows the character [prev], holds the year
    [y] as a whole word. *)
Definition year_token_at (prev : option ascii) (s : string) (y : Z) : Prop :=
  exists before tok after,
    s = before ++ tok ++ after
    /\ year_numeral tok y
    /\ word_opt (last_char prev before) = false
    /\ word_opt (head after) = false.

Definition year_token (question : string) (y : Z) : Prop :=
  year_token_at None question y.

Fixpoint all_spaces (s : string) : bool :=
  match s with
  | EmptyString => true
  | String c r => is_space c && all_spaces r
  end.

(** The text [s], which follows the character [prev], starts with the
    range 'a to b', 'a-b' or 'a' en dash 'b', with any white space
    around the separator, [a] starting and [b] ending at a word
    boundary. *)
Definition range_starts (prev : option ascii) (s : string) (a b : Z)
  : Prop :=
  exists ta sp1 sep sp2 tb after,
    s = ta ++ sp1 ++ sep ++ sp2 ++ tb ++ after
    /\ year_numeral ta a
    /\ year_numeral tb b
    /\ all_spaces sp1 = true
    /\ all_spaces sp2 = true
    /\ In sep ["to"; "-"; en_dash]
    /\ word_opt prev = false
    /\ word_opt (head after) = false.

(** The text holds such a range somewhere. *)
Definition range_written_at (prev : option ascii) (s : string) (a b : Z)
  : Prop :=
  exists before rest,
    s = before ++ rest /\ range_starts (last_char prev before) rest a b.





(** [cell(label, col)] of a table, NaN where there is no such cell. *)
Definition cell_at (df : DataFrame) (col : string) (label : nat) : cell :=
  match loc df label col with Some c => c | None => NaN end.

Definition cells_at (df : DataFrame) (col : string) (labels : list nat)
  : list cell :=
  map (cell_at df col) labels.

(** A frame whose rows were selected from those of another. *)
Definition selected_from (df snapshot : DataFrame) : Prop :=
  columns df = columns snapshot
  /\ exists keep, rows df = filter keep (rows snapshot).

(** [w] is strictly worse than [v] in the order [at_most]. *)
Definition strictly_worse (at_most : Q -> Q -> Prop) (w v : Q) : Prop :=
  at_most w v /\ ~ at_most v w.

(** A value the renderer can format: a number or NaN. *)
Definition plain_value (v : cell) : bool := negb (is_text v).

(** An item as the analyzer writes it into a bundle of the given kind,
    its values being numbers or NaN. *)
Definition shaped (kind : string) (item : ResultItem) : bool :=
  match item with
  | Comparison _ _ v _ _ => String.eqb kind "comparison" && plain_value v
  | Extremum _ v _ _ =>
      (String.eqb kind "maximum" || String.eqb kind "minimum")
      && plain_value v
  | Aggregate _ v _ _ =>
      (String.eqb kind "average" || String.eqb kind "sum") && plain_value v
  | Trend _ _ v _ => String.eqb kind "trend" && plain_value v
  | General _ a b c _ _ =>
      String.eqb kind "general" && plain_value a && plain_value b
      && plain_value c
  | Count _ _ => false
  end.

(** The kinds of the bundles that are not counts. *)
Definition cited_kinds : list string :=
  ["comparison"; "maximum"; "minimum"; "average"; "sum"; "trend"; "general"].

(** The row labels an item carries to justify its numbers. *)
Definition justifying (item : ResultItem) : list nat :=
  match item with
  | Comparison _ _ _ i _ | Extremum _ _ i _ => [i]
  | Aggregate _ _ _ l | Trend _ _ _ l | Count _ l | General _ _ _ _ _ l => l
  end.

(** An item of the given kind that carries a justifying row label. *)
Definition well_formed (kind : string) (item : ResultItem) : Prop :=
  shaped kind item = true /\ justifying item <> [].

(** The citations of the rows [labels] under the metric of an item. *)
Definition cite_rows `{Format} (df : DataFrame) (item : ResultItem)
  (labels : list nat) : list string :=
  match get_metric item with
  | Ok metric => map (fun label => _create_citation label metric df) labels
  | Raise _ => []
  end.

(** The citations [_generate_average_answer] and [_generate_sum_answer]
    add for an item. *)
Definition sample_citations_of `{Format} (df : DataFrame) (item : ResultItem)
  : list string :=
  match get_metric item with
  | Ok metric => sample_citations metric (get_row_indices item) df
  | Raise _ => []
  end.

(** The line that stands for the rows not cited. *)
Definition more_rows (n : nat) : string :=
  "... and " ++ of_nat n ++ " more rows".

(** The next [k] characters exist and are word characters. *)
Fixpoint covered_word (k : nat) (s : string) : Prop :=
  match k with
  | O => True
  | S k' =>
      match s with
      | String c r => is_word c = true /\ covered_word k' r
      | EmptyString => False
      end
  end.

(** The full month names with their abbreviations, both in
    [month_names]. *)
Definition month_pairs : list (string * string) :=
  [ ("january", "jan"); ("february", "feb"); ("march", "mar");
    ("april", "apr"); ("may", "may"); ("june", "jun"); ("july", "jul");
    ("august", "aug"); ("september", "sep"); ("october", "oct");
    ("november", "nov"); ("december", "dec") ].

(** A filter keeps every row when nothing is asked of it or when the
    snapshot has no column of its role; otherwise it tests the first
    column of that role. *)
Definition keeps {A : Type} (wanted : list A) (cols : list string)
  (test : string -> bool) : bool :=
  match wanted, cols with
  | _ :: _, col :: _ => test col
  | _, _ => true
  end.

(** The row [r] passes the region, year and month filters together. *)
Definition passes_filters (snapshot : DataFrame) (filters : Filters)
  (r : list cell) : bool :=
  keeps (requested (f_states filters)) (_find_state_columns snapshot)
        (fun col => isin (row_cell snapshot col r)
                         (requested (f_states filters)))
  && keeps (requested (f_years filters)) (_find_year_columns snapshot)
           (fun col => isin (row_cell snapshot col r)
                            (map (fun y => Num (inject_Z y))
                                 (requested (f_years filters))))
  && keeps (requested (f_months filters)) (_find_month_columns snapshot)
           (fun col => isin (str_lower (row_cell snapshot col r))
                            (map (fun m => Str (lower m))
                                 (requested (f_months filters)))).

(** The row [r] passes the region and year filters. *)
Definition passes_region_year (snapshot : DataFrame) (filters : Filters)
  (r : list cell) : bool :=
  keeps (requested (f_states filters)) (_find_state_columns snapshot)
        (fun col => isin (row_cell snapshot col r)
                         (requested (f_states filters)))
  && keeps (requested (f_years filters)) (_find_year_columns snapshot)
           (fun col => isin (row_cell snapshot col r)
                            (map (fun y => Num (inject_Z y))
                                 (requested (f_years filters)))).

(** Months are asked for and the first month column has no [.str]: it
    is numeric, or it is of dtype object and, on the rows that pass
    the region and year filters, holds numbers and no text. *)
Definition month_filter_fails (snapshot : DataFrame) (filters : Filters)
  : bool :=
  match requested (f_months filters), _find_month_columns snapshot with
  | _ :: _, month_col :: _ =>
      negb (str_accessor
              (select snapshot (passes_region_year snapshot filters))
              month_col)
  | _, _ => false
  end.

(** The labels of the rows of [df] that hold [key] under [col]. *)
Definition labels_where (snapshot : DataFrame) (col : string) (key : cell)
  (df : DataFrame) : list nat :=
  filter (fun label => cell_eqb (cell_at snapshot col label) key) (index df).

(** The row labels of an item are labels of the snapshot of [table],
    in ascending order, and an item that counts the rows it lists
    counts them all. *)
Definition labels_sound (table : DataFrame) (item : ResultItem) : Prop :=
  StronglySorted lt (justifying item)
  /\ (forall label, In label (justifying item) -> label < len table)
  /\ match item with
     | Aggregate _ _ n l | Count n l | General _ _ _ _ n l =>
         n = List.length l
     | _ => True
     end.

(** A table as [pandas] holds it: the column names are distinct, each
    row has one cell for each column, and a numeric column holds
    numbers and NaN only. *)
Definition well_typed (df : DataFrame) : Prop :=
  NoDup (column_names df)
  /\ (forall label r, In (label, r) (rows df) ->
                      List.length r = List.length (columns df))
  /\ (forall col label r,
        In (col, Numeric) (columns df) -> In (label, r) (rows df) ->
        is_text (row_cell df col r) = false).

(** The start of a citation that found its cell: where it is, and what
    it holds. *)
Definition citation_head `{Format} (row_idx : nat) (column : string)
  (value : cell) : string :=
  pin ++ " Row " ++ of_nat row_idx ++ ", Column '" ++ column ++ "': "
      ++ str_cell value.

(** The year of a trend item. *)
Definition year_of (item : ResultItem) : Z :=
  match item with Trend y _ _ _ => y | _ => 0%Z end.

(** Every character of a text satisfies [p]. *)
Fixpoint all_chars (p : ascii -> bool) (s : string) : bool :=
  match s with
  | EmptyString => true
  | String c r => p c && all_chars p r
  end.

(** A text of code points below 128. *)
Definition ascii_only (s : string) : Prop :=
  all_chars (fun c => (nat_of_ascii c <? 128)%nat) s = true.

(** The characters of a cleaned column name: small letters, digits
    and the underscore. *)
Definition is_name_char (c : ascii) : bool :=
  is_lower c || is_digit c || Ascii.eqb c "_".

(** No underscore follows an underscore; [after] tells that the
    character before the text was one. *)
Fixpoint squeezed (after : bool) (s : string) : bool :=
  match s with
  | EmptyString => true
  | String c r =>
      if is_underscore c then negb after && squeezed true r
      else squeezed false r
  end.

(** A multiple of [2^e]. *)
Definition multiple_of_pow2 (e : Z) (q : Q) : Prop :=
  exists z : Z, (q == inject_Z z * Qpower (2 # 1) e)%Q.

(** Numbers that numpy adds without error: they are multiples of one
    power of two [2^e], [-1074 <= e <= 0], and their absolute values add
    up to [2^53 * 2^e] at most (whole numbers that add up to 2^53 at
    most, when [e] is 0).  Then an int64 sum does not wrap around, and
    every partial sum of a float64 sum, in whatever order it is taken,
    is a multiple of [2^e] that binary64 holds. *)
Definition sums_exactly (l : list Q) : Prop :=
  exists e : Z,
    (-1074 <= e <= 0)%Z
    /\ Forall (multiple_of_pow2 e) l
    /\ (Qsum (map Qabs l) <= inject_Z (2 ^ 53) * Qpower (2 # 1) e)%Q.

(** A number that binary64 holds: [m * 2^e] with [|m| < 2^53] and
    [-1074 <= e <= 971]. *)
Definition binary64 (q : Q) : Prop :=
  exists m e : Z,
    (Z.abs m < 2 ^ 53)%Z /\ (-1074 <= e <= 971)%Z
    /\ (q == inject_Z m * Qpower (2 # 1) e)%Q.

(** Numbers whose mean float64 division gives without rounding. *)
Definition means_exactly (l : list Q) : Prop :=
  match l with
  | [] => True
  | _ => binary64 (Qsum l / Qof_nat (List.length l))%Q
  end.

(** The name of the first region column, if there is such a column, is
    borne by that column only. *)
Definition region_column_single (df : DataFrame) : Prop :=
  match _find_columns_by_keywords df state_keywords with
  | state_col :: _ => occurrences state_col (column_names df) = 1
  | [] => True
  end.

(** What [app.py] does with one question: parse, execute on a
    snapshot of the table, render against the table.  The parsed
    query is the one [parse] returns, which it does on the tables of
    [region_column_single], the well-typed ones among them. *)
Definition process_question `{Format} (question : string) (df : DataFrame)
  : res Answer :=
  let parsed_query := parse question df in
  results <- execute_query (new df) parsed_query ;;
  generate_answer question parsed_query results df.

End Spec.

(* ================================================================= *)
(** ** Properties of the parser *)

Module ParserFacts.
Import PyStr Pandas QueryParser Examples Spec.
Local Open Scope string_scope.

Lemma starts_with_append p s :
  starts_with p s = true <-> exists rest, s = p ++ rest.
Proof.
  revert s; induction p as [|a p IH]; intros s; simpl.
  - split; [intros _; now exists s | reflexivity].
  - destruct s as [|b s]; simpl.
    + split; [discriminate | intros [r Hr]; discriminate].
    + rewrite andb_true_iff, Ascii.eqb_eq, IH. split.
      * intros [-> [r ->]]. now exists r.
      * intros [r Hr]. injection Hr as -> ->. split; [reflexivity | now exists r].
Qed.

Lemma contains_occurs p s : contains p s = true <-> occurs p s.
Proof.
  unfold occurs. induction s as [|c s IH].
  - simpl. rewrite orb_false_r, starts_with_append. split.
    + intros [r Hr]. exists EmptyString, r. exact Hr.
    + intros [[|b before] [after H]]; simpl in H; [now exists after | discriminate].
  - cbn [contains]. rewrite orb_true_iff, starts_with_append, IH. split.
    + intros [[r Hr] | [before [after H]]].
      * exists EmptyString, r. exact Hr.
      * exists (String c before), after. simpl. now rewrite H.
    + intros [[|b before] [after H]]; simpl in H.
      * left. now exists after.
      * right. injection H as _ H. now exists before, after.
Qed.

Lemma any_in_occurs ps s :
  any_in ps s = true <-> exists p, In p ps /\ occurs p s.
Proof.
  unfold any_in. rewrite existsb_exists.
  split; intros [p [Hin Hp]]; exists p; split; auto; now apply contains_occurs.
Qed.

Lemma any_in_none ps s :
  any_in ps s = false <-> forall p, In p ps -> ~ occurs p s.
Proof.
  rewrite <- not_true_iff_false, any_in_occurs. split.
  - intros H p Hin Hp. apply H. now exists p.
  - intros H [p [Hin Hp]]. exact (H p Hin Hp).
Qed.

Lemma any_in_app ps qs s : any_in (ps ++ qs)%list s = any_in ps s || any_in qs s.
Proof. unfold any_in. apply existsb_app. Qed.

(** The loop returns the first entry of the table one of whose phrases
    occurs. *)
Lemma first_intent_split table s before i ps after :
  table = (before ++ (i, ps) :: after)%list ->
  (forall j qs, In (j, qs) before -> any_in qs s = false) ->
  any_in ps s = true ->
  first_intent table s = i.
Proof.
  intros -> Hbefore Hps. induction before as [|[j qs] before IH]; simpl.
  - now rewrite Hps.
  - rewrite (Hbefore j qs) by now left.
    apply IH. intros k rs Hin. apply (Hbefore k rs). now right.
Qed.

Lemma first_intent_default table s :
  (forall j qs, In (j, qs) table -> any_in qs s = false) ->
  first_intent table s = "query".
Proof.
  induction table as [|[j qs] table IH]; intros Hno; simpl.
  - reflexivity.
  - rewrite (Hno j qs) by now left.
    apply IH. intros k rs Hin. apply (Hno k rs). now right.
Qed.

Lemma first_intent_range table s :
  In (first_intent table s) (map fst table ++ ["query"])%list.
Proof.
  induction table as [|[j qs] table IH]; simpl.
  - now left.
  - destruct (any_in qs s); [now left | now right].
Qed.

Lemma occurrences_first col names :
  In col names -> 1 <= occurrences col names.
Proof.
  unfold occurrences. induction names as [|n names IH]; [contradiction |].
  intros [-> | Hin]; simpl.
  - rewrite String.eqb_refl. simpl. lia.
  - destruct (String.eqb col n); simpl; [lia | now apply IH].
Qed.

(** The call raises on the tables left out below, and only there. *)
Lemma parse_call_raises `{Format} (question : string) (df : DataFrame) :
  ~ region_column_single df <-> parse_call question df = Raise AttributeError.
Proof.
  unfold region_column_single, parse_call.
  destruct (_find_columns_by_keywords df state_keywords) as [|state_col others]
    eqn:Hcols; [split; [tauto | discriminate] |].
  assert (Hin : In state_col (column_names df)).
  { assert (Hc : In state_col (_find_columns_by_keywords df state_keywords))
      by (rewrite Hcols; now left).
    unfold _find_columns_by_keywords in Hc. now apply filter_In in Hc. }
  apply occurrences_first in Hin.
  destruct (Nat.ltb_spec 1 (occurrences state_col (column_names df))).
  - split; [reflexivity | intros _ Hone; lia].
  - split; [intros Hn; exfalso; apply Hn; lia | discriminate].
Qed.

(** C7, as the code has it.  On every table in which the name of the
    first region column is borne by one column only -- every table
    with distinct column names, and every table without a region
    column -- the call returns for every question; what it returns is
    a function of the question and the table, and its intent is one of
    the eight keys of the pattern table, 'list' among them, which the
    closed set of the specification leaves out, or the default
    'query'. *)
Theorem parse_intent_closed `{Format} (question : string) (df : DataFrame) :
  region_column_single df ->
  exists parsed_query,
    parse_call question df = Ok parsed_query
    /\ parsed_query = parse question df
    /\ In (intent parsed_query)
          ["compare"; "maximum"; "minimum"; "average"; "sum"; "trend"; "list";
           "count"; "query"].
Proof.
  intros Hsingle. exists (parse question df). split; [| split].
  - unfold region_column_single in Hsingle. unfold parse_call.
    destruct (_find_columns_by_keywords df state_keywords) as [|state_col others];
      [reflexivity |].
    now rewrite Hsingle.
  - reflexivity.
  - exact (first_intent_range intent_patterns (lower question)).
Qed.

Lemma parse_intent_closed_witness :
  exists parsed_query,
    parse_call "Show the rainfall of Karnataka" rainfall = Ok parsed_query
    /\ parsed_query = parse "Show the rainfall of Karnataka" rainfall
    /\ In (intent parsed_query)
          ["compare"; "maximum"; "minimum"; "average"; "sum"; "trend"; "list";
           "count"; "query"].
Proof.
  apply (parse_intent_closed "Show the rainfall of Karnataka" rainfall).
  reflexivity.
Defined.

(** Where two columns are named 'state' the call raises. *)
Lemma parse_call_on_two_states :
  parse_call "rain in Goa" two_states = Raise AttributeError.
Proof. reflexivity. Qed.

(** C7 as stated fails: a question that asks to show something gets the
    intent 'list', which is none of compare, maximum, minimum, average,
    sum, trend, count and query. *)
Lemma parse_intent_list_outside_glossary :
  intent (parse "Show the rainfall of Karnataka" rainfall) = "list"
  /\ ~ In (intent (parse "Show the rainfall of Karnataka" rainfall))
         glossary_intents.
Proof.
  split; [reflexivity |].
  vm_compute. intros H.
  repeat (destruct H as [H | H]; [discriminate H |]). exact H.
Qed.

(** C8, as the code has it: the question is lowered, the table is gone
    through in the order compare, maximum, minimum, average, sum, trend,
    list, count, the first intent with a trigger phrase occurring in
    the lowered question is returned and 'query' when there is none.  A
    question with both 'total' and 'average' gets 'average' provided
    no phrase of compare, maximum or minimum occurs in it. *)
Theorem extract_intent_priority :
  map fst intent_patterns = priority_order
  /\ (forall `{Format} question df,
        intent (parse question df) = _extract_intent (lower question))
  /\ (forall question before i ps after,
        intent_patterns = (before ++ (i, ps) :: after)%list ->
        (forall j qs p, In (j, qs) before -> In p qs ->
                        ~ occurs p (lower question)) ->
        (exists p, In p ps /\ occurs p (lower question)) ->
        _extract_intent (lower question) = i)
  /\ (forall question,
        (forall j qs p, In (j, qs) intent_patterns -> In p qs ->
                        ~ occurs p (lower question)) ->
        _extract_intent (lower question) = "query")
  /\ (forall question,
        occurs "total" (lower question) ->
        occurs "average" (lower question) ->
        any_in checked_before_average (lower question) = false ->
        _extract_intent (lower question) = "average").
Proof.
  split; [reflexivity |]. split; [reflexivity |]. split; [| split].
  - intros question before i ps after Htable Hbefore Hps.
    apply (first_intent_split _ _ before i ps after Htable).
    + intros j qs Hin. apply any_in_none. intros p Hp. exact (Hbefore j qs p Hin Hp).
    + now apply any_in_occurs.
  - intros question Hno. apply first_intent_default.
    intros j qs Hin. apply any_in_none. intros p Hp. exact (Hno j qs p Hin Hp).
  - intros question _ Haverage Hnone.
    unfold checked_before_average in Hnone. cbn [firstn intent_patterns flat_map snd] in Hnone.
    rewrite !any_in_app in Hnone.
    apply orb_false_iff in Hnone as [Hc Hnone].
    apply orb_false_iff in Hnone as [Hmax Hnone].
    apply orb_false_iff in Hnone as [Hmin _].
    unfold _extract_intent, intent_patterns. cbn [first_intent].
    rewrite Hc, Hmax, Hmin.
    replace (any_in ["average"; "mean"; "avg"] (lower question)) with true; [reflexivity |].
    symmetry. apply any_in_occurs. exists "average". split; [now left | exact Haverage].
Qed.

(** The priority rule at a question that has 'total' and 'average'. *)
Lemma extract_intent_priority_witness :
  _extract_intent (lower "What is the TOTAL and the Average rainfall?")
  = "average".
Proof.
  apply (proj2 (proj2 (proj2 (proj2 extract_intent_priority)))).
  - apply contains_occurs. reflexivity.
  - apply contains_occurs. reflexivity.
  - reflexivity.
Defined.

(** C8 as stated fails in its last part: this question has both 'total'
    and 'average', and its intent is 'compare'. *)
Lemma total_and_average_yet_compare :
  occurs "total" (lower "Compare the total and the average rainfall")
  /\ occurs "average" (lower "Compare the total and the average rainfall")
  /\ intent (parse "Compare the total and the average rainfall" rainfall)
     = "compare"
  /\ intent (parse "Compare the total and the average rainfall" rainfall)
     <> "average".
Proof.
  split; [| split; [| split]].
  - apply contains_occurs. reflexivity.
  - apply contains_occurs. reflexivity.
  - reflexivity.
  - discriminate.
Qed.

End ParserFacts.

(* ================================================================= *)
(** ** Properties of the year extraction *)

Module YearFacts.
Import PyStr QueryParser Spec.
Local Open Scope string_scope.

Lemma append_assoc (a b c : string) : (a ++ b) ++ c = a ++ b ++ c.
Proof. induction a as [|x a IH]; simpl; [reflexivity | now rewrite IH]. Qed.

Lemma append_nil_r (a : string) : a ++ EmptyString = a.
Proof. induction a as [|x a IH]; simpl; [reflexivity | now rewrite IH]. Qed.

Lemma digit_is_word c : is_digit c = true -> is_word c = true.
Proof. intros H. unfold is_word. now rewrite H. Qed.

Lemma digit_val_bounds c : is_digit c = true -> (0 <= digit_val c <= 9)%Z.
Proof.
  unfold is_digit, digit_val. intros H.
  apply andb_true_iff in H as [H1 H2].
  apply Nat.leb_le in H1, H2. lia.
Qed.

(** What [year_prefix] reads: four digits, the rest untouched. *)
Lemma year_prefix_inv s y rest :
  year_prefix s = Some (y, rest) ->
  exists c1 c2 c3 c4,
    s = String c1 (String c2 (String c3 (String c4 rest)))
    /\ year_numeral (String c1 (String c2 (String c3 (String c4 EmptyString)))) y
    /\ is_digit c1 = true /\ is_digit c2 = true
    /\ is_digit c3 = true /\ is_digit c4 = true
    /\ (1900 <= y <= 2199)%Z.
Proof.
  unfold year_numeral, year_prefix.
  destruct s as [|c1 [|c2 [|c3 [|c4 r]]]]; try discriminate.
  destruct (_ && is_digit c3 && is_digit c4) eqn:E; [| discriminate].
  intros Hs. injection Hs as <- <-.
  exists c1, c2, c3, c4.
  apply andb_true_iff in E as [E E4]. apply andb_true_iff in E as [E E3].
  pose proof (digit_val_bounds _ E3). pose proof (digit_val_bounds _ E4).
  assert (Hhead : ((c1 = "1" /\ c2 = "9") \/ (c1 = "2" /\ c2 = "0")
                   \/ (c1 = "2" /\ c2 = "1"))%char).
  { apply orb_true_iff in E as [E | E]; apply andb_true_iff in E as [Ea Eb].
    - left. split; now apply Ascii.eqb_eq.
    - apply orb_true_iff in Eb as [Eb | Eb]; [right; left | right; right];
        split; now apply Ascii.eqb_eq. }
  assert (Hy : (1900 <= 1000 * digit_val c1 + 100 * digit_val c2
                       + 10 * digit_val c3 + digit_val c4 <= 2199)%Z).
  { destruct Hhead as [[-> ->] | [[-> ->] | [-> ->]]];
      change (digit_val "1") with 1%Z; change (digit_val "9") with 9%Z;
      change (digit_val "2") with 2%Z; change (digit_val "0") with 0%Z; lia. }
  assert (D12 : is_digit c1 = true /\ is_digit c2 = true).
  { destruct Hhead as [[-> ->] | [[-> ->] | [-> ->]]]; now split. }
  destruct D12 as [D1 D2].
  split; [reflexivity |]. split.
  { rewrite E3, E4, !andb_true_r.
    destruct Hhead as [[-> ->] | [[-> ->] | [-> ->]]]; reflexivity. }
  repeat split; try assumption; apply Hy.
Qed.

Lemma year_numeral_append tok y after :
  year_numeral tok y -> year_prefix (tok ++ after) = Some (y, after).
Proof.
  unfold year_numeral. intros Htok.
  destruct (year_prefix_inv _ _ _ Htok) as (c1 & c2 & c3 & c4 & -> & _).
  revert Htok. simpl.
  destruct (_ && is_digit c3 && is_digit c4); [| discriminate].
  intros Htok. now injection Htok as ->.
Qed.

Lemma year_numeral_head tok y after :
  year_numeral tok y -> word_opt (head (tok ++ after)) = true.
Proof.
  intros Htok.
  destruct (year_prefix_inv _ _ _ Htok) as (c1 & c2 & c3 & c4 & -> & _ & D1 & _).
  simpl. now apply digit_is_word.
Qed.

(** A match of the year pattern at the head of the text. *)
Lemma match_year_iff prev s y :
  match_year prev s = Some y <->
  exists tok after,
    s = tok ++ after /\ year_numeral tok y
    /\ word_opt prev = false /\ word_opt (head after) = false.
Proof.
  unfold match_year, boundary, year_end. split.
  - destruct (xorb _ _) eqn:B; [| discriminate].
    destruct (year_prefix s) as [[y' rest]|] eqn:P; [| discriminate].
    destruct (negb _) eqn:E; [| discriminate].
    intros Hy. injection Hy as ->.
    destruct (year_prefix_inv _ _ _ P) as (c1 & c2 & c3 & c4 & -> & Htok & D1 & _).
    exists (String c1 (String c2 (String c3 (String c4 EmptyString)))), rest.
    split; [reflexivity |]. split; [exact Htok |].
    simpl in B. rewrite (digit_is_word _ D1) in B.
    split; [now destruct (word_opt prev) | now apply negb_true_iff].
  - intros (tok & after & -> & Htok & Hprev & Hafter).
    rewrite (year_numeral_head _ _ _ Htok), Hprev. simpl.
    rewrite (year_numeral_append _ _ _ Htok), Hafter. reflexivity.
Qed.

Lemma year_token_at_tail prev c r y :
  year_token_at (Some c) r y -> year_token_at prev (String c r) y.
Proof.
  intros (before & tok & after & -> & H).
  exists (String c before), tok, after. now split.
Qed.

(** Every match the scan reports is a whole-word year of the text. *)
Lemma findall_year_sound s : forall prev covered y,
  In y (findall_year prev covered s) -> year_token_at prev s y.
Proof.
  induction s as [|c r IH]; intros prev covered y Hin; simpl in Hin.
  - contradiction.
  - destruct covered as [|k].
    + destruct (match_year prev (String c r)) as [y'|] eqn:M.
      * destruct Hin as [<- | Hin].
        -- apply match_year_iff in M as (tok & after & Hs & H).
           exists EmptyString, tok, after. now split.
        -- apply year_token_at_tail. exact (IH _ _ _ Hin).
      * apply year_token_at_tail. exact (IH _ _ _ Hin).
    + apply year_token_at_tail. exact (IH _ _ _ Hin).
Qed.

(** While characters are covered by the last match, the character
    before is a word character and so are the covered ones: no year
    can start there, and the scan loses nothing by stepping over. *)
Lemma findall_year_complete s : forall prev covered y,
  covered = 0 \/ (word_opt prev = true /\ covered_word covered s) ->
  year_token_at prev s y ->
  In y (findall_year prev covered s).
Proof.
  induction s as [|c r IH]; intros prev covered y Hinv Htok.
  - destruct Htok as (before & tok & after & Hs & Hnum & _).
    destruct (year_prefix_inv _ _ _ Hnum) as (c1 & c2 & c3 & c4 & -> & _).
    destruct before; discriminate.
  - destruct Htok as (before & tok & after & Hs & Hnum & Hprev & Hafter).
    destruct before as [|b before]; simpl in Hs, Hprev.
    + (* the year starts here *)
      destruct covered as [|k].
      * assert (M : match_year prev (String c r) = Some y).
        { apply match_year_iff. now exists tok, after. }
        simpl. rewrite M. now left.
      * destruct Hinv as [Hinv | [Hinv _]]; [discriminate | congruence].
    + (* the year starts later *)
      injection Hs as <- Hs.
      assert (Htail : year_token_at (Some c) r y) by now exists before, tok, after.
      destruct covered as [|k]; cbn [findall_year].
      * destruct (match_year prev (String c r)) as [y'|] eqn:M.
        -- right. apply IH; [| exact Htail]. right.
           apply match_year_iff in M as (tok' & after' & Hs' & Hnum' & _).
           destruct (year_prefix_inv _ _ _ Hnum')
             as (c1 & c2 & c3 & c4 & -> & _ & D1 & D2 & D3 & D4 & _).
           injection Hs' as -> ->. simpl.
           repeat split; now apply digit_is_word.
        -- apply IH; [now left | exact Htail].
      * apply IH; [| exact Htail].
        destruct Hinv as [Hinv | [_ [Hb Hk]]]; [discriminate |].
        destruct k; [now left | right; now split].
Qed.

Lemma findall_year_tokens question y :
  In y (findall_year None 0 question) <-> year_token question y.
Proof.
  split.
  - apply findall_year_sound.
  - apply findall_year_complete. now left.
Qed.

Lemma year_token_range question y :
  year_token question y -> (1900 <= y <= 2199)%Z.
Proof.
  intros (before & tok & after & _ & Hnum & _).
  now destruct (year_prefix_inv _ _ _ Hnum) as (c1 & c2 & c3 & c4 & _ & _ & _ & _ & _ & _ & Hy).
Qed.

Lemma skip_spaces_spec s : forall n t,
  skip_spaces s = (n, t) -> exists sp, s = sp ++ t /\ all_spaces sp = true.
Proof.
  induction s as [|c r IH]; intros n t Hskip; simpl in Hskip.
  - injection Hskip as _ <-. now exists EmptyString.
  - destruct (is_space c) eqn:Hc.
    + destruct (skip_spaces r) as [n' t'] eqn:Hr.
      injection Hskip as _ <-.
      destruct (IH _ _ eq_refl) as (sp & -> & Hsp).
      exists (String c sp). simpl. now rewrite Hc.
    + injection Hskip as _ <-. now exists EmptyString.
Qed.

Lemma strip_prefix_spec p : forall s r,
  strip_prefix p s = Some r -> s = p ++ r.
Proof.
  induction p as [|a p IH]; intros s r Hstrip; simpl in Hstrip.
  - now injection Hstrip as ->.
  - destruct s as [|b s]; [discriminate |].
    destruct (Ascii.eqb_spec a b) as [<- |]; [| discriminate].
    simpl. now rewrite (IH _ _ Hstrip).
Qed.

Lemma separator_spec s k r :
  separator s = Some (k, r) ->
  exists sep, In sep ["to"; "-"; en_dash] /\ s = sep ++ r.
Proof.
  unfold separator.
  destruct (strip_prefix "to" s) as [r1|] eqn:H1.
  { intros Hr. injection Hr as _ <-. exists "to".
    split; [now left | now apply strip_prefix_spec]. }
  destruct (strip_prefix "-" s) as [r2|] eqn:H2.
  { intros Hr. injection Hr as _ <-. exists "-".
    split; [right; now left | now apply strip_prefix_spec]. }
  destruct (strip_prefix en_dash s) as [r3|] eqn:H3; [| discriminate].
  intros Hr. injection Hr as _ <-. exists en_dash.
  split; [right; right; now left | now apply strip_prefix_spec].
Qed.

(** A match of the range pattern at the head of the text is a range
    written there. *)
Lemma match_range_sound prev s a b n :
  match_range prev s = Some (a, b, n) -> range_starts prev s a b.
Proof.
  unfold match_range, boundary, year_end.
  destruct (xorb _ _) eqn:B; [| discriminate].
  destruct (year_prefix s) as [[a' r1]|] eqn:Pa; [| discriminate].
  destruct (skip_spaces r1) as [n1 r2] eqn:S1.
  destruct (separator r2) as [[k r3]|] eqn:Sep; [| discriminate].
  destruct (skip_spaces r3) as [n2 r4] eqn:S2.
  destruct (year_prefix r4) as [[b' r5]|] eqn:Pb; [| discriminate].
  destruct (negb _) eqn:E; [| discriminate].
  intros Hm. injection Hm as -> -> _.
  destruct (year_prefix_inv _ _ _ Pa) as (c1 & c2 & c3 & c4 & -> & Hta & D1 & _).
  destruct (year_prefix_inv _ _ _ Pb) as (d1 & d2 & d3 & d4 & -> & Htb & _).
  destruct (skip_spaces_spec _ _ _ S1) as (sp1 & -> & Hsp1).
  destruct (separator_spec _ _ _ Sep) as (sep & Hsep & ->).
  destruct (skip_spaces_spec _ _ _ S2) as (sp2 & -> & Hsp2).
  exists (String c1 (String c2 (String c3 (String c4 EmptyString)))), sp1, sep,
    sp2, (String d1 (String d2 (String d3 (String d4 EmptyString)))), r5.
  split; [reflexivity |].
  repeat (split; [assumption |]).
  simpl in B. rewrite (digit_is_word _ D1) in B.
  split; [now destruct (word_opt prev) | now apply negb_true_iff].
Qed.

Lemma range_written_at_tail prev c r a b :
  range_written_at (Some c) r a b -> range_written_at prev (String c r) a b.
Proof.
  intros (before & rest & -> & H).
  exists (String c before), rest. now split.
Qed.

(** Every pair the scan reports is a range written in the text. *)
Lemma findall_range_sound s : forall prev covered a b,
  In (a, b) (findall_range prev covered s) -> range_written_at prev s a b.
Proof.
  induction s as [|c r IH]; intros prev covered a b Hin; simpl in Hin.
  - contradiction.
  - destruct covered as [|k].
    + destruct (match_range prev (String c r)) as [[[a' b'] n]|] eqn:M.
      * destruct Hin as [Heq | Hin].
        -- injection Heq as -> ->.
           apply match_range_sound in M.
           exists EmptyString, (String c r). now split.
        -- apply range_written_at_tail. exact (IH _ _ _ _ Hin).
      * apply range_written_at_tail. exact (IH _ _ _ _ Hin).
    + apply range_written_at_tail. exact (IH _ _ _ _ Hin).
Qed.

Lemma digit_not_space c : is_digit c = true -> is_space c = false.
Proof.
  unfold is_digit, is_space. intros Hd.
  apply andb_true_iff in Hd as [H1 _]. apply Nat.leb_le in H1.
  apply orb_false_iff. split; apply andb_false_iff; right;
    apply Nat.leb_gt; lia.
Qed.

Lemma skip_spaces_complete sp : forall t,
  all_spaces sp = true ->
  (forall c r, t = String c r -> is_space c = false) ->
  skip_spaces (sp ++ t) = (String.length sp, t).
Proof.
  induction sp as [|x sp IH]; intros t Hsp Ht; simpl.
  - destruct t as [|c r]; [reflexivity |].
    simpl. now rewrite (Ht c r eq_refl).
  - simpl in Hsp. apply andb_true_iff in Hsp as [Hx Hsp].
    now rewrite Hx, (IH t Hsp Ht).
Qed.

Lemma separator_complete sep rest :
  In sep ["to"; "-"; en_dash] ->
  separator (sep ++ rest) = Some (String.length sep, rest)
  /\ forall t c r, sep ++ t = String c r -> is_space c = false.
Proof.
  intros [<- | [<- | [<- | []]]]; (split; [reflexivity |]);
    intros t c r Hs; injection Hs as <- _; reflexivity.
Qed.

(** A range that starts the text is matched there. *)
Lemma match_range_complete prev s a b :
  range_starts prev s a b -> exists n, match_range prev s = Some (a, b, n).
Proof.
  intros (ta & sp1 & sep & sp2 & tb & after & -> & Hta & Htb & Hsp1 & Hsp2
          & Hsep & Hprev & Hafter).
  destruct (separator_complete sep (sp2 ++ tb ++ after) Hsep) as [Hs Hnot].
  unfold match_range, boundary.
  rewrite (year_numeral_head _ _ _ Hta), Hprev. cbn [xorb].
  rewrite (year_numeral_append _ _ _ Hta).
  rewrite (skip_spaces_complete sp1 _ Hsp1 (Hnot _)), Hs.
  rewrite (skip_spaces_complete sp2 (tb ++ after) Hsp2).
  - rewrite (year_numeral_append _ _ _ Htb). unfold year_end.
    rewrite Hafter. cbn [negb]. eauto.
  - intros c r Hcr.
    destruct (year_prefix_inv _ _ _ Htb) as (c1 & c2 & c3 & c4 & -> & _ & D1 & _).
    injection Hcr as <- _. now apply digit_not_space.
Qed.

(** The leftmost range written in the text is matched by the scan. *)
Lemma findall_range_leftmost before : forall prev rest a b,
  range_starts (last_char prev before) rest a b ->
  (forall b1 b2 a' b',
     before = b1 ++ b2 -> b2 <> EmptyString ->
     ~ range_starts (last_char prev b1) (b2 ++ rest) a' b') ->
  In (a, b) (findall_range prev 0 (before ++ rest)).
Proof.
  induction before as [|c before IH]; intros prev rest a b Hstart Hfirst.
  - simpl in *. destruct (match_range_complete _ _ _ _ Hstart) as [n Hn].
    destruct rest as [|c r].
    + destruct Hstart as (ta & sp1 & sep & sp2 & tb & after & Hs & Hta & _).
      destruct (year_prefix_inv _ _ _ Hta) as (c1 & c2 & c3 & c4 & -> & _).
      discriminate.
    + cbn [findall_range]. rewrite Hn. now left.
  - cbn [append findall_range].
    destruct (match_range prev (String c (before ++ rest)))
      as [[[a' b'] n]|] eqn:M.
    + exfalso. apply match_range_sound in M.
      apply (Hfirst EmptyString (String c before) a' b');
        [reflexivity | discriminate | exact M].
    + apply IH; [exact Hstart |].
      intros b1 b2 a' b' Hsplit Hb2.
      apply (Hfirst (String c b1) b2 a' b'); [| exact Hb2].
      simpl. now rewrite Hsplit.
Qed.

Lemma py_range_In a b y : In y (py_range a b) <-> (a <= y <= b)%Z.
Proof.
  unfold py_range. rewrite in_map_iff. split.
  - intros (i & <- & Hi). apply in_seq in Hi. lia.
  - intros Hy. exists (Z.to_nat (y - a)). split; [lia |].
    apply in_seq. lia.
Qed.

Lemma insert_uniq_In y l x : In x (insert_uniq y l) <-> x = y \/ In x l.
Proof.
  induction l as [|z l IH]; simpl.
  - intuition.
  - destruct (Z.compare_spec y z) as [-> | Hlt | Hgt]; simpl.
    + intuition.
    + intuition.
    + rewrite IH. intuition.
Qed.

Lemma insert_uniq_sorted y l :
  StronglySorted Z.lt l -> StronglySorted Z.lt (insert_uniq y l).
Proof.
  induction 1 as [|z l Hsorted IH Hz]; simpl.
  - repeat constructor.
  - destruct (Z.compare_spec y z) as [-> | Hlt | Hgt].
    + now constructor.
    + constructor; [now constructor |].
      constructor; [exact Hlt |].
      rewrite Forall_forall in *. intros x Hx. specialize (Hz x Hx). lia.
    + constructor; [exact IH |].
      rewrite Forall_forall in *. intros x Hx.
      apply insert_uniq_In in Hx as [-> | Hx]; [lia | now apply Hz].
Qed.

Lemma sorted_set_In l x : In x (sorted_set l) <-> In x l.
Proof.
  induction l as [|y l IH]; simpl; [reflexivity |].
  rewrite insert_uniq_In, IH. intuition.
Qed.

Lemma sorted_set_sorted l : StronglySorted Z.lt (sorted_set l).
Proof.
  induction l as [|y l IH]; simpl; [constructor | now apply insert_uniq_sorted].
Qed.


End YearFacts.

(* ================================================================= *)
(** ** The ranges of a question, from the left *)

Module RangeFacts.
Import PyStr Pandas QueryParser Examples Spec.
Import ParserFacts YearFacts.
Local Open Scope string_scope.
Local Open Scope list_scope.




Lemma last_char_append (a b : string) : forall prev,
  last_char prev (a ++ b) = last_char (last_char prev a) b.
Proof. induction a as [|c a IH]; intros prev; simpl; [reflexivity | apply IH]. Qed.















End RangeFacts.

(* ================================================================= *)
(** ** Frames and their rows *)

Module FrameFacts.
Import PyStr Pandas QueryParser DataAnalyzer Spec.

Lemma for_each_all_empty {A B : Type} (f : A -> res (list B)) (l : list A) :
  (forall a, In a l -> f a = Ok []) -> for_each f l = Ok [].
Proof.
  induction l as [|a l IH]; intros Hf; simpl; [reflexivity |].
  rewrite (Hf a) by now left. simpl.
  rewrite IH; [reflexivity |]. intros b Hb. apply Hf. now right.
Qed.

Lemma len_zero_rows df : len df = 0 -> rows df = [].
Proof. unfold len. apply length_zero_iff_nil. Qed.

Lemma select_columns df mask : columns (select df mask) = columns df.
Proof. reflexivity. Qed.

Lemma select_rows df mask :
  rows (select df mask) = filter (fun lr => mask (snd lr)) (rows df).
Proof. reflexivity. Qed.

Lemma filter_filter {A : Type} (p q : A -> bool) (l : list A) :
  filter p (filter q l) = filter (fun a => q a && p a) l.
Proof.
  induction l as [|a l IH]; simpl; [reflexivity |].
  destruct (q a); simpl; [destruct (p a) |]; now rewrite IH.
Qed.

Lemma selected_refl df : selected_from df df.
Proof.
  split; [reflexivity |]. exists (fun _ => true).
  induction (rows df) as [|a l IH]; simpl; [reflexivity | now rewrite <- IH].
Qed.

Lemma selected_select df snapshot mask :
  selected_from df snapshot -> selected_from (select df mask) snapshot.
Proof.
  intros [Hc [keep Hr]]. split; [exact Hc |].
  exists (fun lr => keep lr && mask (snd lr)).
  rewrite select_rows, Hr. apply filter_filter.
Qed.

Section Filtering.
Context `{Format}.

(** Filtering selects rows of the snapshot, when it does not raise. *)
Lemma apply_filters_selected snapshot filters df :
  _apply_filters snapshot filters = Ok df -> selected_from df snapshot.
Proof.
  unfold _apply_filters.
  set (df1 := match requested (f_states filters), _find_state_columns snapshot with
              | _ :: _, state_col :: _ => _ | _, _ => snapshot end).
  assert (H1 : selected_from df1 snapshot).
  { subst df1. destruct (requested (f_states filters)); [apply selected_refl |].
    destruct (_find_state_columns snapshot); [apply selected_refl |].
    apply selected_select, selected_refl. }
  set (df2 := match requested (f_years filters), _find_year_columns snapshot with
              | _ :: _, year_col :: _ => _ | _, _ => df1 end).
  assert (H2 : selected_from df2 snapshot).
  { subst df2. destruct (requested (f_years filters)); [exact H1 |].
    destruct (_find_year_columns snapshot); [exact H1 |].
    now apply selected_select. }
  clearbody df2. clear H1. clearbody df1.
  destruct (requested (f_months filters)) as [|wanted_month wanted];
    [intros Hok; now injection Hok as <- |].
  destruct (_find_month_columns snapshot) as [|month_col month_cols];
    [intros Hok; now injection Hok as <- |].
  destruct (str_accessor df2 month_col); [| discriminate].
  intros Hok. injection Hok as <-. now apply selected_select.
Qed.

(** Where the table has no column of a role, nothing is filtered. *)
Lemma apply_filters_without_role_columns snapshot filters :
  _find_state_columns snapshot = [] ->
  _find_year_columns snapshot = [] ->
  _find_month_columns snapshot = [] ->
  _apply_filters snapshot filters = Ok snapshot.
Proof.
  intros Hs Hy Hm. unfold _apply_filters. rewrite Hs, Hy, Hm.
  now destruct (requested (f_states filters)), (requested (f_years filters)),
    (requested (f_months filters)).
Qed.

(** The month filter on a numeric column raises, whatever the rows. *)
Lemma apply_filters_numeric_month snapshot filters month_col others :
  _find_month_columns snapshot = month_col :: others ->
  is_numeric snapshot month_col = true ->
  requested (f_months filters) <> [] ->
  _apply_filters snapshot filters = Raise AttributeError.
Proof.
  intros Hcols Hnum Hwanted. unfold _apply_filters. rewrite Hcols.
  destruct (requested (f_months filters)) as [|m ms]; [contradiction |].
  match goal with
  | |- (if str_accessor ?df month_col then _ else _) = _ =>
      replace (str_accessor df month_col) with false; [reflexivity |]
  end.
  unfold str_accessor.
  match goal with
  | |- context [is_numeric ?df month_col] =>
      replace (is_numeric df month_col) with true; [reflexivity |]
  end.
  rewrite <- Hnum. unfold is_numeric, dtype_of, column_names.
  now destruct (requested (f_states filters)), (_find_state_columns snapshot),
    (requested (f_years filters)), (_find_year_columns snapshot).
Qed.

End Filtering.

End FrameFacts.

(* ================================================================= *)
(** ** Properties of the analyzer: dispatch and empty results *)

Module AnalyzerFacts.
Import PyStr Pandas QueryParser DataAnalyzer AnswerGenerator Examples Spec.
Import FrameFacts.
Local Open Scope string_scope.

Section Dispatch.
Context `{Format}.
Variable self_df : DataFrame.

Lemma compare_entities_empty df filters metrics :
  len df = 0 ->
  exists b, _compare_entities self_df df filters metrics = Ok b /\ data b = [].
Proof.
  intros Hlen. apply len_zero_rows in Hlen. unfold _compare_entities.
  destruct (_find_state_columns self_df) as [|state_col state_cols];
    [now exists (empty_results "comparison") |].
  destruct metrics as [|metric metrics];
    [now exists (empty_results "comparison") |].
  destruct (String.eqb metric EmptyString);
    [now exists (empty_results "comparison") |].
  rewrite for_each_all_empty.
  - now exists (with_data "comparison" []).
  - intros state_ _. unfold index. rewrite select_rows, Hlen. reflexivity.
Qed.

Lemma find_extremum_empty kind idx df metrics :
  len df = 0 -> find_extremum self_df kind idx df metrics = Ok (empty_results kind).
Proof.
  intros Hlen. unfold find_extremum. rewrite Hlen.
  now destruct metrics.
Qed.

Lemma aggregate_empty kind reduce df metrics :
  len df = 0 -> aggregate kind reduce df metrics = Ok (empty_results kind).
Proof.
  intros Hlen. unfold aggregate. rewrite Hlen. now destruct metrics.
Qed.

Lemma analyze_trend_empty df metrics :
  len df = 0 -> _analyze_trend self_df df metrics = Ok (empty_results "trend").
Proof.
  intros Hlen. unfold _analyze_trend. rewrite Hlen.
  now destruct (_find_year_columns self_df), metrics.
Qed.

Lemma general_query_empty df metrics :
  len df = 0 -> _general_query df metrics = Ok (empty_results "general").
Proof. intros Hlen. unfold _general_query. now rewrite Hlen. Qed.

Lemma general_query_rows df metrics :
  len df <> 0 ->
  _general_query df metrics =
  Ok (with_data "general"
        (map (fun metric =>
                General metric (series_mean (cells_of df metric))
                        (series_min (cells_of df metric))
                        (series_max (cells_of df metric))
                        (len df) (index df))
             (filter (fun metric => has_column df metric && is_numeric df metric)
                     metrics))).
Proof.
  intros Hlen. unfold _general_query.
  now destruct (Nat.eqb_spec (len df) 0).
Qed.

(** C1, as the code has it: when the filters leave no row, every intent
    but count returns a bundle without data, which is rendered as the
    fixed message with no citation; the count intent returns one item,
    the count 0 with no row index, which is rendered as a sentence
    about 0 records, again with no citation. *)
Theorem empty_result_contract (parsed_query : ParsedQuery) (df : DataFrame) :
  _apply_filters self_df (filters parsed_query) = Ok df ->
  len df = 0 ->
  (intent parsed_query <> "count" ->
   exists b,
     execute_query self_df parsed_query = Ok b
     /\ data b = []
     /\ forall question table,
          generate_answer question parsed_query b table
          = Ok {| answer := no_data_message; citations := [] |})
  /\ (intent parsed_query = "count" ->
      execute_query self_df parsed_query = Ok (with_data "count" [Count 0 []])
      /\ forall question table,
           generate_answer question parsed_query
                           (with_data "count" [Count 0 []]) table
           = Ok {| answer := "There are **0** records matching your query.";
                   citations := [] |}).
Proof.
  intros Hfilter Hlen. unfold execute_query. rewrite Hfilter. cbn [bind].
  split.
  - intros Hcount.
    assert (Hrender : forall b, data b = [] ->
              forall question table,
                generate_answer question parsed_query b table
                = Ok {| answer := no_data_message; citations := [] |}).
    { intros b Hb question table. unfold generate_answer. now rewrite Hb. }
    destruct (String.eqb (intent parsed_query) "compare").
    { destruct (compare_entities_empty df (filters parsed_query)
                  (metrics parsed_query) Hlen) as (b & Hb & Hdata).
      exists b. auto. }
    destruct (String.eqb (intent parsed_query) "maximum").
    { exists (empty_results "maximum"). split; [now apply find_extremum_empty |]. auto. }
    destruct (String.eqb (intent parsed_query) "minimum").
    { exists (empty_results "minimum"). split; [now apply find_extremum_empty |]. auto. }
    destruct (String.eqb (intent parsed_query) "average").
    { exists (empty_results "average"). split; [now apply aggregate_empty |]. auto. }
    destruct (String.eqb (intent parsed_query) "sum").
    { exists (empty_results "sum"). split; [now apply aggregate_empty |]. auto. }
    destruct (String.eqb (intent parsed_query) "trend").
    { exists (empty_results "trend"). split; [now apply analyze_trend_empty |]. auto. }
    destruct (String.eqb_spec (intent parsed_query) "count"); [contradiction |].
    exists (empty_results "general"). split; [now apply general_query_empty |]. auto.
  - intros ->. cbn. unfold _count_records. rewrite Hlen.
    unfold index. rewrite (len_zero_rows _ Hlen). split; reflexivity.
Qed.

(** C10, as the code has it: a query of intent 'list' is executed by the
    general branch.  When the filters leave at least one row the bundle
    of kind 'general' has one item for each candidate metric that is a
    numeric column, with its mean, minimum, maximum, the number of rows
    left and all their labels; when they leave none, it has no item.
    The intent is 'list' when a phrase of 'list' occurs in the lowered
    question and no phrase of the six intents checked before does. *)
Theorem list_intent_is_general (parsed_query : ParsedQuery) (df : DataFrame) :
  intent parsed_query = "list" ->
  _apply_filters self_df (filters parsed_query) = Ok df ->
  execute_query self_df parsed_query = _general_query df (metrics parsed_query)
  /\ (len df <> 0 ->
      execute_query self_df parsed_query =
      Ok (with_data "general"
            (map (fun metric =>
                    General metric (series_mean (cells_of df metric))
                            (series_min (cells_of df metric))
                            (series_max (cells_of df metric))
                            (len df) (index df))
                 (filter (fun metric =>
                            has_column df metric && is_numeric df metric)
                         (metrics parsed_query)))))
  /\ (len df = 0 ->
      execute_query self_df parsed_query = Ok (empty_results "general"))
  /\ (forall question table,
        any_in (flat_map snd (firstn 6 intent_patterns)) (lower question)
        = false ->
        any_in ["list"; "show"; "display"; "what are"] (lower question)
        = true ->
        intent (parse question table) = "list").
Proof.
  intros Hlist Hfilter.
  assert (Hrun : execute_query self_df parsed_query
                 = _general_query df (metrics parsed_query)).
  { unfold execute_query. rewrite Hfilter, Hlist. reflexivity. }
  rewrite Hrun. split; [reflexivity |]. split; [| split].
  - apply general_query_rows.
  - apply general_query_empty.
  - intros question table Hnone Hsome.
    apply (ParserFacts.first_intent_split intent_patterns (lower question)
             (firstn 6 intent_patterns) "list"
             ["list"; "show"; "display"; "what are"]
             (skipn 7 intent_patterns)); [reflexivity | | exact Hsome].
    intros j qs Hin.
    cbn [firstn intent_patterns flat_map snd] in Hnone.
    rewrite !ParserFacts.any_in_app in Hnone.
    repeat (apply orb_false_iff in Hnone as [? Hnone]).
    cbn [firstn intent_patterns] in Hin.
    repeat (destruct Hin as [Hin | Hin];
            [injection Hin as <- <-; assumption |]).
    contradiction.
Qed.

End Dispatch.

(** The empty-result rule at a count over a year the table lacks. *)
Lemma empty_result_contract_witness :
  execute_query (new rainfall) count_2019 = Ok (with_data "count" [Count 0 []])
  /\ forall question table,
       generate_answer question count_2019
                       (with_data "count" [Count 0 []]) table
       = Ok {| answer := "There are **0** records matching your query.";
               citations := [] |}.
Proof.
  apply (proj2 (empty_result_contract (new rainfall) count_2019
                  {| columns := columns rainfall; rows := [] |}
                  eq_refl eq_refl)).
  reflexivity.
Defined.

(** C1 as stated fails for count: the filters of this question leave no
    row, yet the bundle has an item and the answer is not the fixed
    message. *)
Lemma count_of_no_rows_is_answered :
  _apply_filters (new rainfall) (filters count_2019)
  = Ok {| columns := columns rainfall; rows := [] |}
  /\ intent count_2019 = "count"
  /\ execute_query (new rainfall) count_2019
     = Ok (with_data "count" [Count 0 []])
  /\ data (with_data "count" [Count 0 []]) <> []
  /\ generate_answer "How many records are there in 2019?" count_2019
                     (with_data "count" [Count 0 []]) rainfall
     = Ok {| answer := "There are **0** records matching your query.";
             citations := [] |}
  /\ "There are **0** records matching your query." <> no_data_message.
Proof.
  repeat split; try reflexivity; discriminate.
Qed.

(** The dispatch of 'list' at a question that asks to show a column. *)
Lemma list_intent_is_general_witness :
  execute_query (new rainfall) (parse "Show the rainfall" rainfall)
  = Ok (with_data "general"
          [General "annual_rainfall_mm" (Num (3200 # 3)) (Num (900 # 1))
                   (Num (1200 # 1)) 3 [0; 1; 2]]).
Proof.
  rewrite (proj1 (proj2 (list_intent_is_general (new rainfall)
                           (parse "Show the rainfall" rainfall)
                           (new rainfall) eq_refl eq_refl)));
    [reflexivity | discriminate].
Defined.

(** C10 as stated fails when the filters leave no row: the question has
    a numeric candidate metric, and the bundle has no item for it. *)
Lemma list_of_no_rows_has_no_item :
  intent show_2019 = "list"
  /\ metrics show_2019 = ["annual_rainfall_mm"]
  /\ is_numeric (new rainfall) "annual_rainfall_mm" = true
  /\ execute_query (new rainfall) show_2019 = Ok (empty_results "general")
  /\ data (empty_results "general") = [].
Proof. repeat split; reflexivity. Qed.

(** C6 fails on the code: the table gives the month as a number, the
    question names a month, and the month filter raises. *)
Theorem month_filter_raises_on_numbers :
  _find_month_columns (new monthly) = ["month"]
  /\ is_numeric (new monthly) "month" = true
  /\ f_months (filters rain_in_may) = Some ["may"; "may"]
  /\ _apply_filters (new monthly) (filters rain_in_may) = Raise AttributeError
  /\ execute_query (new monthly) rain_in_may = Raise AttributeError.
Proof. repeat split; reflexivity. Qed.

End AnalyzerFacts.

(* ================================================================= *)
(** ** The snapshot of the analyzer and the rows selected from it *)

Module SnapshotFacts.
Import PyStr Pandas QueryParser DataAnalyzer Spec FrameFacts.

Lemma map_fst_combine {A B : Type} (l : list A) (l' : list B) :
  List.length l = List.length l' -> map fst (combine l l') = l.
Proof.
  revert l'; induction l as [|a l IH]; intros [|b l'] Hlen; simpl;
    try discriminate; [reflexivity |].
  now rewrite IH by now injection Hlen.
Qed.

(** The labels of the snapshot are 0, 1, 2, ... in row order. *)
Lemma new_index df : index (new df) = seq 0 (len df).
Proof.
  unfold index, new, reset_index. cbn [rows].
  apply map_fst_combine. unfold len. now rewrite length_seq, length_map.
Qed.

Lemma seq_sorted n : forall a, StronglySorted lt (seq a n).
Proof.
  induction n as [|n IH]; intros a; simpl; constructor; [apply IH |].
  apply Forall_forall. intros x Hx. apply in_seq in Hx. lia.
Qed.

Lemma new_index_sorted df : StronglySorted lt (index (new df)).
Proof. rewrite new_index. apply seq_sorted. Qed.

Lemma filter_labels_sorted {A : Type} (keep : nat * A -> bool) (l : list (nat * A)) :
  StronglySorted lt (map fst l) -> StronglySorted lt (map fst (filter keep l)).
Proof.
  induction l as [|a l IH]; simpl; intros Hs; [constructor |].
  apply StronglySorted_inv in Hs as [Hs Ha].
  destruct (keep a); simpl; [| now apply IH].
  constructor; [now apply IH |].
  rewrite Forall_forall in *. intros x Hx. apply Ha.
  apply in_map_iff in Hx as (lr & <- & Hlr).
  apply filter_In in Hlr as [Hlr _]. now apply in_map.
Qed.

Lemma selected_index_sorted df snapshot :
  selected_from df snapshot ->
  StronglySorted lt (index snapshot) -> StronglySorted lt (index df).
Proof.
  intros [_ [keep Hrows]] Hs. unfold index. rewrite Hrows.
  now apply filter_labels_sorted.
Qed.

Lemma selected_row df snapshot lr :
  selected_from df snapshot -> In lr (rows df) -> In lr (rows snapshot).
Proof.
  intros [_ [keep Hrows]] Hin. rewrite Hrows in Hin.
  now apply filter_In in Hin.
Qed.

(** Labels that ascend strictly name one row each. *)
Lemma find_labelled_row (l : list (nat * list cell)) label r :
  StronglySorted lt (map fst l) -> In (label, r) l ->
  find (fun lr => Nat.eqb (fst lr) label) l = Some (label, r).
Proof.
  induction l as [|[k r0] l IH]; simpl; intros Hs Hin; [contradiction |].
  apply StronglySorted_inv in Hs as [Hs Hk].
  destruct (Nat.eqb_spec k label) as [-> | Hne].
  - destruct Hin as [Heq | Hin]; [now rewrite Heq |].
    rewrite Forall_forall in Hk.
    assert (label < label) by (apply Hk; change label with (fst (label, r));
                               now apply in_map).
    lia.
  - destruct Hin as [Heq | Hin]; [injection Heq as -> _; contradiction |].
    now apply IH.
Qed.

Lemma has_column_position df col :
  has_column df col = false -> position col (column_names df) = None.
Proof.
  unfold has_column. induction (column_names df) as [|n names IH]; simpl;
    [reflexivity |].
  destruct (String.eqb col n); [discriminate |].
  intros Hrest. now rewrite IH.
Qed.

Lemma row_cell_selected df snapshot col r :
  columns df = columns snapshot -> row_cell df col r = row_cell snapshot col r.
Proof. unfold row_cell, column_names. now intros ->. Qed.

Lemma has_column_selected df snapshot col :
  columns df = columns snapshot -> has_column df col = has_column snapshot col.
Proof. unfold has_column, column_names. now intros ->. Qed.

Lemma is_numeric_selected df snapshot col :
  columns df = columns snapshot -> is_numeric df col = is_numeric snapshot col.
Proof. unfold is_numeric, dtype_of, column_names. now intros ->. Qed.

(** The cell under a label of the snapshot is the cell of the row that
    carries the label. *)
Lemma cell_at_row snapshot col label r :
  StronglySorted lt (index snapshot) -> In (label, r) (rows snapshot) ->
  cell_at snapshot col label = row_cell snapshot col r.
Proof.
  intros Hs Hin. unfold cell_at, loc, find_row.
  rewrite (find_labelled_row _ _ _ Hs Hin). cbn [option_map snd].
  destruct (has_column snapshot col) eqn:Hcol; [reflexivity |].
  unfold row_cell. now rewrite (has_column_position _ _ Hcol).
Qed.

Lemma loc_row snapshot col label r :
  StronglySorted lt (index snapshot) -> In (label, r) (rows snapshot) ->
  has_column snapshot col = true ->
  loc snapshot label col = Some (row_cell snapshot col r).
Proof.
  intros Hs Hin Hcol. unfold loc, find_row.
  now rewrite Hcol, (find_labelled_row _ _ _ Hs Hin).
Qed.

(** The column of a selection holds the cells of the snapshot at the
    labels selected. *)
Lemma cells_of_selected df snapshot col :
  selected_from df snapshot -> StronglySorted lt (index snapshot) ->
  cells_of df col = cells_at snapshot col (index df).
Proof.
  intros Hsel Hs. unfold cells_of, column, cells_at, index.
  rewrite !map_map. apply map_ext_in. intros [label r] Hin. cbn [fst snd].
  rewrite (cell_at_row snapshot col label r Hs (selected_row _ _ _ Hsel Hin)).
  apply row_cell_selected, Hsel.
Qed.

Lemma numbers_all_present cells :
  Forall (fun c => exists q, c = Num q) cells ->
  List.length (numbers cells) = List.length cells.
Proof.
  induction 1 as [|c cells [q ->] _ IH]; simpl; [reflexivity | now rewrite IH].
Qed.

End SnapshotFacts.

(* ================================================================= *)
(** ** Properties of the analyzer: sums and averages *)

Module AggregateFacts.
Import PyStr Pandas QueryParser DataAnalyzer AnswerGenerator Examples Spec.
Import FrameFacts SnapshotFacts.
Local Open Scope string_scope.

Section Aggregates.
Context `{Format}.

Lemma aggregate_rows kind reduce df metrics :
  len df <> 0 ->
  aggregate kind reduce df metrics =
  Ok (with_data kind
        (map (fun metric =>
                Aggregate metric (reduce (cells_of df metric)) (len df) (index df))
             (filter (fun metric => has_column df metric && is_numeric df metric)
                     metrics))).
Proof.
  intros Hlen. unfold aggregate.
  destruct metrics as [|metric metrics]; [reflexivity |].
  now destruct (Nat.eqb_spec (len df) 0).
Qed.

(** C2, as the code has it, where the arithmetic of numpy is exact.
    Over the rows the filters leave, and for each candidate metric that
    is a numeric column of the table, the numbers of the metric at
    these rows being multiples of one power of two 2^e, e at most 0,
    whose absolute values add up to 2^53 * 2^e at most (whole numbers
    that add up to 2^53 at most, for one):
    the value of the sum intent is the sum of the numbers the snapshot
    holds for the metric at the labels returned, NaN cells left out;
    the value of the average intent is that sum divided by the number
    of cells that are not NaN (NaN itself when there is none), where
    binary64 holds this quotient;
    the count returned is the number of labels returned.  When no cell
    is NaN the two numbers agree and the average is the sum divided by
    the count returned. *)
Theorem aggregation_identity (table : DataFrame) (parsed_query : ParsedQuery)
  (df : DataFrame) :
  _apply_filters (new table) (filters parsed_query) = Ok df ->
  len df <> 0 ->
  (forall metric,
     In metric (metrics parsed_query) ->
     sums_exactly (numbers (cells_at (new table) metric (index df)))) ->
  (intent parsed_query = "sum" ->
   execute_query (new table) parsed_query =
   Ok (with_data "sum"
         (map (fun metric =>
                 Aggregate metric
                   (Num (Qsum (numbers (cells_at (new table) metric (index df)))))
                   (List.length (index df)) (index df))
              (filter (fun metric => has_column (new table) metric
                                     && is_numeric (new table) metric)
                      (metrics parsed_query)))))
  /\ (intent parsed_query = "average" ->
      (forall metric,
         In metric (metrics parsed_query) ->
         means_exactly (numbers (cells_at (new table) metric (index df)))) ->
      execute_query (new table) parsed_query =
      Ok (with_data "average"
            (map (fun metric =>
                    Aggregate metric
                      (match numbers (cells_at (new table) metric (index df)) with
                       | [] => NaN
                       | present =>
                           Num (Qsum present / Qof_nat (List.length present))%Q
                       end)
                      (List.length (index df)) (index df))
                 (filter (fun metric => has_column (new table) metric
                                        && is_numeric (new table) metric)
                         (metrics parsed_query)))))
  /\ (forall metric,
        Forall (fun c => exists q, c = Num q)
               (cells_at (new table) metric (index df)) ->
        List.length (numbers (cells_at (new table) metric (index df)))
        = List.length (index df)).
Proof.
  intros Hfilter Hlen _.
  pose proof (apply_filters_selected _ _ _ Hfilter) as Hsel.
  pose proof (new_index_sorted table) as Hsorted.
  assert (Hitems : forall kind reduce,
            aggregate kind reduce df (metrics parsed_query) =
            Ok (with_data kind
                  (map (fun metric =>
                          Aggregate metric
                            (reduce (cells_at (new table) metric (index df)))
                            (List.length (index df)) (index df))
                       (filter (fun metric => has_column (new table) metric
                                              && is_numeric (new table) metric)
                               (metrics parsed_query))))).
  { intros kind reduce. rewrite (aggregate_rows _ _ _ _ Hlen).
    do 2 f_equal.
    rewrite (filter_ext _ (fun metric => has_column (new table) metric
                                         && is_numeric (new table) metric)).
    - apply map_ext. intros metric.
      rewrite (cells_of_selected _ _ metric Hsel Hsorted).
      unfold len, index. now rewrite length_map.
    - intros metric. now rewrite (has_column_selected _ _ metric (proj1 Hsel)),
        (is_numeric_selected _ _ metric (proj1 Hsel)). }
  split; [| split].
  - intros Hsum. unfold execute_query. rewrite Hfilter, Hsum. cbn.
    apply (Hitems "sum" series_sum).
  - intros Havg _. unfold execute_query. rewrite Hfilter, Havg. cbn.
    apply (Hitems "average" series_mean).
  - intros metric Hall. unfold cells_at in *.
    rewrite (numbers_all_present _ Hall). now rewrite length_map.
Qed.

End Aggregates.

(** The identity at the total and at the average over the five
    stations, one of which has no reading: the readings 10, 30, 30, 10
    are whole, add up to 80, and 80/4 is 5 * 2^2. *)
Lemma aggregation_identity_witness :
  execute_query (new stations) total_rain
  = Ok (with_data "sum" [Aggregate "rain_mm" (Num (80 # 1)) 5 [0; 1; 2; 3; 4]])
  /\ execute_query (new stations) average_rain
     = Ok (with_data "average"
             [Aggregate "rain_mm" (Num (80 # 4)) 5 [0; 1; 2; 3; 4]]).
Proof.
  assert (Hsums : forall metric,
            In metric ["rain_mm"] ->
            sums_exactly
              (numbers (cells_at (new stations) metric
                          (index (new stations))))).
  { intros metric [<- | []]. exists 0%Z. split; [lia |]. split.
    - repeat constructor; [exists 10%Z | exists 30%Z | exists 30%Z | exists 10%Z];
        reflexivity.
    - vm_compute. discriminate. }
  assert (Hmeans : forall metric,
            In metric ["rain_mm"] ->
            means_exactly
              (numbers (cells_at (new stations) metric
                          (index (new stations))))).
  { intros metric [<- | []]. exists 5%Z, 2%Z.
    split; [reflexivity |]. split; [lia | reflexivity]. }
  split.
  - rewrite (proj1 (aggregation_identity stations total_rain (new stations)
                      eq_refl ltac:(discriminate) Hsums) eq_refl).
    reflexivity.
  - rewrite (proj1 (proj2 (aggregation_identity stations average_rain
                             (new stations) eq_refl ltac:(discriminate)
                             Hsums)) eq_refl Hmeans).
    reflexivity.
Defined.

(** C2 as stated fails where a reading is missing: the sum over the
    five stations is 80, the count returned is 5, and the average
    returned is 80/4, not 80/5. *)
Lemma average_is_not_sum_over_count :
  execute_query (new stations) total_rain
  = Ok (with_data "sum" [Aggregate "rain_mm" (Num (80 # 1)) 5 [0; 1; 2; 3; 4]])
  /\ execute_query (new stations) average_rain
     = Ok (with_data "average"
             [Aggregate "rain_mm" (Num (80 # 4)) 5 [0; 1; 2; 3; 4]])
  /\ ~ ((80 # 4) == (80 # 1) / Qof_nat 5)%Q.
Proof.
  repeat split. intros Heq. vm_compute in Heq. discriminate Heq.
Qed.

End AggregateFacts.

(* ================================================================= *)
(** ** Properties of the analyzer: maximum and minimum *)

Module ExtremumFacts.
Import PyStr Pandas QueryParser DataAnalyzer AnswerGenerator Examples Spec.
Import FrameFacts SnapshotFacts.
Local Open Scope string_scope.
Local Open Scope list_scope.

Section Best.

(** [better x y]: [x] replaces the best value [y] seen so far;
    [at_most w v]: [w] is no better than [v]. *)
Variable better : Q -> Q -> bool.
Variable at_most : Q -> Q -> Prop.
Hypothesis better_true :
  forall x y, better x y = true -> at_most y x /\ ~ at_most x y.
Hypothesis better_false : forall x y, better x y = false -> at_most x y.
Hypothesis at_most_trans :
  forall x y z, at_most x y -> at_most y z -> at_most x z.

Lemma worse_at_most_worse x y z :
  at_most x y -> strictly_worse at_most y z -> strictly_worse at_most x z.
Proof.
  intros Hxy [Hyz Hzy]. split; [now apply (at_most_trans x y z) |].
  intros Hzx. apply Hzy. now apply (at_most_trans z x y).
Qed.

Lemma worse_worse x y z :
  strictly_worse at_most x y -> strictly_worse at_most y z ->
  strictly_worse at_most x z.
Proof. intros [Hxy _]. now apply worse_at_most_worse. Qed.

Lemma arg_best_from l : forall j y i v,
  arg_best better (Some (j, y)) l = Some (i, v) ->
  ((i, v) = (j, y) /\ forall k w, In (k, Num w) l -> at_most w y)
  \/ (exists l1 l2,
        l = l1 ++ (i, Num v) :: l2
        /\ (forall k w, In (k, Num w) l1 -> strictly_worse at_most w v)
        /\ strictly_worse at_most y v
        /\ (forall k w, In (k, Num w) l2 -> at_most w v)).
Proof.
  induction l as [|[k c] l IH]; intros j y i v Hbest; simpl in Hbest.
  - left. split; [now injection Hbest as <- <- | contradiction].
  - destruct c as [x | t |].
    + destruct (better x y) eqn:Hxy.
      * apply better_true in Hxy.
        destruct (IH _ _ _ _ Hbest) as [[Heq Hl] | (l1 & l2 & -> & H1 & Hx & H2)].
        -- injection Heq as -> ->. right. exists [], l.
           split; [reflexivity |]. split; [intros k' w [] |].
           split; [exact Hxy | exact Hl].
        -- right. exists ((k, Num x) :: l1), l2.
           split; [reflexivity |]. split; [| split; [| exact H2]].
           ++ intros k' w [Heq | Hin]; [now injection Heq as _ <- | eauto].
           ++ now apply (worse_worse y x v).
      * apply better_false in Hxy.
        destruct (IH _ _ _ _ Hbest) as [[Heq Hl] | (l1 & l2 & -> & H1 & Hy & H2)].
        -- left. split; [exact Heq |].
           intros k' w [Hw | Hin]; [now injection Hw as _ <- | eauto].
        -- right. exists ((k, Num x) :: l1), l2.
           split; [reflexivity |]. split; [| split; [exact Hy | exact H2]].
           intros k' w [Heq | Hin]; [| eauto].
           injection Heq as _ <-. now apply (worse_at_most_worse x y v).
    + destruct (IH _ _ _ _ Hbest) as [[Heq Hl] | (l1 & l2 & -> & H1 & Hy & H2)].
      * left. split; [exact Heq |].
        intros k' w [Hw | Hin]; [discriminate | eauto].
      * right. exists ((k, Str t) :: l1), l2.
        split; [reflexivity |]. split; [| split; [exact Hy | exact H2]].
        intros k' w [Heq | Hin]; [discriminate | eauto].
    + destruct (IH _ _ _ _ Hbest) as [[Heq Hl] | (l1 & l2 & -> & H1 & Hy & H2)].
      * left. split; [exact Heq |].
        intros k' w [Hw | Hin]; [discriminate | eauto].
      * right. exists ((k, NaN) :: l1), l2.
        split; [reflexivity |]. split; [| split; [exact Hy | exact H2]].
        intros k' w [Heq | Hin]; [discriminate | eauto].
Qed.

(** The label returned is that of the first best number: what comes
    before is strictly worse, what comes after is no better. *)
Lemma arg_best_first l : forall i v,
  arg_best better None l = Some (i, v) ->
  exists l1 l2,
    l = l1 ++ (i, Num v) :: l2
    /\ (forall k w, In (k, Num w) l1 -> strictly_worse at_most w v)
    /\ (forall k w, In (k, Num w) l2 -> at_most w v).
Proof.
  induction l as [|[k c] l IH]; intros i v Hbest; simpl in Hbest; [discriminate |].
  destruct c as [x | t |].
  - destruct (arg_best_from _ _ _ _ _ Hbest)
      as [[Heq Hl] | (l1 & l2 & -> & H1 & Hx & H2)].
    + injection Heq as -> ->. exists [], l.
      split; [reflexivity |]. split; [contradiction | exact Hl].
    + exists ((k, Num x) :: l1), l2.
      split; [reflexivity |]. split; [| exact H2].
      intros k' w [Heq | Hin]; [now injection Heq as _ <- | eauto].
  - destruct (IH _ _ Hbest) as (l1 & l2 & -> & H1 & H2).
    exists ((k, Str t) :: l1), l2. split; [reflexivity |]. split; [| exact H2].
    intros k' w [Heq | Hin]; [discriminate | eauto].
  - destruct (IH _ _ Hbest) as (l1 & l2 & -> & H1 & H2).
    exists ((k, NaN) :: l1), l2. split; [reflexivity |]. split; [| exact H2].
    intros k' w [Heq | Hin]; [discriminate | eauto].
Qed.

Lemma arg_best_from_some l : forall b,
  exists i v, arg_best better (Some b) l = Some (i, v).
Proof.
  induction l as [|[k c] l IH]; intros [j y]; simpl.
  - now exists j, y.
  - destruct c; [destruct (better q y) |..]; apply IH.
Qed.

Lemma arg_best_some l k w :
  In (k, Num w) l -> exists i v, arg_best better None l = Some (i, v).
Proof.
  induction l as [|[k' c] l IH]; intros Hin; [contradiction |].
  destruct Hin as [Heq | Hin].
  - injection Heq as -> ->. simpl. apply arg_best_from_some.
  - simpl. destruct c; [apply arg_best_from_some | now apply IH..].
Qed.

Lemma sorted_after (l1 l2 : list nat) i j :
  StronglySorted lt (l1 ++ i :: l2) -> In j l2 -> i < j.
Proof.
  induction l1 as [|a l1 IH]; simpl; intros Hs Hin;
    apply StronglySorted_inv in Hs as [Hs Ha].
  - rewrite Forall_forall in Ha. now apply Ha.
  - now apply IH.
Qed.

Context `{Format}.

(** What [_find_maximum] and [_find_minimum] return on the rows the
    filters leave, when some of them holds a number for the metric. *)
Lemma find_extremum_first (kind : string) (table : DataFrame)
  (df : DataFrame) (metric : string) (rest : list string) :
  selected_from df (new table) ->
  is_numeric (new table) metric = true ->
  (exists label q,
     In label (index df) /\ cell_at (new table) metric label = Num q) ->
  exists i v info,
    find_extremum (new table) kind
      (fun l => option_map fst (arg_best better None l)) df (metric :: rest)
    = Ok (with_data kind [Extremum metric (Num v) i info])
    /\ In i (index df)
    /\ loc (new table) i metric = Some (Num v)
    /\ forall j w,
         In j (index df) -> cell_at (new table) metric j = Num w ->
         at_most w v /\ (at_most v w -> i <= j).
Proof.
  intros Hsel Hnum (label & q & Hlabel & Hq).
  pose proof (new_index_sorted table) as Hsorted.
  pose proof (selected_index_sorted _ _ Hsel Hsorted) as Hdf_sorted.
  assert (Hcol : has_column (new table) metric = true).
  { destruct (has_column (new table) metric) eqn:E; [reflexivity |].
    unfold is_numeric, dtype_of in Hnum.
    now rewrite (has_column_position _ _ E) in Hnum. }
  (* the column of the selection, seen from the snapshot *)
  assert (Hcells : forall j w,
            In j (index df) -> cell_at (new table) metric j = Num w ->
            In (j, Num w) (column df metric)).
  { intros j w Hj Hw. unfold index in Hj.
    apply in_map_iff in Hj as ([j' r] & Hfst & Hin). cbn in Hfst. subst j'.
    unfold column. apply in_map_iff. exists (j, r). split; [| exact Hin].
    cbn [fst snd]. f_equal.
    rewrite (row_cell_selected _ _ metric r (proj1 Hsel)).
    rewrite <- (cell_at_row (new table) metric j r Hsorted
                  (selected_row _ _ _ Hsel Hin)).
    exact Hw. }
  destruct (arg_best_some _ _ _ (Hcells _ _ Hlabel Hq)) as (i & v & Hbest).
  destruct (arg_best_first _ _ _ Hbest) as (l1 & l2 & Hsplit & H1 & H2).
  assert (Hin : In (i, Num v) (column df metric)).
  { rewrite Hsplit. apply in_elt. }
  unfold column in Hin. apply in_map_iff in Hin as ([i' r] & Heq & Hrow).
  cbn [fst snd] in Heq. injection Heq as -> Hv.
  assert (Hloc : loc df i metric = Some (Num v)).
  { rewrite <- Hv. apply loc_row; [exact Hdf_sorted | exact Hrow |].
    now rewrite (has_column_selected _ _ metric (proj1 Hsel)). }
  exists i, v, (entity_info_at (new table) df i).
  split; [| split; [| split]].
  - unfold find_extremum.
    assert (Hlen : len df <> 0).
    { unfold len. destruct (rows df); [contradiction | discriminate]. }
    destruct (Nat.eqb_spec (len df) 0); [contradiction |].
    rewrite (has_column_selected _ _ metric (proj1 Hsel)), Hcol.
    rewrite (is_numeric_selected _ _ metric (proj1 Hsel)), Hnum.
    cbn [negb]. rewrite Hbest. cbn [option_map fst]. now rewrite Hloc.
  - unfold index. change i with (fst (i, r)). now apply in_map.
  - rewrite (loc_row (new table) metric i r Hsorted
               (selected_row _ _ _ Hsel Hrow) Hcol).
    now rewrite <- (row_cell_selected _ _ metric r (proj1 Hsel)), Hv.
  - intros j w Hj Hw. pose proof (Hcells _ _ Hj Hw) as Hjw.
    assert (Hlabels : index df = (map fst l1 ++ i :: map fst l2)%list).
    { unfold index.
      replace (map fst (rows df)) with (map fst (column df metric)).
      - now rewrite Hsplit, map_app.
      - unfold column. rewrite map_map. now apply map_ext. }
    rewrite Hsplit in Hjw. apply in_app_or in Hjw as [Hjw | [Hjw | Hjw]].
    + destruct (H1 _ _ Hjw) as [Hle Hnot]. split; [exact Hle | contradiction].
    + injection Hjw as -> ->. split; [| lia].
      destruct (better w w) eqn:E;
        [now destruct (better_true _ _ E) | now apply better_false].
    + split; [now apply (H2 j) |]. intros _.
      rewrite Hlabels in Hdf_sorted.
      assert (i < j); [| lia].
      apply (sorted_after _ _ _ _ Hdf_sorted).
      change j with (fst (j, Num w)). now apply in_map.
Qed.

End Best.

Lemma Qgt_bool_true x y : Qgt_bool x y = true -> (y <= x)%Q /\ ~ (x <= y)%Q.
Proof.
  unfold Qgt_bool. intros Hxy. apply negb_true_iff in Hxy.
  assert (Hn : ~ (x <= y)%Q).
  { intros Hle. apply Qle_bool_iff in Hle. congruence. }
  split; [| exact Hn]. apply Qnot_le_lt in Hn. now apply Qlt_le_weak.
Qed.

Lemma Qgt_bool_false x y : Qgt_bool x y = false -> (x <= y)%Q.
Proof.
  unfold Qgt_bool. intros Hxy. apply negb_false_iff in Hxy.
  now apply Qle_bool_iff.
Qed.

Lemma Qlt_bool_true x y : Qlt_bool x y = true -> (x <= y)%Q /\ ~ (y <= x)%Q.
Proof.
  unfold Qlt_bool. intros Hxy. apply negb_true_iff in Hxy.
  assert (Hn : ~ (y <= x)%Q).
  { intros Hle. apply Qle_bool_iff in Hle. congruence. }
  split; [| exact Hn]. apply Qnot_le_lt in Hn. now apply Qlt_le_weak.
Qed.

Lemma Qlt_bool_false x y : Qlt_bool x y = false -> (y <= x)%Q.
Proof.
  unfold Qlt_bool. intros Hxy. apply negb_false_iff in Hxy.
  now apply Qle_bool_iff.
Qed.

(** C5, as the code has it.  When the first metric is a numeric column
    and the rows the filters leave hold at least one number for it (NaN
    cells are passed over), the maximum intent returns one item: its
    value is the largest of these numbers, its row index is a label of
    a row left by the filters, the smallest such label among the rows
    that reach the value (labels ascend with the rows), and the
    snapshot holds the value at that label under the metric.  The same
    holds for the minimum intent and the smallest number. *)
Theorem extremum_first_occurrence `{Format} (table : DataFrame)
  (parsed_query : ParsedQuery) (df : DataFrame) (metric : string)
  (rest : list string) :
  _apply_filters (new table) (filters parsed_query) = Ok df ->
  metrics parsed_query = metric :: rest ->
  is_numeric (new table) metric = true ->
  (exists label q,
     In label (index df) /\ cell_at (new table) metric label = Num q) ->
  (intent parsed_query = "maximum" ->
   exists i v info,
     execute_query (new table) parsed_query
     = Ok (with_data "maximum" [Extremum metric (Num v) i info])
     /\ In i (index df)
     /\ loc (new table) i metric = Some (Num v)
     /\ forall j w,
          In j (index df) -> cell_at (new table) metric j = Num w ->
          (w <= v)%Q /\ ((v <= w)%Q -> i <= j))
  /\ (intent parsed_query = "minimum" ->
      exists i v info,
        execute_query (new table) parsed_query
        = Ok (with_data "minimum" [Extremum metric (Num v) i info])
        /\ In i (index df)
        /\ loc (new table) i metric = Some (Num v)
        /\ forall j w,
             In j (index df) -> cell_at (new table) metric j = Num w ->
             (v <= w)%Q /\ ((w <= v)%Q -> i <= j)).
Proof.
  intros Hfilter Hmetrics Hnum Hsome.
  pose proof (apply_filters_selected _ _ _ Hfilter) as Hsel.
  split; intros Hintent; unfold execute_query;
    rewrite Hfilter, Hintent, Hmetrics; cbn [bind String.eqb Ascii.eqb Bool.eqb].
  - apply (find_extremum_first Qgt_bool (fun w v => (w <= v)%Q)
             Qgt_bool_true Qgt_bool_false
             (fun x y z => Qle_trans x y z)
             "maximum" table df metric rest Hsel Hnum Hsome).
  - apply (find_extremum_first Qlt_bool (fun w v => (v <= w)%Q)
             Qlt_bool_true Qlt_bool_false
             (fun x y z Hxy Hyz => Qle_trans z y x Hyz Hxy)
             "minimum" table df metric rest Hsel Hnum Hsome).
Qed.

(** The tie-break over the five stations: 30 is reached at the labels 2
    and 3, and 2 is returned. *)
Lemma extremum_first_occurrence_witness :
  exists i v info,
    execute_query (new stations) highest_rain
    = Ok (with_data "maximum" [Extremum "rain_mm" (Num v) i info])
    /\ In i (index (new stations))
    /\ loc (new stations) i "rain_mm" = Some (Num v)
    /\ forall j w,
         In j (index (new stations)) ->
         cell_at (new stations) "rain_mm" j = Num w ->
         (w <= v)%Q /\ ((v <= w)%Q -> i <= j).
Proof.
  apply (proj1 (extremum_first_occurrence stations highest_rain (new stations)
                  "rain_mm" [] eq_refl eq_refl eq_refl
                  (ex_intro _ 0 (ex_intro _ (10 # 1)%Q
                     (conj (or_introl eq_refl) eq_refl))))).
  reflexivity.
Defined.

Lemma highest_rain_is_at_label_2 :
  execute_query (new stations) highest_rain
  = Ok (with_data "maximum"
          [Extremum "rain_mm" (Num (30 # 1)) 2
                    {| state := None; year := None |}])
  /\ execute_query (new stations) lowest_rain
     = Ok (with_data "minimum"
             [Extremum "rain_mm" (Num (10 # 1)) 0
                       {| state := None; year := None |}]).
Proof. split; reflexivity. Qed.

(** C5 as stated fails where the rows left hold no number: the filters
    of this question leave one row, the first metric is a numeric
    column of the table, and no row is returned, the search raises. *)
Lemma extremum_of_missing_readings_raises :
  _apply_filters (new gaps) (filters highest_rain_2015)
  = Ok {| columns := columns gaps;
          rows := [(0, [Num (2015 # 1); NaN])] |}
  /\ intent highest_rain_2015 = "maximum"
  /\ metrics highest_rain_2015 = ["rain_mm"]
  /\ has_column (new gaps) "rain_mm" = true
  /\ is_numeric (new gaps) "rain_mm" = true
  /\ execute_query (new gaps) highest_rain_2015 = Raise ValueError.
Proof. repeat split; reflexivity. Qed.

End ExtremumFacts.

(* ================================================================= *)
(** ** Properties of the renderer *)

Module RenderFacts.
Import PyStr Pandas QueryParser DataAnalyzer AnswerGenerator Examples Spec.
Local Open Scope string_scope.
Local Open Scope list_scope.

Section Rendering.
Context `{Format}.

Lemma format_value_plain v :
  plain_value v = true -> exists text, _format_value v = Ok text.
Proof. destruct v; simpl; [eauto | discriminate | eauto]. Qed.

(** A loop whose body succeeds on every item succeeds, and its
    citations are those of the items, in order. *)
Lemma render_items_citations f (c : ResultItem -> list string) data :
  (forall item, In item data -> exists parts, f item = Ok (parts, c item)) ->
  exists parts, render_items f data = Ok (parts, flat_map c data).
Proof.
  induction data as [|item data IH]; intros Hf; simpl.
  - now exists [].
  - destruct (Hf item (or_introl eq_refl)) as [p Hp]. rewrite Hp. cbn [bind].
    destruct IH as [ps Hps]; [intros i Hi; apply Hf; now right |].
    rewrite Hps. cbn [bind fst snd]. now exists (p ++ ps).
Qed.

Lemma for_each_singletons {A B : Type} (f : A -> res (list B)) (g : A -> B) l :
  (forall a, In a l -> f a = Ok [g a]) -> for_each f l = Ok (map g l).
Proof.
  induction l as [|a l IH]; intros Hf; simpl; [reflexivity |].
  rewrite (Hf a) by now left. cbn [bind].
  rewrite IH by (intros b Hb; apply Hf; now right). reflexivity.
Qed.

Lemma shaped_all kind data item :
  forallb (shaped kind) data = true -> In item data -> shaped kind item = true.
Proof. intros Hall Hin. rewrite forallb_forall in Hall. now apply Hall. Qed.

(** More than three rows: three citations and the line for the rest. *)
Lemma sample_citations_more metric row_indices df :
  3 < List.length row_indices ->
  sample_citations metric row_indices df
  = map (fun idx => _create_citation idx metric df) (firstn 3 row_indices)
    ++ [more_rows (List.length row_indices - 3)].
Proof.
  intros Hlen. unfold sample_citations.
  apply Nat.ltb_lt in Hlen. now rewrite Hlen.
Qed.

Lemma shaped_aggregate kind item :
  kind = "average" \/ kind = "sum" -> shaped kind item = true ->
  exists m v n l, item = Aggregate m v n l /\ plain_value v = true.
Proof.
  intros [-> | ->]; destruct item; simpl; try discriminate; intros Hv; eauto 6.
Qed.

Lemma shaped_general item :
  shaped "general" item = true ->
  exists m a b c n l,
    item = General m a b c n l
    /\ plain_value a = true /\ plain_value b = true /\ plain_value c = true.
Proof.
  destruct item; simpl; try discriminate. intros Hv.
  apply andb_true_iff in Hv as [Hv Hc]. apply andb_true_iff in Hv as [Ha Hb].
  eauto 12.
Qed.

Lemma shaped_trend item :
  shaped "trend" item = true ->
  exists y m v l, item = Trend y m v l /\ plain_value v = true.
Proof. destruct item; simpl; try discriminate; intros Hv; eauto 6. Qed.

Lemma shaped_comparison item :
  shaped "comparison" item = true ->
  exists e m v i n, item = Comparison e m v i n /\ plain_value v = true.
Proof. destruct item; simpl; try discriminate; intros Hv; eauto 7. Qed.

Lemma shaped_extremum kind item :
  kind = "maximum" \/ kind = "minimum" -> shaped kind item = true ->
  exists m v i info, item = Extremum m v i info /\ plain_value v = true.
Proof.
  intros [-> | ->]; destruct item; simpl; try discriminate; intros Hv; eauto 6.
Qed.

Lemma aggregate_answer_citations noun verb data df kind :
  kind = "average" \/ kind = "sum" ->
  forallb (shaped kind) data = true ->
  exists text,
    aggregate_answer noun verb data df
    = Ok {| answer := text;
            citations :=
              flat_map (fun item =>
                          sample_citations_of df item) data |}.
Proof.
  intros Hkind Hall. unfold aggregate_answer.
  match goal with
  | |- context [render_items ?f data] =>
      destruct (render_items_citations f (sample_citations_of df) data)
        as [parts Hparts]
  end.
  - intros item Hin.
    destruct (shaped_aggregate _ _ Hkind (shaped_all _ _ _ Hall Hin))
      as (m & v & n & l & -> & Hv).
    destruct (format_value_plain _ Hv) as [text Htext].
    cbn. rewrite Htext. cbn. eauto.
  - rewrite Hparts. cbn. eauto.
Qed.

Lemma general_answer_citations question data df :
  forallb (shaped "general") data = true ->
  exists text,
    _generate_general_answer question data df
    = Ok {| answer := text;
            citations :=
              flat_map (fun item =>
                          cite_rows df item (firstn 3 (get_row_indices item)))
                       data |}.
Proof.
  intros Hall. unfold _generate_general_answer.
  match goal with
  | |- context [render_items ?f data] =>
      destruct (render_items_citations f
                  (fun item =>
                     cite_rows df item (firstn 3 (get_row_indices item)))
                  data) as [parts Hparts]
  end.
  - intros item Hin.
    destruct (shaped_general _ (shaped_all _ _ _ Hall Hin))
      as (m & a & b & c & n & l & -> & Ha & Hb & Hc).
    destruct (format_value_plain _ Ha) as [ta Hta].
    destruct (format_value_plain _ Hb) as [tb Htb].
    destruct (format_value_plain _ Hc) as [tc Htc].
    cbn. rewrite Hta, Htb, Htc. cbn. eauto.
  - rewrite Hparts. cbn. eauto.
Qed.

Lemma insert_by_year_perm x l : Permutation (x :: l) (insert_by_year x l).
Proof.
  induction l as [|y l IH]; simpl; [reflexivity |].
  destruct (fst x <=? fst y)%Z; [reflexivity |].
  rewrite perm_swap. now constructor.
Qed.

Lemma sort_by_year_perm data :
  forallb (shaped "trend") data = true ->
  exists sorted, sort_by_year data = Ok sorted /\ Permutation data sorted.
Proof.
  intros Hall. unfold sort_by_year.
  rewrite (for_each_singletons _
             (fun item => (match get_year item with
                           | Ok y => y
                           | Raise _ => 0%Z
                           end, item))).
  - cbn [bind]. eexists. split; [reflexivity |].
    induction data as [|item data IH]; simpl; [constructor |].
    simpl in Hall. apply andb_true_iff in Hall as [_ Hall].
    rewrite <- insert_by_year_perm. cbn [map snd]. constructor. now apply IH.
  - intros item Hin.
    destruct (shaped_trend _ (shaped_all _ _ _ Hall Hin))
      as (y & m & v & l & -> & _).
    reflexivity.
Qed.

Lemma nth_item_in items i :
  i < List.length items ->
  exists item, nth_item items i = Ok item /\ In item items.
Proof.
  intros Hi. unfold nth_item.
  destruct (nth_error items i) as [item|] eqn:E.
  - exists item. split; [reflexivity | now apply nth_error_In with i].
  - apply nth_error_None in E. lia.
Qed.

Lemma trend_answer_citations question data df :
  forallb (shaped "trend") data = true ->
  exists text sorted,
    Permutation data sorted
    /\ _generate_trend_answer question data df
       = Ok {| answer := text;
               citations :=
                 flat_map (fun item =>
                             cite_rows df item
                                       (firstn 1 (get_row_indices item)))
                          sorted |}.
Proof.
  intros Hall. unfold _generate_trend_answer.
  destruct (sort_by_year_perm _ Hall) as (sorted & -> & Hperm). cbn [bind].
  assert (Hsorted : forall item, In item sorted ->
            exists y m v l, item = Trend y m v l /\ plain_value v = true).
  { intros item Hin. apply shaped_trend, (shaped_all _ data); [exact Hall |].
    now apply Permutation_in with sorted; [symmetry |]. }
  match goal with
  | |- context [render_items ?f sorted] =>
      destruct (render_items_citations f
                  (fun item =>
                     cite_rows df item (firstn 1 (get_row_indices item)))
                  sorted) as [parts Hparts]
  end.
  - intros item Hin. destruct (Hsorted _ Hin) as (y & m & v & l & -> & Hv).
    destruct (format_value_plain _ Hv) as [text Htext].
    cbn. rewrite Htext. cbn. destruct l; eauto.
  - rewrite Hparts. cbn [bind fst snd].
    destruct (2 <=? List.length sorted)%nat eqn:Hlen.
    + apply Nat.leb_le in Hlen.
      destruct (nth_item_in sorted 0) as (first_item & -> & Hfirst); [lia |].
      destruct (Hsorted _ Hfirst) as (y1 & m1 & v1 & l1 & -> & _).
      unfold last_item.
      destruct (nth_item_in sorted (List.length sorted - 1))
        as (final & -> & Hfinal); [lia |].
      destruct (Hsorted _ Hfinal) as (y2 & m2 & v2 & l2 & -> & _).
      cbn. destruct (trend_change v1 v2). cbn. eauto.
    + cbn. eauto.
Qed.

Lemma flat_map_ext_in {A B : Type} (f g : A -> list B) l :
  (forall a, In a l -> f a = g a) -> flat_map f l = flat_map g l.
Proof.
  induction l as [|a l IH]; intros Hfg; simpl; [reflexivity |].
  rewrite (Hfg a) by now left.
  now rewrite IH by (intros b Hb; apply Hfg; now right).
Qed.

(** The citations of items that carry more than three row indices.
    An average or a sum gives, for each item, the citations of its
    first three rows and then one line with the number of the other
    rows.  A general summary gives the citations of the first three
    rows of each item and no such line.  A trend gives one citation
    for each item, that of its first row. *)
Lemma sampled_citations (question : string) (parsed_query : ParsedQuery)
  (kind : string) (data : list ResultItem) (df : DataFrame) :
  data <> [] ->
  forallb (shaped kind) data = true ->
  Forall (fun item => 3 < List.length (get_row_indices item)) data ->
  (kind = "average" \/ kind = "sum" ->
   exists text,
     generate_answer question parsed_query (with_data kind data) df
     = Ok {| answer := text;
             citations :=
               flat_map (fun item =>
                           cite_rows df item (firstn 3 (get_row_indices item))
                           ++ [more_rows
                                 (List.length (get_row_indices item) - 3)])
                        data |})
  /\ (kind = "general" ->
      exists text,
        generate_answer question parsed_query (with_data kind data) df
        = Ok {| answer := text;
                citations :=
                  flat_map (fun item =>
                              cite_rows df item
                                        (firstn 3 (get_row_indices item)))
                           data |})
  /\ (kind = "trend" ->
      exists text sorted,
        Permutation data sorted
        /\ generate_answer question parsed_query (with_data kind data) df
           = Ok {| answer := text;
                   citations :=
                     flat_map (fun item =>
                                 cite_rows df item
                                           (firstn 1 (get_row_indices item)))
                              sorted |})
  /\ Forall (fun item =>
               List.length (firstn 3 (get_row_indices item)) = 3) data.
Proof.
  intros Hdata Hall Hmore.
  assert (Hrun : forall k, kind = k ->
            generate_answer question parsed_query (with_data kind data) df
            = (if String.eqb k "comparison" then
                 _generate_comparison_answer question data df
               else if String.eqb k "maximum" then
                 _generate_maximum_answer question data df
               else if String.eqb k "minimum" then
                 _generate_minimum_answer question data df
               else if String.eqb k "average" then
                 _generate_average_answer question data df
               else if String.eqb k "sum" then
                 _generate_sum_answer question data df
               else if String.eqb k "trend" then
                 _generate_trend_answer question data df
               else if String.eqb k "count" then
                 _generate_count_answer question data df
               else _generate_general_answer question data df)).
  { intros k ->. unfold generate_answer. cbn [type with_data DataAnalyzer.data].
    destruct data; [contradiction | reflexivity]. }
  split; [| split; [| split]].
  - intros Hkind.
    assert (Hagg : forall noun verb, exists text,
              aggregate_answer noun verb data df
              = Ok {| answer := text;
                      citations :=
                        flat_map (fun item =>
                          cite_rows df item (firstn 3 (get_row_indices item))
                          ++ [more_rows
                                (List.length (get_row_indices item) - 3)])
                          data |}).
    { intros noun verb.
      destruct (aggregate_answer_citations noun verb data df kind Hkind Hall)
        as [text Htext].
      exists text. rewrite Htext. do 2 f_equal.
      apply flat_map_ext_in. intros item Hin.
      destruct (shaped_aggregate _ _ Hkind (shaped_all _ _ _ Hall Hin))
        as (m & v & n & l & -> & _).
      rewrite Forall_forall in Hmore. specialize (Hmore _ Hin).
      unfold sample_citations_of, cite_rows. cbn in *.
      now apply sample_citations_more. }
    destruct Hkind as [Hk | Hk]; rewrite (Hrun _ Hk); cbn; apply Hagg.
  - intros Hk. rewrite (Hrun _ Hk). cbn. subst kind.
    now apply general_answer_citations.
  - intros Hk. rewrite (Hrun _ Hk). cbn. subst kind.
    now apply trend_answer_citations.
  - apply Forall_impl with (2 := Hmore). intros item Hlen.
    rewrite length_firstn. lia.
Qed.

End Rendering.

(** C4 as stated fails for the general summary and for the trend: each
    of these items carries more than three row indices; the summary
    gets three citations and no line for the other two rows, the trend
    gets a single citation. *)
Lemma general_and_trend_have_no_summary_line :
  execute_query (new stations) show_rain
  = Ok (with_data "general"
          [General "rain_mm" (Num (80 # 4)) (Num (10 # 1)) (Num (30 # 1)) 5
                   [0; 1; 2; 3; 4]])
  /\ (exists text,
        generate_answer "show rain" show_rain
          (with_data "general"
             [General "rain_mm" (Num (80 # 4)) (Num (10 # 1)) (Num (30 # 1)) 5
                      [0; 1; 2; 3; 4]]) stations
        = Ok {| answer := text;
                citations := [_create_citation 0 "rain_mm" stations;
                              _create_citation 1 "rain_mm" stations;
                              _create_citation 2 "rain_mm" stations] |})
  /\ execute_query (new yearly) rain_trend
     = Ok (with_data "trend"
             [Trend 2015 "rain_mm" (Num (100 # 4)) [0; 1; 2; 3];
              Trend 2016 "rain_mm" (Num (50 # 1)) [4]])
  /\ (exists text,
        generate_answer "rain trend" rain_trend
          (with_data "trend"
             [Trend 2015 "rain_mm" (Num (100 # 4)) [0; 1; 2; 3];
              Trend 2016 "rain_mm" (Num (50 # 1)) [4]]) yearly
        = Ok {| answer := text;
                citations := [_create_citation 0 "rain_mm" yearly;
                              _create_citation 4 "rain_mm" yearly] |}).
Proof.
  split; [reflexivity |]. split; [eexists; reflexivity |].
  split; [reflexivity | eexists; reflexivity].
Qed.

End RenderFacts.

(* ================================================================= *)
(** ** The items the analyzer writes *)

Module ShapeFacts.
Import PyStr Pandas QueryParser DataAnalyzer AnswerGenerator Examples Spec.
Import FrameFacts SnapshotFacts.
Local Open Scope string_scope.
Local Open Scope list_scope.

Lemma for_each_Forall {A B : Type} (P : B -> Prop) (f : A -> res (list B)) l :
  (forall a ys, In a l -> f a = Ok ys -> Forall P ys) ->
  forall zs, for_each f l = Ok zs -> Forall P zs.
Proof.
  induction l as [|a l IH]; intros Hf zs Hzs; simpl in Hzs.
  - injection Hzs as <-. constructor.
  - destruct (f a) as [ys|] eqn:Ea; [| discriminate]. cbn [bind] in Hzs.
    destruct (for_each f l) as [ws|] eqn:El; [| discriminate]. cbn [bind] in Hzs.
    injection Hzs as <-. apply Forall_app. split.
    + apply (Hf a); [now left | exact Ea].
    + apply IH; [| reflexivity]. intros b ys' Hb. apply Hf. now right.
Qed.

Lemma series_mean_plain cells : plain_value (series_mean cells) = true.
Proof. unfold series_mean. now destruct (numbers cells). Qed.

Lemma series_sum_plain cells : plain_value (series_sum cells) = true.
Proof. reflexivity. Qed.

Lemma series_min_plain cells : plain_value (series_min cells) = true.
Proof. unfold series_min. now destruct (numbers cells). Qed.

Lemma series_max_plain cells : plain_value (series_max cells) = true.
Proof. unfold series_max. now destruct (numbers cells). Qed.

Lemma index_not_empty df : len df <> 0 -> index df <> [].
Proof. unfold len, index. now destruct (rows df). Qed.

Lemma arg_best_from_In better l : forall b i v,
  arg_best better (Some b) l = Some (i, v) -> (i, v) = b \/ In (i, Num v) l.
Proof.
  induction l as [|[k c] l IH]; intros [j y] i v Hbest; simpl in Hbest.
  - left. now injection Hbest as <- <-.
  - destruct c as [x | t |].
    + destruct (better x y).
      * destruct (IH _ _ _ Hbest) as [Heq | Hin];
          [right; left; now injection Heq as -> -> | right; now right].
      * destruct (IH _ _ _ Hbest) as [Heq | Hin]; [now left | right; now right].
    + destruct (IH _ _ _ Hbest) as [Heq | Hin]; [now left | right; now right].
    + destruct (IH _ _ _ Hbest) as [Heq | Hin]; [now left | right; now right].
Qed.

Lemma arg_best_In better l : forall i v,
  arg_best better None l = Some (i, v) -> In (i, Num v) l.
Proof.
  induction l as [|[k c] l IH]; intros i v Hbest; simpl in Hbest; [discriminate |].
  destruct c as [x | t |]; [| right; now apply IH..].
  destruct (arg_best_from_In _ _ _ _ _ Hbest) as [Heq | Hin];
    [left; now injection Heq as -> -> | now right].
Qed.

Lemma Qinsert_In q l x : In x (Qinsert q l) -> x = q \/ In x l.
Proof.
  induction l as [|y l IH]; simpl.
  - intuition.
  - destruct (q ?= y)%Q; simpl; intuition.
Qed.

Lemma str_insert_In t l x : In x (str_insert t l) -> x = t \/ In x l.
Proof.
  induction l as [|y l IH]; simpl.
  - intuition.
  - destruct (String.compare t y); simpl; intuition.
Qed.

Lemma numbers_In q cells : In q (numbers cells) -> In (Num q) cells.
Proof.
  induction cells as [|c cells IH]; simpl; [trivial |].
  destruct c; simpl; intuition congruence.
Qed.

Lemma texts_In t cells : In t (texts cells) -> In (Str t) cells.
Proof.
  induction cells as [|c cells IH]; simpl; [trivial |].
  destruct c; simpl; intuition congruence.
Qed.

(** A key of a grouping is a cell of the column, equal to itself. *)
Lemma group_keys_present d cells key :
  In key (group_keys d cells) -> In key cells /\ cell_eqb key key = true.
Proof.
  unfold group_keys. destruct d; intros Hin;
    apply in_map_iff in Hin as (x & <- & Hx).
  - split; [| apply Qeq_bool_iff; reflexivity].
    apply numbers_In. induction (numbers cells) as [|y l IH]; [contradiction |].
    simpl in Hx. apply Qinsert_In in Hx as [-> | Hx]; [now left | right; auto].
  - split; [| apply String.eqb_refl].
    apply texts_In. induction (texts cells) as [|y l IH]; [contradiction |].
    simpl in Hx. apply str_insert_In in Hx as [-> | Hx]; [now left | right; auto].
Qed.

Section Shapes.
Context `{Format}.

Lemma compare_entities_shape self_df df filters metrics b :
  _compare_entities self_df df filters metrics = Ok b ->
  type b = "comparison" /\ Forall (well_formed "comparison") (data b).
Proof.
  unfold _compare_entities.
  destruct (_find_state_columns self_df) as [|state_col state_cols];
    [intros Hb; injection Hb as <-; split; [reflexivity | constructor] |].
  destruct metrics as [|metric metrics];
    [intros Hb; injection Hb as <-; split; [reflexivity | constructor] |].
  destruct (String.eqb metric EmptyString);
    [intros Hb; injection Hb as <-; split; [reflexivity | constructor] |].
  match goal with
  | |- context [for_each ?f ?l] => destruct (for_each f l) as [items|] eqn:E
  end; [| discriminate].
  cbn [bind]. intros Hb. injection Hb as <-. split; [reflexivity |].
  cbn [data with_data].
  apply (for_each_Forall _ _ _) with (2 := E).
  intros state_ ys _.
  destruct (index (select df _)) as [|row_idx others];
    [intros Hys; injection Hys as <-; constructor |].
  destruct (has_column df metric); [| discriminate].
  unfold checked_mean. destruct (existsb is_text _); [discriminate |].
  cbn [bind]. intros Hys. injection Hys as <-.
  repeat constructor; [| discriminate].
  cbn. apply series_mean_plain.
Qed.

Lemma find_extremum_shape table kind better idx df metrics b :
  kind = "maximum" \/ kind = "minimum" ->
  (forall l, idx l = option_map fst (arg_best better None l)) ->
  selected_from df (new table) ->
  find_extremum (new table) kind idx df metrics = Ok b ->
  type b = kind
  /\ Forall (well_formed kind) (data b)
  /\ List.length (data b) <= 1.
Proof.
  intros Hkind Hidx Hsel. unfold find_extremum.
  assert (Hempty : forall b', Ok (empty_results kind) = Ok b' ->
            type b' = kind /\ Forall (well_formed kind) (data b')
            /\ List.length (data b') <= 1).
  { intros b' Hb. injection Hb as <-. cbn. auto. }
  destruct metrics as [|metric rest]; [apply Hempty |].
  destruct (Nat.eqb (len df) 0); [apply Hempty |].
  destruct (has_column df metric) eqn:Hcol; [| apply Hempty]. cbn [negb].
  destruct (is_numeric df metric); [| discriminate]. cbn [negb].
  rewrite Hidx.
  destruct (arg_best better None (column df metric)) as [[i v]|] eqn:Hbest;
    [| discriminate].
  cbn [option_map fst].
  apply arg_best_In in Hbest. unfold column in Hbest.
  apply in_map_iff in Hbest as ([i' r] & Heq & Hrow).
  cbn [fst snd] in Heq. injection Heq as -> Hv.
  rewrite (loc_row df metric i r
             (selected_index_sorted _ _ Hsel (new_index_sorted table))
             Hrow Hcol), Hv.
  intros Hb. injection Hb as <-. cbn [type data with_data].
  split; [reflexivity |]. split; [| cbn; lia].
  repeat constructor; [| discriminate].
  destruct Hkind as [-> | ->]; reflexivity.
Qed.

Lemma aggregate_shape kind reduce df metrics b :
  kind = "average" \/ kind = "sum" ->
  (forall cells, plain_value (reduce cells) = true) ->
  aggregate kind reduce df metrics = Ok b ->
  type b = kind /\ Forall (well_formed kind) (data b).
Proof.
  intros Hkind Hplain. unfold aggregate.
  destruct metrics as [|metric rest];
    [intros Hb; injection Hb as <-; split; [reflexivity | constructor] |].
  destruct (Nat.eqb_spec (len df) 0) as [|Hlen];
    [intros Hb; injection Hb as <-; split; [reflexivity | constructor] |].
  intros Hb. injection Hb as <-. split; [reflexivity |].
  cbn [data with_data]. apply Forall_forall. intros item Hin.
  apply in_map_iff in Hin as (m & <- & _).
  split; [| now apply index_not_empty].
  cbn. rewrite Hplain. now destruct Hkind as [-> | ->].
Qed.

Lemma general_query_shape df metrics b :
  _general_query df metrics = Ok b ->
  type b = "general" /\ Forall (well_formed "general") (data b).
Proof.
  unfold _general_query.
  destruct (Nat.eqb_spec (len df) 0) as [|Hlen];
    [intros Hb; injection Hb as <-; split; [reflexivity | constructor] |].
  intros Hb. injection Hb as <-. split; [reflexivity |].
  cbn [data with_data]. apply Forall_forall. intros item Hin.
  apply in_map_iff in Hin as (m & <- & _).
  split; [| now apply index_not_empty].
  cbn. now rewrite series_mean_plain, series_min_plain, series_max_plain.
Qed.

Lemma analyze_trend_shape self_df df metrics b :
  _analyze_trend self_df df metrics = Ok b ->
  type b = "trend" /\ Forall (well_formed "trend") (data b).
Proof.
  unfold _analyze_trend.
  destruct (_find_year_columns self_df) as [|year_col year_cols];
    [intros Hb; injection Hb as <-; split; [reflexivity | constructor] |].
  destruct metrics as [|metric rest];
    [intros Hb; injection Hb as <-; split; [reflexivity | constructor] |].
  destruct (Nat.eqb (len df) 0);
    [intros Hb; injection Hb as <-; split; [reflexivity | constructor] |].
  destruct (negb (has_column df metric));
    [intros Hb; injection Hb as <-; split; [reflexivity | constructor] |].
  destruct (existsb is_text (cells_of df metric)); [discriminate |].
  destruct (String.eqb metric year_col); [discriminate |].
  match goal with
  | |- context [for_each ?f ?l] => destruct (for_each f l) as [items|] eqn:E
  end; [| discriminate].
  cbn [bind]. intros Hb. injection Hb as <-. split; [reflexivity |].
  cbn [data with_data].
  apply (for_each_Forall _ _ _) with (2 := E).
  intros key ys Hkey.
  destruct (int_of_cell key) as [y|]; [| discriminate]. cbn [bind].
  intros Hys. injection Hys as <-.
  repeat constructor; [cbn; apply series_mean_plain |].
  cbn [justifying].
  apply group_keys_present in Hkey as [Hcell Hself].
  unfold cells_of, column in Hcell. rewrite map_map in Hcell.
  apply in_map_iff in Hcell as ([label r] & Hr & Hrow). cbn [snd] in Hr.
  unfold index. rewrite select_rows.
  intros Hnone. apply map_eq_nil in Hnone.
  assert (Hin : In (label, r)
                   (filter (fun lr => cell_eqb (row_cell df year_col (snd lr)) key)
                           (rows df))).
  { apply filter_In. split; [exact Hrow |]. cbn [snd]. now rewrite Hr. }
  rewrite Hnone in Hin. contradiction.
Qed.

(** What [execute_query] returns when the intent is not count: a bundle
    of one of the seven other kinds whose items have that kind's keys,
    values that are numbers or NaN, and a justifying row label; a
    maximum or minimum has at most one item. *)
Lemma execute_query_shape table parsed_query b :
  execute_query (new table) parsed_query = Ok b ->
  intent parsed_query <> "count" ->
  In (type b) cited_kinds
  /\ Forall (well_formed (type b)) (data b)
  /\ (type b = "maximum" \/ type b = "minimum" -> List.length (data b) <= 1).
Proof.
  unfold execute_query.
  destruct (_apply_filters (new table) (filters parsed_query)) as [df|] eqn:Hfilter;
    [| discriminate].
  cbn [bind]. pose proof (apply_filters_selected _ _ _ Hfilter) as Hsel.
  intros Hb Hcount.
  destruct (String.eqb (intent parsed_query) "compare").
  { apply compare_entities_shape in Hb as [Ht Hd]. rewrite Ht.
    split; [cbn; tauto |]. split; [exact Hd | intros [|]; discriminate]. }
  destruct (String.eqb (intent parsed_query) "maximum").
  { apply (find_extremum_shape table "maximum" Qgt_bool) in Hb
      as (Ht & Hd & Hone); auto.
    rewrite Ht. split; [cbn; tauto |]. now split. }
  destruct (String.eqb (intent parsed_query) "minimum").
  { apply (find_extremum_shape table "minimum" Qlt_bool) in Hb
      as (Ht & Hd & Hone); auto.
    rewrite Ht. split; [cbn; tauto |]. now split. }
  destruct (String.eqb (intent parsed_query) "average").
  { apply aggregate_shape in Hb as [Ht Hd];
      [| now left | apply series_mean_plain].
    rewrite Ht. split; [cbn; tauto |]. split; [exact Hd | intros [|]; discriminate]. }
  destruct (String.eqb (intent parsed_query) "sum").
  { apply aggregate_shape in Hb as [Ht Hd];
      [| now right | apply series_sum_plain].
    rewrite Ht. split; [cbn; tauto |]. split; [exact Hd | intros [|]; discriminate]. }
  destruct (String.eqb (intent parsed_query) "trend").
  { apply analyze_trend_shape in Hb as [Ht Hd]. rewrite Ht.
    split; [cbn; tauto |]. split; [exact Hd | intros [|]; discriminate]. }
  destruct (String.eqb_spec (intent parsed_query) "count"); [contradiction |].
  apply general_query_shape in Hb as [Ht Hd]. rewrite Ht.
  split; [cbn; tauto |]. split; [exact Hd | intros [|]; discriminate].
Qed.

End Shapes.

End ShapeFacts.

(* ================================================================= *)
(** ** Numbers and their citations *)

Module CitationFacts.
Import PyStr Pandas QueryParser DataAnalyzer AnswerGenerator Examples Spec.
Import RenderFacts ShapeFacts.
Local Open Scope string_scope.
Local Open Scope list_scope.

Lemma best_value_In better l : forall v0,
  In (best_value better v0 l) (v0 :: l).
Proof.
  induction l as [|x l IH]; intros v0; simpl; [now left |].
  destruct (IH (if better x v0 then x else v0)) as [Heq | Hin].
  - rewrite <- Heq. destruct (better x v0); [right; now left | now left].
  - right. now right.
Qed.

Lemma index_of_lt v values :
  In v values -> index_of v values < List.length values.
Proof.
  induction values as [|x values IH]; intros Hin; [contradiction |].
  simpl. destruct (cell_eqb x v || negb (notna x) && negb (notna v)) eqn:E;
    [lia |].
  destruct Hin as [-> | Hin]; [| apply IH in Hin; lia].
  apply orb_false_iff in E as [E1 E2]. destruct v; simpl in *.
  - assert (Qeq_bool q q = true) by (apply Qeq_bool_iff; reflexivity). congruence.
  - rewrite String.eqb_refl in E1. discriminate.
  - discriminate.
Qed.

Section Citing.
Context `{Format}.

Lemma comparison_answer_citations question data df :
  forallb (shaped "comparison") data = true ->
  exists text,
    _generate_comparison_answer question data df
    = Ok {| answer := text;
            citations :=
              flat_map (fun item => cite_rows df item (justifying item)) data |}.
Proof.
  intros Hall. unfold _generate_comparison_answer.
  assert (Hitem : forall item, In item data ->
            exists e m v i n, item = Comparison e m v i n /\ plain_value v = true).
  { intros item Hin. exact (shaped_comparison _ (shaped_all _ _ _ Hall Hin)). }
  match goal with
  | |- context [render_items ?f data] =>
      destruct (render_items_citations f
                  (fun item => cite_rows df item (justifying item)) data)
        as [parts Hparts]
  end.
  - intros item Hin. destruct (Hitem _ Hin) as (e & m & v & i & n & -> & Hv).
    destruct (format_value_plain _ Hv) as [text Htext].
    cbn. rewrite Htext. cbn. eauto.
  - rewrite Hparts. cbn [bind fst snd].
    destruct (2 <=? List.length data)%nat eqn:Hlen; [| cbn; eauto].
    apply Nat.leb_le in Hlen.
    rewrite (for_each_singletons _
               (fun item => match get_value item with
                            | Ok v => v
                            | Raise _ => NaN
                            end)).
    2:{ intros item Hin. destruct (Hitem _ Hin) as (e & m & v & i & n & -> & _).
        reflexivity. }
    cbn [bind].
    destruct data as [|d0 data']; [simpl in Hlen; lia |].
    set (data := d0 :: data') in *.
    set (value_of := fun item => match get_value item with
                                 | Ok v => v
                                 | Raise _ => NaN
                                 end).
    change (map value_of data) with (value_of d0 :: map value_of data').
    assert (Hpick : forall better,
              exists item,
                nth_item data
                  (index_of (best_value better (value_of d0) (map value_of data'))
                            (value_of d0 :: map value_of data')) = Ok item
                /\ In item data).
    { intros better. apply nth_item_in.
      replace (List.length data)
        with (List.length (value_of d0 :: map value_of data'))
        by (subst data; simpl; now rewrite length_map).
      apply index_of_lt, best_value_In. }
    destruct (Hpick value_gt) as (max_item & -> & Hmax).
    destruct (Hpick value_lt) as (min_item & -> & Hmin).
    destruct (Hitem _ Hmax) as (e1 & m1 & v1 & i1 & n1 & -> & Hv1).
    destruct (Hitem _ Hmin) as (e2 & m2 & v2 & i2 & n2 & -> & Hv2).
    destruct (format_value_plain _ Hv1) as [t1 Ht1].
    destruct (format_value_plain _ Hv2) as [t2 Ht2].
    cbn. rewrite Ht1. cbn. rewrite Ht2. cbn. eauto.
Qed.

Lemma extremum_answer_citations adj noun kind item rest df :
  kind = "maximum" \/ kind = "minimum" ->
  shaped kind item = true ->
  exists text,
    extremum_answer adj noun (item :: rest) df
    = Ok {| answer := text; citations := cite_rows df item (justifying item) |}.
Proof.
  intros Hkind Hitem.
  destruct (shaped_extremum _ _ Hkind Hitem) as (m & v & i & info & -> & Hv).
  destruct (format_value_plain _ Hv) as [text Htext].
  unfold extremum_answer. cbn. rewrite Htext. cbn. eauto.
Qed.



End Citing.


End CitationFacts.

(* ================================================================= *)
(** ** More on the parser: entities, metrics, years, letter case *)

Module ParserMore.
Import PyStr Pandas QueryParser DataAnalyzer Examples Spec.
Import ParserFacts YearFacts.
Local Open Scope string_scope.

Lemma occurs_trans p q s : occurs p q -> occurs q s -> occurs p s.
Proof.
  intros (a & b & ->) (c & d & ->). exists (c ++ a), (b ++ d).
  now rewrite !append_assoc.
Qed.

Section Entities.
Context `{Format}.

(** X1.  Months and seasons are found by substring.  The months of a parsed
    question are the names of the fixed list that occur in the lowered
    question; hence a full month name never comes without its
    abbreviation, and a question about 'rainfall' always gets the
    season 'fall'. *)
Theorem names_inside_phrases (question : string) (df : DataFrame) :
  (forall m, In m (months (entities (parse question df))) <->
             In m month_names /\ occurs m (lower question))
  /\ (forall s, In s (seasons (entities (parse question df))) <->
                In s season_names /\ occurs s (lower question))
  /\ (forall full abbr,
        In (full, abbr) month_pairs ->
        In full (months (entities (parse question df))) ->
        In abbr (months (entities (parse question df))))
  /\ (occurs "rainfall" (lower question) ->
      In "fall" (seasons (entities (parse question df)))).
Proof.
  assert (Hm : forall m, In m (months (entities (parse question df))) <->
                         In m month_names /\ occurs m (lower question)).
  { intros m. cbn [parse entities _extract_entities months].
    now rewrite filter_In, contains_occurs. }
  assert (Hs : forall s, In s (seasons (entities (parse question df))) <->
                         In s season_names /\ occurs s (lower question)).
  { intros s. cbn [parse entities _extract_entities seasons].
    now rewrite filter_In, contains_occurs. }
  split; [exact Hm |]. split; [exact Hs |]. split.
  - intros full abbr Hpair Hfull. apply Hm in Hfull as [_ Hfull]. apply Hm.
    assert (Hin : In abbr month_names /\ occurs abbr full).
    { unfold month_pairs in Hpair.
      repeat (destruct Hpair as [Hpair | Hpair];
              [injection Hpair as <- <-;
               split; [cbn; tauto | apply contains_occurs; reflexivity] |]).
      contradiction. }
    split; [apply Hin | apply occurs_trans with full; [apply Hin | exact Hfull]].
  - intros Hrain. apply Hs. split; [cbn; tauto |].
    apply occurs_trans with "rainfall"; [| exact Hrain].
    apply contains_occurs. reflexivity.
Qed.

Lemma unique_In seen l c :
  In c (unique seen l) -> In c l /\ notna c = true.
Proof.
  revert seen; induction l as [|x l IH]; intros seen Hin; simpl in Hin;
    [contradiction |].
  destruct (notna x && negb (existsb (cell_eqb x) seen)) eqn:E.
  - destruct Hin as [<- | Hin].
    + apply andb_true_iff in E as [E _]. split; [now left | exact E].
    + destruct (IH _ Hin). split; [now right | assumption].
  - destruct (IH _ Hin). split; [now right | assumption].
Qed.

Lemma unique_text seen l t :
  In (Str t) l -> existsb (cell_eqb (Str t)) seen = false ->
  In (Str t) (unique seen l).
Proof.
  revert seen; induction l as [|x l IH]; intros seen Hin Hseen;
    [contradiction |].
  simpl. destruct Hin as [-> | Hin].
  - cbn [notna andb]. rewrite Hseen. now left.
  - destruct (notna x && negb (existsb (cell_eqb x) seen)) eqn:E;
      [| now apply IH].
    destruct (cell_eqb (Str t) x) eqn:Ex.
    + destruct x as [q | u |]; try discriminate.
      apply String.eqb_eq in Ex. subst u. now left.
    + right. apply IH; [exact Hin |]. cbn [existsb]. now rewrite Ex.
Qed.

(** X2.  The regions of a parsed question.  Without a region column there
    is none.  Otherwise each one is a non-null value of the first
    region column whose lowered text occurs in the lowered question,
    and every text of that column that so occurs is among them. *)
Theorem extracted_states (question : string) (df : DataFrame) :
  (_find_columns_by_keywords df state_keywords = [] ->
   states (entities (parse question df)) = [])
  /\ (forall state_col others st,
        _find_columns_by_keywords df state_keywords = state_col :: others ->
        In st (states (entities (parse question df))) ->
        In st (cells_of df state_col)
        /\ notna st = true
        /\ occurs (lower (str_cell st)) (lower question))
  /\ (forall state_col others t,
        _find_columns_by_keywords df state_keywords = state_col :: others ->
        In (Str t) (cells_of df state_col) ->
        occurs (lower t) (lower question) ->
        In (Str t) (states (entities (parse question df)))).
Proof.
  cbn [parse entities _extract_entities states]. split; [| split].
  - now intros ->.
  - intros state_col others st ->. rewrite filter_In, contains_occurs.
    intros [Hin Hocc]. apply unique_In in Hin as [Hin Hna]. auto.
  - intros state_col others t -> Hin Hocc. apply filter_In. split.
    + now apply unique_text.
    + apply contains_occurs. exact Hocc.
Qed.

Lemma numeric_cols_In df m :
  In m (numeric_cols df) <-> In (m, Numeric) (columns df).
Proof.
  unfold numeric_cols. rewrite in_map_iff. split.
  - intros ([m' d] & <- & Hin). apply filter_In in Hin as [Hin Hd].
    cbn in *. now destruct d.
  - intros Hin. exists (m, Numeric). split; [reflexivity |].
    apply filter_In. now split.
Qed.

Lemma position_of_first names : forall col k,
  NoDup names -> nth_error names k = Some col -> position col names = Some k.
Proof.
  induction names as [|n names IH]; intros col k Hnd Hk;
    [destruct k; discriminate |].
  inversion Hnd as [|? ? Hnot Hnd']; subst. simpl.
  destruct k as [|k]; simpl in Hk.
  - injection Hk as ->. now rewrite String.eqb_refl.
  - destruct (String.eqb_spec col n) as [-> | _].
    + exfalso. apply Hnot. now apply nth_error_In with k.
    + now rewrite (IH col k Hnd' Hk).
Qed.

Lemma numeric_column_dtype df m :
  NoDup (column_names df) -> In (m, Numeric) (columns df) ->
  has_column df m = true /\ is_numeric df m = true.
Proof.
  intros Hnd Hin. split.
  - unfold has_column. apply existsb_exists. exists m.
    split; [| apply String.eqb_refl].
    unfold column_names. change m with (fst (m, Numeric)). now apply in_map.
  - apply In_nth_error in Hin as [k Hk].
    unfold is_numeric, dtype_of.
    rewrite (position_of_first (column_names df) m k Hnd).
    + now rewrite Hk.
    + unfold column_names. now rewrite nth_error_map, Hk.
Qed.

Lemma metrics_are_numeric question df m :
  In m (metrics (parse question df)) -> In (m, Numeric) (columns df).
Proof.
  cbn [parse metrics]. unfold _extract_metrics.
  match goal with
  | |- In m (match ?picked with [] => _ | _ => _ end) -> _ =>
      destruct picked as [|p ps] eqn:E
  end.
  - apply numeric_cols_In.
  - rewrite <- E. intros Hin. apply filter_In in Hin as [Hin _].
    now apply numeric_cols_In.
Qed.

(** X3.  The candidate metrics of a parsed question are numeric columns of
    the table; there is none only when the table has no numeric column
    (all of them are candidates when the question names none).  When
    the column names are distinct each candidate is found as a numeric
    column by the analyzer. *)
Theorem extracted_metrics (question : string) (df : DataFrame) :
  (forall m, In m (metrics (parse question df)) ->
             In (m, Numeric) (columns df))
  /\ (metrics (parse question df) = [] <-> numeric_cols df = [])
  /\ (NoDup (column_names df) ->
      forall m, In m (metrics (parse question df)) ->
                has_column (new df) m = true /\ is_numeric (new df) m = true).
Proof.
  split; [apply metrics_are_numeric |]. split.
  - cbn [parse metrics]. unfold _extract_metrics.
    match goal with
    | |- (match ?picked with [] => _ | _ => _ end) = [] <-> _ =>
        destruct picked as [|p ps] eqn:E
    end; [reflexivity |].
    split; [discriminate |]. intros Hnone. rewrite Hnone in E. discriminate.
  - intros Hnd m Hin.
    exact (numeric_column_dtype (new df) m Hnd (metrics_are_numeric _ _ _ Hin)).
Qed.

Lemma lower_char_idempotent c : lower_char (lower_char c) = lower_char c.
Proof. destruct c as [[] [] [] [] [] [] [] []]; reflexivity. Qed.

Lemma lower_idempotent s : lower (lower s) = lower s.
Proof.
  induction s as [|c s IH]; simpl; [reflexivity |].
  now rewrite lower_char_idempotent, IH.
Qed.

(** X5.  Letter case does not matter to the parser: two questions that are
    the same once lowered get the same intent, entities, years,
    metrics and filters, and so does a question and its lowered
    form. *)
Theorem parse_ignores_case (question other : string) (df : DataFrame) :
  lower question = lower other ->
  intent (parse question df) = intent (parse other df)
  /\ entities (parse question df) = entities (parse other df)
  /\ years (parse question df) = years (parse other df)
  /\ metrics (parse question df) = metrics (parse other df)
  /\ filters (parse question df) = filters (parse other df)
  /\ lower (lower question) = lower question.
Proof.
  intros Hsame. cbn [parse intent entities years metrics filters].
  rewrite Hsame. repeat split. apply lower_idempotent.
Qed.

End Entities.

Lemma names_inside_phrases_witness :
  In "jan" (months (entities (parse "Rainfall in January" rainfall)))
  /\ In "fall" (seasons (entities (parse "Rainfall in January" rainfall))).
Proof.
  destruct (names_inside_phrases "Rainfall in January" rainfall)
    as (_ & _ & Hpair & Hfall).
  split.
  - apply (Hpair "january" "jan"); [now left | vm_compute; tauto].
  - apply Hfall. apply contains_occurs. reflexivity.
Defined.

Lemma extracted_states_witness :
  In (Str "Karnataka")
     (states (entities (parse "Rain in KARNATAKA" rainfall))).
Proof.
  apply (proj2 (proj2 (extracted_states "Rain in KARNATAKA" rainfall))
           "state" [] "Karnataka" eq_refl).
  - right. now left.
  - apply contains_occurs. reflexivity.
Defined.

Lemma extracted_metrics_witness :
  has_column (new rainfall) "annual_rainfall_mm" = true
  /\ is_numeric (new rainfall) "annual_rainfall_mm" = true.
Proof.
  apply (proj2 (proj2 (extracted_metrics "highest rainfall" rainfall))).
  - repeat constructor; cbn; intuition discriminate.
  - now left.
Defined.

Lemma parse_ignores_case_witness :
  intent (parse "HIGHEST Rainfall" rainfall)
  = intent (parse "highest rainfall" rainfall).
Proof.
  apply (parse_ignores_case "HIGHEST Rainfall" "highest rainfall" rainfall).
  reflexivity.
Defined.

(** X4.  Every year returned lies between 1900 and 2199, whatever the
    question; the years ascend strictly, so there are at most 300. *)
Theorem extracted_years_bounded (question : string) :
  (forall y, In y (_extract_years question) -> (1900 <= y <= 2199)%Z)
  /\ List.length (_extract_years question) <= 300.
Proof.
  assert (Hb : forall y, In y (_extract_years question) ->
                         (1900 <= y <= 2199)%Z).
  { intros y Hy. unfold _extract_years in Hy.
    apply sorted_set_In, in_app_or in Hy as [Hy | Hy].
    - apply findall_year_tokens in Hy. now apply year_token_range in Hy.
    - apply in_flat_map in Hy as ([a b] & Hin & Hy).
      apply py_range_In in Hy.
      apply findall_range_sound in Hin as (before & rest & _ & Hstart).
      destruct Hstart as (ta & sp1 & sep & sp2 & tb & after & _ & Hta & Htb & _).
      destruct (year_prefix_inv _ _ _ Hta) as (? & ? & ? & ? & _ & _ & _ & _ & _ & _ & Ha).
      destruct (year_prefix_inv _ _ _ Htb) as (? & ? & ? & ? & _ & _ & _ & _ & _ & _ & Hb).
      lia. }
  split; [exact Hb |].
  pose proof (sorted_set_sorted
                (findall_year None 0 question
                 ++ flat_map (fun '(start_year, end_year) =>
                                py_range start_year end_year)
                             (findall_range None 0 question))%list) as Hs.
  change (sorted_set _) with (_extract_years question) in Hs.
  assert (Hlen : forall l lo,
            StronglySorted Z.lt l ->
            (forall y, In y l -> (lo <= y <= 2199)%Z) ->
            (lo <= 2200)%Z ->
            (Z.of_nat (List.length l) <= 2200 - lo)%Z).
  { induction l as [|x l IH]; intros lo Hsorted Hin Hlo;
      [cbn [List.length]; lia |].
    apply StronglySorted_inv in Hsorted as [Hsorted Hx].
    rewrite Forall_forall in Hx.
    assert (lo <= x <= 2199)%Z by (apply Hin; now left).
    specialize (IH (x + 1)%Z Hsorted).
    cbn [List.length]. rewrite Nat2Z.inj_succ.
    assert (Z.of_nat (List.length l) <= 2200 - (x + 1))%Z; [| lia].
    apply IH; [| lia]. intros y Hy.
    specialize (Hx y Hy). specialize (Hin y (or_intror Hy)). lia. }
  specialize (Hlen _ 1900%Z Hs Hb). lia.
Qed.

End ParserMore.

(* ================================================================= *)
(** ** More on the analyzer: filters, labels, items *)

Module AnalyzerMore.
Import PyStr Pandas QueryParser DataAnalyzer AnswerGenerator Examples Spec.
Import FrameFacts SnapshotFacts ExtremumFacts ShapeFacts.
Local Open Scope string_scope.
Local Open Scope list_scope.

Lemma select_ext df p q :
  (forall r, p r = q r) -> select df p = select df q.
Proof.
  intros Hpq. unfold select. f_equal. apply filter_ext. intros lr. apply Hpq.
Qed.

Lemma select_select df p q :
  select (select df p) q = select df (fun r => p r && q r).
Proof. unfold select. cbn [rows columns]. f_equal. apply filter_filter. Qed.

Lemma select_all df : select df (fun _ => true) = df.
Proof.
  destruct df as [cols rs]. unfold select. cbn [rows columns]. f_equal.
  induction rs as [|r rs IH]; simpl; [reflexivity | now rewrite IH].
Qed.

Lemma select_true df p : (forall r, p r = true) -> select df p = df.
Proof.
  intros Hp. rewrite <- (select_all df) at 2. now apply select_ext.
Qed.

Lemma apply_filters_select (snapshot : DataFrame) (filters : Filters) :
  _apply_filters snapshot filters =
  if month_filter_fails snapshot filters then Raise AttributeError
  else Ok (select snapshot (passes_filters snapshot filters)).
Proof.
  unfold _apply_filters, month_filter_fails, passes_filters,
    passes_region_year.
  destruct (requested (f_states filters)) as [|s ss];
    destruct (_find_state_columns snapshot) as [|state_col state_cols];
    destruct (requested (f_years filters)) as [|y ys];
    destruct (_find_year_columns snapshot) as [|year_col year_cols];
    destruct (requested (f_months filters)) as [|m ms];
    destruct (_find_month_columns snapshot) as [|month_col month_cols];
    cbn [keeps];
    try (match goal with
         | |- (if str_accessor ?d _ then _ else _)
              = (if negb (str_accessor ?e _) then _ else _) =>
             replace (str_accessor d month_col)
               with (str_accessor e month_col)
               by (f_equal; rewrite ?select_select;
                   first [ apply select_true; reflexivity
                         | apply select_ext; intros r; cbn [andb];
                           rewrite ?andb_true_r, ?andb_assoc; reflexivity ]);
             destruct (str_accessor e month_col); cbn [negb];
             [| reflexivity]
         end);
    f_equal; rewrite ?select_select;
    first [ symmetry; apply select_true; reflexivity
          | apply select_ext; intros r; cbn [andb];
            rewrite ?andb_true_r, ?andb_assoc; reflexivity ].
Qed.

(** X6.  The three filters are one selection: the rows that pass all of
    them, labels and order kept.  The call fails only on a month
    request against a first month column that has no [.str]: a numeric
    column, or a column of dtype object that holds numbers and no text
    on the rows that pass the region and year filters. *)
Theorem apply_filters_conjunction (snapshot : DataFrame) (filters : Filters) :
  _apply_filters snapshot filters =
  if month_filter_fails snapshot filters then Raise AttributeError
  else Ok (select snapshot (passes_filters snapshot filters)).
Proof. apply apply_filters_select. Qed.

Lemma apply_filters_reads snapshot (f g : Filters) :
  f_states f = f_states g -> f_years f = f_years g ->
  f_months f = f_months g ->
  _apply_filters snapshot f = _apply_filters snapshot g.
Proof. unfold _apply_filters. now intros -> -> ->. Qed.

Section Reading.
Context `{Format}.

(** X7.  The analyzer reads the intent, the metrics and the region, year
    and month filters of a parsed query, and nothing else: the seasons
    the parser finds never select rows. *)
Theorem execute_query_reads (snapshot : DataFrame) (p q : ParsedQuery) :
  intent p = intent q ->
  metrics p = metrics q ->
  f_states (filters p) = f_states (filters q) ->
  f_years (filters p) = f_years (filters q) ->
  f_months (filters p) = f_months (filters q) ->
  execute_query snapshot p = execute_query snapshot q.
Proof.
  intros Hi Hm Hs Hy Hmo. unfold execute_query.
  rewrite (apply_filters_reads snapshot _ _ Hs Hy Hmo), Hi, Hm.
  destruct (_apply_filters snapshot (filters q)) as [df|]; [| reflexivity].
  cbn [bind]. unfold _compare_entities. now rewrite Hs.
Qed.

End Reading.

Lemma execute_query_reads_witness :
  execute_query (new rainfall) (parse "rainfall in the monsoon" rainfall)
  = execute_query (new rainfall) (parse "rainfall in winter" rainfall).
Proof.
  apply (execute_query_reads (new rainfall)
           (parse "rainfall in the monsoon" rainfall)
           (parse "rainfall in winter" rainfall)); reflexivity.
Defined.

(** *** Row labels *)

Lemma selected_trans a b c :
  selected_from a b -> selected_from b c -> selected_from a c.
Proof.
  intros [Hc1 [k1 Hr1]] [Hc2 [k2 Hr2]]. split; [congruence |].
  exists (fun lr => k2 lr && k1 lr). rewrite Hr1, Hr2. apply filter_filter.
Qed.

Lemma selected_index_In df snapshot label :
  selected_from df snapshot -> In label (index df) -> In label (index snapshot).
Proof.
  intros Hsel Hin. unfold index in *.
  apply in_map_iff in Hin as (lr & <- & Hin).
  apply in_map. now apply selected_row with df.
Qed.

Lemma new_index_lt table label :
  In label (index (new table)) -> label < len table.
Proof. rewrite new_index. intros Hin. apply in_seq in Hin. lia. Qed.

Lemma len_index df : len df = List.length (index df).
Proof. unfold len, index. now rewrite length_map. Qed.

Lemma for_each_flat_map {A B : Type} (f : A -> res (list B))
  (g : A -> list B) l :
  (forall a ys, In a l -> f a = Ok ys -> ys = g a) ->
  forall zs, for_each f l = Ok zs -> zs = flat_map g l.
Proof.
  induction l as [|a l IH]; intros Hf zs Hzs; simpl in Hzs.
  - now injection Hzs as <-.
  - destruct (f a) as [ys|] eqn:Ea; [| discriminate]. cbn [bind] in Hzs.
    destruct (for_each f l) as [ws|] eqn:El; [| discriminate]. cbn [bind] in Hzs.
    injection Hzs as <-. simpl. f_equal.
    + apply Hf; [now left | exact Ea].
    + apply IH; [| reflexivity]. intros b ys' Hb. apply Hf. now right.
Qed.

Lemma filter_labels {A : Type} (p : nat * A -> bool) (q : nat -> bool) l :
  (forall x, In x l -> p x = q (fst x)) ->
  map fst (filter p l) = filter q (map fst l).
Proof.
  induction l as [|x l IH]; intros Hpq; simpl; [reflexivity |].
  rewrite <- (Hpq x) by now left.
  destruct (p x); simpl; rewrite IH; auto; intros y Hy; apply Hpq; now right.
Qed.

(** The rows of a frame selected from the snapshot that hold [key]
    under a column, by their labels. *)
Lemma index_select_where table df col key :
  selected_from df (new table) ->
  index (select df (fun r => cell_eqb (row_cell df col r) key))
  = labels_where (new table) col key df.
Proof.
  intros Hsel. unfold index, labels_where. rewrite select_rows.
  apply filter_labels. intros [label r] Hin. cbn [fst snd].
  rewrite (cell_at_row (new table) col label r (new_index_sorted table)
             (selected_row _ _ _ Hsel Hin)).
  now rewrite (row_cell_selected df (new table) col r (proj1 Hsel)).
Qed.

Section Items.
Context `{Format}.

(** X8.  A comparison has one item for each requested region that has rows
    among the filtered ones, in the order requested; a region without
    rows is left out silently.  The item cites the first row of the
    region, counts its rows, and its value is the mean of the metric
    over these rows. *)
Theorem compare_entities_items (table : DataFrame) (parsed_query : ParsedQuery)
  (df : DataFrame) (state_col : string) (others : list string)
  (metric : string) (rest : list string) (b : ResultBundle) :
  intent parsed_query = "compare" ->
  _apply_filters (new table) (filters parsed_query) = Ok df ->
  _find_state_columns (new table) = state_col :: others ->
  metrics parsed_query = metric :: rest ->
  metric <> EmptyString ->
  execute_query (new table) parsed_query = Ok b ->
  b = with_data "comparison"
        (flat_map
           (fun entity =>
              match labels_where (new table) state_col entity df with
              | [] => []
              | row_idx :: _ =>
                  [Comparison entity metric
                     (series_mean
                        (cells_at (new table) metric
                           (labels_where (new table) state_col entity df)))
                     row_idx
                     (List.length
                        (labels_where (new table) state_col entity df))]
              end)
           (requested (f_states (filters parsed_query)))).
Proof.
  intros Hintent Hfilter Hcols Hmetrics Hname. unfold execute_query.
  rewrite Hfilter, Hintent, Hmetrics. cbn [bind String.eqb Ascii.eqb Bool.eqb].
  pose proof (apply_filters_selected _ _ _ Hfilter) as Hsel.
  unfold _compare_entities. rewrite Hcols.
  destruct (String.eqb_spec metric EmptyString) as [| _]; [contradiction |].
  match goal with
  | |- context [for_each ?f ?l] => destruct (for_each f l) as [items|] eqn:E
  end; [| discriminate].
  cbn [bind]. intros Hb. injection Hb as <-. f_equal.
  apply for_each_flat_map with (2 := E). intros entity ys _.
  rewrite (index_select_where table df state_col entity Hsel).
  set (state_data := select df _).
  assert (Hdata : selected_from state_data (new table)).
  { subst state_data. now apply selected_select. }
  assert (Hidx : index state_data = labels_where (new table) state_col entity df).
  { subst state_data. now apply index_select_where. }
  destruct (labels_where (new table) state_col entity df) as [|row_idx more]
    eqn:Hlabels; [now intros Hys; injection Hys as <- |].
  destruct (has_column df metric); [| discriminate].
  unfold checked_mean. destruct (existsb is_text _); [discriminate |].
  cbn [bind]. intros Hys. injection Hys as <-.
  rewrite (cells_of_selected state_data (new table) metric Hdata
             (new_index_sorted table)), len_index, Hidx.
  reflexivity.
Qed.

(** X9.  Each item of a trend stands for one value of the year column among
    the filtered rows: it holds the integer of that value, the labels
    of the rows with that value, of which there is at least one, and
    the mean of the metric over these rows. *)
Theorem analyze_trend_items (table : DataFrame) (parsed_query : ParsedQuery)
  (df : DataFrame) (year_col : string) (others : list string)
  (b : ResultBundle) :
  intent parsed_query = "trend" ->
  _apply_filters (new table) (filters parsed_query) = Ok df ->
  _find_year_columns (new table) = year_col :: others ->
  execute_query (new table) parsed_query = Ok b ->
  forall item, In item (data b) ->
  exists key y metric rest,
    metrics parsed_query = metric :: rest
    /\ In key (cells_at (new table) year_col (index df))
    /\ notna key = true
    /\ int_of_cell key = Ok y
    /\ labels_where (new table) year_col key df <> []
    /\ item = Trend y metric
                (series_mean
                   (cells_at (new table) metric
                      (labels_where (new table) year_col key df)))
                (labels_where (new table) year_col key df).
Proof.
  intros Hintent Hfilter Hcols. unfold execute_query.
  rewrite Hfilter, Hintent. cbn [bind String.eqb Ascii.eqb Bool.eqb].
  pose proof (apply_filters_selected _ _ _ Hfilter) as Hsel.
  unfold _analyze_trend. rewrite Hcols.
  destruct (metrics parsed_query) as [|metric rest];
    [intros Hb; injection Hb as <-; contradiction |].
  destruct (Nat.eqb (len df) 0);
    [intros Hb; injection Hb as <-; contradiction |].
  destruct (negb (has_column df metric));
    [intros Hb; injection Hb as <-; contradiction |].
  destruct (existsb is_text (cells_of df metric)); [discriminate |].
  destruct (String.eqb metric year_col); [discriminate |].
  match goal with
  | |- context [for_each ?f ?l] => destruct (for_each f l) as [items|] eqn:E
  end; [| discriminate].
  cbn [bind]. intros Hb. injection Hb as <-. cbn [data with_data].
  apply Forall_forall.
  apply (for_each_Forall _ _ _) with (2 := E).
  intros key ys Hkey.
  destruct (int_of_cell key) as [y|] eqn:Hy; [| discriminate]. cbn [bind].
  intros Hys. injection Hys as <-. constructor; [| constructor].
  apply group_keys_present in Hkey as [Hcell Hself].
  set (group := select df _).
  assert (Hgroup : selected_from group (new table)).
  { subst group. now apply selected_select. }
  assert (Hidx : index group = labels_where (new table) year_col key df).
  { subst group. now apply index_select_where. }
  rewrite (cells_of_selected df (new table) year_col Hsel
             (new_index_sorted table)) in Hcell.
  exists key, y, metric, rest. split; [reflexivity |]. split; [exact Hcell |].
  split; [now destruct key |]. split; [exact Hy |]. split.
  - unfold labels_where. unfold cells_at in Hcell.
    apply in_map_iff in Hcell as (label & Hlabel & Hin).
    intros Hnone.
    assert (Hl : In label (filter (fun l => cell_eqb (cell_at (new table) year_col l) key)
                                  (index df))).
    { apply filter_In. split; [exact Hin |]. now rewrite Hlabel. }
    rewrite Hnone in Hl. contradiction.
  - rewrite (cells_of_selected group (new table) metric Hgroup
               (new_index_sorted table)), Hidx.
    reflexivity.
Qed.

(** X10.  A trend of the year column itself never comes out: where the
    filters leave rows and the first metric is the first year column,
    the call raises. *)
Theorem trend_of_year_column_raises (table : DataFrame)
  (parsed_query : ParsedQuery) (df : DataFrame) (year_col : string)
  (others rest : list string) :
  intent parsed_query = "trend" ->
  _apply_filters (new table) (filters parsed_query) = Ok df ->
  len df <> 0 ->
  _find_year_columns (new table) = year_col :: others ->
  metrics parsed_query = year_col :: rest ->
  execute_query (new table) parsed_query = Raise TypeError
  \/ execute_query (new table) parsed_query = Raise ValueError.
Proof.
  intros Hintent Hfilter Hlen Hcols Hmetrics. unfold execute_query.
  rewrite Hfilter, Hintent, Hmetrics. cbn [bind String.eqb Ascii.eqb Bool.eqb].
  unfold _analyze_trend. rewrite Hcols.
  destruct (Nat.eqb_spec (len df) 0) as [| _]; [contradiction |].
  assert (Hcol : has_column df year_col = true).
  { rewrite (has_column_selected df (new table) year_col
               (proj1 (apply_filters_selected _ _ _ Hfilter))).
    unfold has_column. apply existsb_exists. exists year_col.
    split; [| apply String.eqb_refl].
    assert (Hin : In year_col (_find_year_columns (new table)))
      by (rewrite Hcols; now left).
    unfold _find_year_columns in Hin. now apply filter_In in Hin. }
  rewrite Hcol. cbn [negb].
  destruct (existsb is_text (cells_of df year_col)); [now left |].
  rewrite String.eqb_refl. now right.
Qed.

End Items.

Lemma compare_entities_items_witness :
  with_data "comparison"
    [Comparison (Str "Maharashtra") "annual_rainfall_mm" (Num (2300 # 2)) 0 2;
     Comparison (Str "Karnataka") "annual_rainfall_mm" (Num (900 # 1)) 1 1]
  = with_data "comparison"
      (flat_map
         (fun entity =>
            match labels_where (new rainfall) "state" entity (new rainfall) with
            | [] => []
            | row_idx :: _ =>
                [Comparison entity "annual_rainfall_mm"
                   (series_mean
                      (cells_at (new rainfall) "annual_rainfall_mm"
                         (labels_where (new rainfall) "state" entity
                            (new rainfall))))
                   row_idx
                   (List.length
                      (labels_where (new rainfall) "state" entity
                         (new rainfall)))]
            end)
         [Str "Maharashtra"; Str "Karnataka"]).
Proof.
  apply (compare_entities_items rainfall
           (parse "Compare Maharashtra and Karnataka rainfall" rainfall)
           (new rainfall) "state" [] "annual_rainfall_mm" []);
    [reflexivity | reflexivity | reflexivity | reflexivity | discriminate
    | reflexivity].
Defined.

Lemma analyze_trend_items_witness :
  exists key y metric rest,
    metrics rain_trend = metric :: rest
    /\ In key (cells_at (new yearly) "year" (index (new yearly)))
    /\ notna key = true
    /\ int_of_cell key = Ok y
    /\ labels_where (new yearly) "year" key (new yearly) <> []
    /\ Trend 2015 "rain_mm" (Num (100 # 4)) [0; 1; 2; 3]
       = Trend y metric
           (series_mean
              (cells_at (new yearly) metric
                 (labels_where (new yearly) "year" key (new yearly))))
           (labels_where (new yearly) "year" key (new yearly)).
Proof.
  apply (analyze_trend_items yearly rain_trend (new yearly) "year" []
           (with_data "trend"
              [Trend 2015 "rain_mm" (Num (100 # 4)) [0; 1; 2; 3];
               Trend 2016 "rain_mm" (Num (50 # 1)) [4]])
           eq_refl eq_refl eq_refl eq_refl).
  now left.
Defined.

Lemma trend_of_year_column_raises_witness :
  execute_query (new yearly) (parse "what is the trend" yearly)
  = Raise TypeError
  \/ execute_query (new yearly) (parse "what is the trend" yearly)
     = Raise ValueError.
Proof.
  apply (trend_of_year_column_raises yearly (parse "what is the trend" yearly)
           (new yearly) "year" [] ["rain_mm"]);
    [reflexivity | reflexivity | discriminate | reflexivity | reflexivity].
Defined.

(** *** The labels of the items *)

Lemma frame_labels_sound table d :
  selected_from d (new table) ->
  StronglySorted lt (index d)
  /\ (forall label, In label (index d) -> label < len table).
Proof.
  intros Hsel. split.
  - apply (selected_index_sorted d (new table) Hsel), new_index_sorted.
  - intros label Hin. apply new_index_lt.
    now apply selected_index_In with d.
Qed.

Lemma single_label_sound table d label :
  selected_from d (new table) -> In label (index d) ->
  StronglySorted lt [label]
  /\ (forall l, In l [label] -> l < len table).
Proof.
  intros Hsel Hin. split; [repeat constructor |].
  intros l [<- | []]. now apply (frame_labels_sound table d Hsel).
Qed.

Lemma column_label df col label c :
  In (label, c) (column df col) -> In label (index df).
Proof.
  unfold column, index. intros Hin.
  apply in_map_iff in Hin as (lr & Heq & Hin). injection Heq as <- _.
  now apply in_map.
Qed.

Section Labels.
Context `{Format}.

Lemma find_extremum_labels table kind better df metrics b :
  selected_from df (new table) ->
  find_extremum (new table) kind
    (fun l => option_map fst (arg_best better None l)) df metrics = Ok b ->
  Forall (labels_sound table) (data b).
Proof.
  intros Hsel. unfold find_extremum.
  destruct metrics as [|metric rest];
    [intros Hb; injection Hb as <-; constructor |].
  destruct (Nat.eqb (len df) 0);
    [intros Hb; injection Hb as <-; constructor |].
  destruct (negb (has_column df metric));
    [intros Hb; injection Hb as <-; constructor |].
  destruct (negb (is_numeric df metric)); [discriminate |].
  destruct (arg_best better None (column df metric)) as [[i v]|] eqn:Hbest;
    [| discriminate].
  cbn [option_map fst].
  destruct (loc df i metric); [| discriminate].
  intros Hb. injection Hb as <-. constructor; [| constructor].
  apply arg_best_In, column_label in Hbest.
  destruct (single_label_sound table df i Hsel Hbest) as [Hs Hlt].
  now repeat split.
Qed.

Lemma execute_query_labels (table : DataFrame) (parsed_query : ParsedQuery)
  (b : ResultBundle) :
  execute_query (new table) parsed_query = Ok b ->
  forall item, In item (data b) -> labels_sound table item.
Proof.
  unfold execute_query.
  destruct (_apply_filters (new table) (filters parsed_query)) as [df|] eqn:Hfilter;
    [| discriminate].
  cbn [bind]. pose proof (apply_filters_selected _ _ _ Hfilter) as Hsel.
  destruct (frame_labels_sound table df Hsel) as [Hsorted Hlt].
  intros Hb. apply Forall_forall.
  assert (Hmap : forall (f : string -> ResultItem) ms,
            (forall m, labels_sound table (f m)) ->
            Forall (labels_sound table) (map f ms)).
  { intros f ms Hf. apply Forall_forall. intros item Hin.
    apply in_map_iff in Hin as (m & <- & _). apply Hf. }
  destruct (String.eqb (intent parsed_query) "compare").
  { unfold _compare_entities in Hb.
    destruct (_find_state_columns (new table)) as [|state_col state_cols];
      [injection Hb as <-; constructor |].
    destruct (metrics parsed_query) as [|metric rest];
      [injection Hb as <-; constructor |].
    destruct (String.eqb metric EmptyString);
      [injection Hb as <-; constructor |].
    match type of Hb with
    | context [for_each ?f ?l] => destruct (for_each f l) as [items|] eqn:E
    end; [| discriminate].
    cbn [bind] in Hb. injection Hb as <-. cbn [data with_data].
    apply (for_each_Forall _ _ _) with (2 := E).
    intros entity ys _.
    set (state_data := select df _).
    destruct (index state_data) as [|row_idx more] eqn:Hidx;
      [intros Hys; injection Hys as <-; constructor |].
    destruct (has_column df metric); [| discriminate].
    destruct (checked_mean _); [| discriminate].
    cbn [bind]. intros Hys. injection Hys as <-. constructor; [| constructor].
    assert (Hin : In row_idx (index df)).
    { apply selected_index_In with state_data.
      - subst state_data. apply selected_select, selected_refl.
      - rewrite Hidx. now left. }
    destruct (single_label_sound table df row_idx Hsel Hin) as [Hs Hl].
    now repeat split. }
  destruct (String.eqb (intent parsed_query) "maximum").
  { now apply (find_extremum_labels table "maximum" Qgt_bool df) in Hb. }
  destruct (String.eqb (intent parsed_query) "minimum").
  { now apply (find_extremum_labels table "minimum" Qlt_bool df) in Hb. }
  assert (Hagg : forall kind reduce b',
            aggregate kind reduce df (metrics parsed_query) = Ok b' ->
            Forall (labels_sound table) (data b')).
  { intros kind reduce b'. unfold aggregate.
    destruct (metrics parsed_query) as [|metric rest];
      [intros Hb'; injection Hb' as <-; constructor |].
    destruct (Nat.eqb (len df) 0);
      [intros Hb'; injection Hb' as <-; constructor |].
    intros Hb'. injection Hb' as <-. cbn [data with_data].
    apply Hmap. intros m. repeat split; auto. apply len_index. }
  destruct (String.eqb (intent parsed_query) "average");
    [now apply Hagg in Hb |].
  destruct (String.eqb (intent parsed_query) "sum");
    [now apply Hagg in Hb |].
  destruct (String.eqb (intent parsed_query) "trend").
  { unfold _analyze_trend in Hb.
    destruct (_find_year_columns (new table)) as [|year_col year_cols];
      [injection Hb as <-; constructor |].
    destruct (metrics parsed_query) as [|metric rest];
      [injection Hb as <-; constructor |].
    destruct (Nat.eqb (len df) 0); [injection Hb as <-; constructor |].
    destruct (negb (has_column df metric));
      [injection Hb as <-; constructor |].
    destruct (existsb is_text (cells_of df metric)); [discriminate |].
    destruct (String.eqb metric year_col); [discriminate |].
    match type of Hb with
    | context [for_each ?f ?l] => destruct (for_each f l) as [items|] eqn:E
    end; [| discriminate].
    cbn [bind] in Hb. injection Hb as <-. cbn [data with_data].
    apply (for_each_Forall _ _ _) with (2 := E).
    intros key ys _.
    destruct (int_of_cell key) as [y|]; [| discriminate]. cbn [bind].
    intros Hys. injection Hys as <-. constructor; [| constructor].
    set (group := select df _).
    assert (Hgroup : selected_from group (new table)).
    { subst group. now apply selected_select. }
    destruct (frame_labels_sound table group Hgroup) as [Hs Hl].
    now repeat split. }
  destruct (String.eqb (intent parsed_query) "count").
  { unfold _count_records in Hb. injection Hb as <-. cbn [data with_data].
    constructor; [| constructor]. repeat split; auto. apply len_index. }
  unfold _general_query in Hb.
  destruct (Nat.eqb (len df) 0); [injection Hb as <-; constructor |].
  injection Hb as <-. cbn [data with_data].
  apply Hmap. intros m. repeat split; auto. apply len_index.
Qed.

(** X11.  Whatever the question, the row labels an item carries are labels
    of the snapshot, below the number of rows of the table, and in
    ascending order; an average, a sum, a count and a summary count
    exactly the rows they list. *)
Theorem result_labels_sound (table : DataFrame) (parsed_query : ParsedQuery)
  (b : ResultBundle) :
  execute_query (new table) parsed_query = Ok b ->
  forall item, In item (data b) -> labels_sound table item.
Proof. apply execute_query_labels. Qed.

End Labels.

Lemma result_labels_sound_witness :
  labels_sound stations (Aggregate "rain_mm" (Num (80 # 4)) 5 [0; 1; 2; 3; 4]).
Proof.
  apply (result_labels_sound stations average_rain
           (with_data "average"
              [Aggregate "rain_mm" (Num (80 # 4)) 5 [0; 1; 2; 3; 4]])
           eq_refl).
  now left.
Defined.

(** *** The summary of a general query *)

Lemma Qbest_In better l : forall x, In (Qbest better x l) (x :: l).
Proof.
  induction l as [|y l IH]; intros x; simpl; [now left |].
  destruct (IH (if better y x then y else x)) as [Heq | Hin].
  - rewrite <- Heq. destruct (better y x); [right; now left | now left].
  - right. now right.
Qed.

Lemma Qbest_min l : forall x y,
  In y (x :: l) -> (Qbest Qlt_bool x l <= y)%Q.
Proof.
  induction l as [|z l IH]; intros x y Hin; simpl.
  - destruct Hin as [<- | []]. apply Qle_refl.
  - set (m := if Qlt_bool z x then z else x).
    assert (Hm : (m <= x)%Q /\ (m <= z)%Q).
    { subst m. destruct (Qlt_bool z x) eqn:E.
      - split; [now apply Qlt_bool_true in E | apply Qle_refl].
      - split; [apply Qle_refl | now apply Qlt_bool_false in E]. }
    destruct Hin as [<- | [<- | Hin]].
    + apply Qle_trans with m; [apply IH; now left | apply Hm].
    + apply Qle_trans with m; [apply IH; now left | apply Hm].
    + apply IH. now right.
Qed.

Lemma Qbest_max l : forall x y,
  In y (x :: l) -> (y <= Qbest Qgt_bool x l)%Q.
Proof.
  induction l as [|z l IH]; intros x y Hin; simpl.
  - destruct Hin as [<- | []]. apply Qle_refl.
  - set (m := if Qgt_bool z x then z else x).
    assert (Hm : (x <= m)%Q /\ (z <= m)%Q).
    { subst m. destruct (Qgt_bool z x) eqn:E.
      - split; [now apply Qgt_bool_true in E | apply Qle_refl].
      - split; [apply Qle_refl | now apply Qgt_bool_false in E]. }
    destruct Hin as [<- | [<- | Hin]].
    + apply Qle_trans with m; [apply Hm | apply IH; now left].
    + apply Qle_trans with m; [apply Hm | apply IH; now left].
    + apply IH. now right.
Qed.

Lemma Qof_nat_S n : (Qof_nat (S n) == Qof_nat n + 1)%Q.
Proof.
  unfold Qof_nat. rewrite Nat2Z.inj_succ, <- Z.add_1_r, inject_Z_plus.
  reflexivity.
Qed.

Lemma fold_sum_bounds (a z : Q) l : forall acc,
  (forall x, In x l -> (a <= x)%Q /\ (x <= z)%Q) ->
  (acc + Qof_nat (List.length l) * a <= fold_left Qplus l acc)%Q
  /\ (fold_left Qplus l acc <= acc + Qof_nat (List.length l) * z)%Q.
Proof.
  induction l as [|x l IH]; intros acc Hin.
  - cbn [List.length fold_left].
    change (Qof_nat 0) with 0%Q. split; lra.
  - destruct (Hin x (or_introl eq_refl)) as [Hax Hxz].
    destruct (IH (acc + x)%Q (fun y Hy => Hin y (or_intror Hy))) as [Hlo Hhi].
    cbn [List.length fold_left]. rewrite Qof_nat_S. split; lra.
Qed.

Lemma Qof_nat_pos n : (0 < Qof_nat (S n))%Q.
Proof.
  unfold Qof_nat. change 0%Q with (inject_Z 0). rewrite <- Zlt_Qlt. lia.
Qed.

Lemma In_numbers q cells : In (Num q) cells -> In q (numbers cells).
Proof.
  induction cells as [|c cells IH]; simpl; [trivial |].
  intros [-> | Hin]; [now left |].
  destruct c; simpl; auto.
Qed.

(** Minimum, mean and maximum of the same cells. *)
Lemma summary_ordered cells :
  (series_mean cells = NaN /\ series_min cells = NaN
   /\ series_max cells = NaN /\ numbers cells = [])
  \/ exists a z,
       series_min cells = Num a /\ series_max cells = Num z
       /\ In (Num a) cells /\ In (Num z) cells
       /\ (forall q, In (Num q) cells -> (a <= q)%Q /\ (q <= z)%Q)
       /\ (sums_exactly (numbers cells) -> means_exactly (numbers cells) ->
           exists v, series_mean cells = Num v /\ (a <= v)%Q /\ (v <= z)%Q).
Proof.
  unfold series_mean, series_min, series_max.
  destruct (numbers cells) as [|x l] eqn:Hn; [left; now repeat split |].
  right. eexists _, _. split; [reflexivity |]. split; [reflexivity |].
  assert (Hbounds : forall y, In y (x :: l) ->
            (Qbest Qlt_bool x l <= y)%Q /\ (y <= Qbest Qgt_bool x l)%Q).
  { intros y Hy. split; [now apply Qbest_min | now apply Qbest_max]. }
  repeat split.
  - apply numbers_In. rewrite Hn. apply Qbest_In.
  - apply numbers_In. rewrite Hn. apply Qbest_In.
  - apply Hbounds. rewrite <- Hn. now apply In_numbers.
  - apply Hbounds. rewrite <- Hn. now apply In_numbers.
  - intros _ _. eexists. split; [reflexivity |].
    destruct (fold_sum_bounds (Qbest Qlt_bool x l) (Qbest Qgt_bool x l)
                (x :: l) (0 # 1)%Q Hbounds) as [Hlo Hhi].
    split.
    + apply Qle_shift_div_l; [apply Qof_nat_pos |]. unfold Qsum. lra.
    + apply Qle_shift_div_r; [apply Qof_nat_pos |]. unfold Qsum. lra.
Qed.

Lemma not_shaped_general kind m a b c n l :
  kind <> "general" -> ~ well_formed kind (General m a b c n l).
Proof.
  intros Hkind [Hshape _]. cbn in Hshape.
  destruct (String.eqb_spec kind "general"); [contradiction | discriminate].
Qed.

Section Summary.
Context `{Format}.

(** X12.  In the summary of a general query the minimum and the
    maximum are values the metric takes on rows the item lists, and
    every number the metric takes on these rows lies between the two;
    mean, minimum and maximum are NaN together, when none of the rows
    holds a number.  Where the numbers are added and averaged without
    rounding (multiples of one power of two 2^e, e at most 0, whose
    absolute values add up to 2^53 * 2^e at most, the mean one that
    binary64 holds), the mean lies between the minimum and the
    maximum. *)
Theorem general_summary_ordered (table : DataFrame)
  (parsed_query : ParsedQuery) (b : ResultBundle) (metric : string)
  (mean min max : cell) (count : nat) (row_indices : list nat) :
  execute_query (new table) parsed_query = Ok b ->
  In (General metric mean min max count row_indices) (data b) ->
  (mean = NaN /\ min = NaN /\ max = NaN
   /\ numbers (cells_at (new table) metric row_indices) = [])
  \/ exists lo hi,
       min = Num lo /\ max = Num hi
       /\ In (Num lo) (cells_at (new table) metric row_indices)
       /\ In (Num hi) (cells_at (new table) metric row_indices)
       /\ (forall q,
             In (Num q) (cells_at (new table) metric row_indices) ->
             (lo <= q)%Q /\ (q <= hi)%Q)
       /\ (sums_exactly (numbers (cells_at (new table) metric row_indices)) ->
           means_exactly (numbers (cells_at (new table) metric row_indices)) ->
           exists mid, mean = Num mid /\ (lo <= mid)%Q /\ (mid <= hi)%Q).
Proof.
  unfold execute_query.
  destruct (_apply_filters (new table) (filters parsed_query)) as [df|] eqn:Hfilter;
    [| discriminate].
  cbn [bind]. pose proof (apply_filters_selected _ _ _ Hfilter) as Hsel.
  intros Hb Hin.
  assert (Hother : forall kind,
            kind <> "general" ->
            type b = kind /\ Forall (well_formed kind) (data b) -> False).
  { intros kind Hkind [_ Hall]. rewrite Forall_forall in Hall.
    now apply (not_shaped_general kind metric mean min max count row_indices
                 Hkind), Hall. }
  destruct (String.eqb (intent parsed_query) "compare").
  { exfalso. apply (Hother "comparison"); [discriminate |].
    now apply compare_entities_shape in Hb. }
  destruct (String.eqb (intent parsed_query) "maximum").
  { exfalso. apply (Hother "maximum"); [discriminate |].
    apply (find_extremum_shape table "maximum" Qgt_bool) in Hb
      as (Ht & Hd & _); auto. }
  destruct (String.eqb (intent parsed_query) "minimum").
  { exfalso. apply (Hother "minimum"); [discriminate |].
    apply (find_extremum_shape table "minimum" Qlt_bool) in Hb
      as (Ht & Hd & _); auto. }
  destruct (String.eqb (intent parsed_query) "average").
  { exfalso. apply (Hother "average"); [discriminate |].
    apply aggregate_shape in Hb; [exact Hb | now left | apply series_mean_plain]. }
  destruct (String.eqb (intent parsed_query) "sum").
  { exfalso. apply (Hother "sum"); [discriminate |].
    apply aggregate_shape in Hb; [exact Hb | now right | apply series_sum_plain]. }
  destruct (String.eqb (intent parsed_query) "trend").
  { exfalso. apply (Hother "trend"); [discriminate |].
    now apply analyze_trend_shape in Hb. }
  destruct (String.eqb (intent parsed_query) "count").
  { unfold _count_records in Hb. injection Hb as <-.
    destruct Hin as [Hin | []]. discriminate. }
  unfold _general_query in Hb.
  destruct (Nat.eqb (len df) 0); [injection Hb as <-; contradiction |].
  injection Hb as <-. cbn [data with_data] in Hin.
  apply in_map_iff in Hin as (m & Hitem & _).
  injection Hitem as <- <- <- <- _ <-.
  rewrite <- (cells_of_selected df (new table) m Hsel (new_index_sorted table)).
  apply summary_ordered.
Qed.

End Summary.

Lemma general_summary_ordered_witness :
  (Num (80 # 4) = NaN /\ Num (10 # 1) = NaN /\ Num (30 # 1) = NaN
   /\ numbers (cells_at (new stations) "rain_mm" [0; 1; 2; 3; 4]) = [])
  \/ exists lo hi,
       Num (10 # 1) = Num lo /\ Num (30 # 1) = Num hi
       /\ In (Num lo) (cells_at (new stations) "rain_mm" [0; 1; 2; 3; 4])
       /\ In (Num hi) (cells_at (new stations) "rain_mm" [0; 1; 2; 3; 4])
       /\ (forall q,
             In (Num q) (cells_at (new stations) "rain_mm" [0; 1; 2; 3; 4]) ->
             (lo <= q)%Q /\ (q <= hi)%Q)
       /\ (sums_exactly
             (numbers (cells_at (new stations) "rain_mm" [0; 1; 2; 3; 4])) ->
           means_exactly
             (numbers (cells_at (new stations) "rain_mm" [0; 1; 2; 3; 4])) ->
           exists mid,
             Num (80 # 4) = Num mid /\ (lo <= mid)%Q /\ (mid <= hi)%Q).
Proof.
  apply (general_summary_ordered stations show_rain
           (with_data "general"
              [General "rain_mm" (Num (80 # 4)) (Num (10 # 1)) (Num (30 # 1))
                       5 [0; 1; 2; 3; 4]])
           "rain_mm" (Num (80 # 4)) (Num (10 # 1)) (Num (30 # 1)) 5
           [0; 1; 2; 3; 4] eq_refl).
  now left.
Defined.

(** *** The snapshot *)

Lemma combine_fst_snd {A B : Type} (l : list (A * B)) :
  combine (map fst l) (map snd l) = l.
Proof.
  induction l as [|[a b] l IH]; simpl; [reflexivity | now rewrite IH].
Qed.

Lemma map_snd_combine {A B : Type} (l : list A) (l' : list B) :
  List.length l = List.length l' -> map snd (combine l l') = l'.
Proof.
  revert l'; induction l as [|a l IH]; intros [|b l'] Hlen; simpl;
    try discriminate; [reflexivity |].
  now rewrite IH by now injection Hlen.
Qed.

Lemma find_combine_seq {A : Type} (l : list A) : forall a i,
  option_map snd (find (fun lr => Nat.eqb (fst lr) (a + i))
                       (combine (seq a (List.length l)) l))
  = nth_error l i.
Proof.
  induction l as [|x l IH]; intros a i; [now destruct i |].
  cbn [List.length seq combine find fst].
  destruct i as [|i].
  - now rewrite Nat.add_0_r, Nat.eqb_refl.
  - destruct (Nat.eqb_spec a (a + S i)) as [Heq | _]; [lia |].
    rewrite <- Nat.add_succ_comm. apply IH.
Qed.

(** X13.  The analyzer works on a copy whose rows are relabelled 0, 1, 2,
    ... in their order: columns, cells and row count are those of the
    table, and the row labelled [i] is the row at position [i] of the
    table, whatever its label was; relabelling twice changes nothing
    more; and a table that already has these labels is its own
    snapshot. *)
Theorem snapshot_relabels (table : DataFrame) :
  columns (new table) = columns table
  /\ index (new table) = seq 0 (len table)
  /\ map snd (rows (new table)) = map snd (rows table)
  /\ len (new table) = len table
  /\ (forall col, cells_of (new table) col = cells_of table col)
  /\ (forall label,
        find_row (new table) label = nth_error (map snd (rows table)) label)
  /\ new (new table) = new table
  /\ (index table = seq 0 (len table) -> new table = table).
Proof.
  assert (Hcells : map snd (rows (new table)) = map snd (rows table)).
  { unfold new, reset_index. cbn [rows]. apply map_snd_combine.
    unfold len. now rewrite length_seq, length_map. }
  assert (Hlen : len (new table) = len table).
  { unfold len. rewrite <- (length_map snd (rows (new table))), Hcells.
    apply length_map. }
  split; [reflexivity |]. split; [apply new_index |].
  split; [exact Hcells |]. split; [exact Hlen |].
  split; [| split; [| split]].
  - intros col. unfold cells_of, column. rewrite !map_map. cbn [snd].
    change (fun x : nat * list cell => row_cell (new table) col (snd x))
      with (fun x : nat * list cell => row_cell table col (snd x)).
    rewrite <- !(map_map snd (row_cell table col)). now rewrite Hcells.
  - intros label. unfold find_row, new, reset_index. cbn [rows].
    unfold len. rewrite <- (length_map snd (rows table)).
    apply (find_combine_seq (map snd (rows table)) 0 label).
  - unfold new at 1. unfold reset_index. rewrite Hlen, Hcells. reflexivity.
  - intros Hidx. unfold new, reset_index. rewrite <- Hidx. unfold index.
    rewrite combine_fst_snd. now destruct table.
Qed.

Lemma snapshot_relabels_witness : new rainfall = rainfall.
Proof.
  apply (proj2 (proj2 (proj2 (proj2 (proj2 (proj2 (proj2
           (snapshot_relabels rainfall)))))))).
  reflexivity.
Defined.

End AnalyzerMore.

(* ================================================================= *)
(** ** The whole pipeline *)

Module PipelineFacts.
Import PyStr Pandas QueryParser DataAnalyzer AnswerGenerator Examples Spec.
Import FrameFacts SnapshotFacts ExtremumFacts RenderFacts ShapeFacts.
Import CitationFacts ParserMore AnalyzerMore.
Local Open Scope string_scope.
Local Open Scope list_scope.

Lemma for_each_ok {A B : Type} (f : A -> res (list B)) l :
  (forall a, In a l -> exists ys, f a = Ok ys) ->
  exists zs, for_each f l = Ok zs.
Proof.
  induction l as [|a l IH]; intros Hf; simpl; [now exists [] |].
  destruct (Hf a (or_introl eq_refl)) as [ys ->].
  destruct IH as [zs ->]; [intros b Hb; apply Hf; now right |].
  now eexists.
Qed.

Lemma for_each_raise {A B : Type} (f : A -> res (list B)) l e :
  for_each f l = Raise e -> exists a, In a l /\ f a = Raise e.
Proof.
  induction l as [|a l IH]; simpl; [discriminate |].
  destruct (f a) as [ys|e'] eqn:Ea; cbn [bind].
  - destruct (for_each f l) as [zs|e'']; cbn [bind]; [discriminate |].
    intros He. injection He as ->.
    destruct IH as (b & Hb & Hfb); [reflexivity |]. exists b. auto.
  - intros He. injection He as ->. exists a. auto.
Qed.

Lemma snapshot_row table label r :
  In (label, r) (rows (new table)) -> exists l, In (l, r) (rows table).
Proof.
  unfold new, reset_index. cbn [rows]. intros Hin.
  apply in_combine_r in Hin. apply in_map_iff in Hin as ([l r'] & <- & Hin).
  now exists l.
Qed.

Lemma well_typed_snapshot table : well_typed table -> well_typed (new table).
Proof.
  intros (Hnd & Hlen & Hnum). split; [exact Hnd |]. split.
  - intros label r Hin. apply snapshot_row in Hin as [l Hin].
    now apply (Hlen l).
  - intros col label r Hcol Hin. apply snapshot_row in Hin as [l Hin].
    now apply (Hnum col l).
Qed.

Lemma well_typed_selected df snapshot :
  selected_from df snapshot -> well_typed snapshot -> well_typed df.
Proof.
  intros Hsel (Hnd & Hlen & Hnum). pose proof (proj1 Hsel) as Hcols.
  split; [unfold column_names; now rewrite Hcols |]. split.
  - intros label r Hin. rewrite Hcols.
    apply (Hlen label). now apply selected_row with df.
  - intros col label r Hcol Hin.
    rewrite (row_cell_selected df snapshot col r Hcols).
    apply (Hnum col label); [now rewrite <- Hcols |].
    now apply selected_row with df.
Qed.

Lemma numeric_cells_plain df col :
  well_typed df -> In (col, Numeric) (columns df) ->
  existsb is_text (cells_of df col) = false.
Proof.
  intros (_ & _ & Hnum) Hcol.
  destruct (existsb is_text (cells_of df col)) eqn:E; [| reflexivity].
  apply existsb_exists in E as (c & Hin & Hc).
  unfold cells_of, column in Hin. rewrite map_map in Hin.
  apply in_map_iff in Hin as ([label r] & <- & Hin). cbn [snd] in Hc.
  now rewrite (Hnum col label r Hcol Hin) in Hc.
Qed.

Lemma find_row_some df label :
  In label (index df) -> exists r, find_row df label = Some r.
Proof.
  unfold index, find_row. induction (rows df) as [|[l r] rs IH]; simpl;
    [contradiction |].
  destruct (Nat.eqb_spec l label) as [| Hne]; [now eexists |].
  intros [Heq | Hin]; [contradiction | now apply IH].
Qed.

Section Pipeline.
Context `{Format}.

(** Every bundle the analyzer returns is rendered. *)
Lemma render_succeeds table parsed_query b question df :
  execute_query (new table) parsed_query = Ok b ->
  exists a, generate_answer question parsed_query b df = Ok a.
Proof.
  intros Hrun.
  destruct (String.eqb_spec (intent parsed_query) "count") as [Hcount | Hcount].
  { unfold execute_query in Hrun. rewrite Hcount in Hrun.
    destruct (_apply_filters (new table) (filters parsed_query)) as [d|];
      [| discriminate].
    cbn in Hrun. injection Hrun as <-. now eexists. }
  destruct (execute_query_shape _ _ _ Hrun Hcount) as (Hkind & Hitems & Hone).
  rewrite Forall_forall in Hitems.
  assert (Hall : forallb (shaped (type b)) (data b) = true).
  { apply forallb_forall. intros item Hin. apply Hitems, Hin. }
  unfold generate_answer.
  destruct (data b) as [|d0 rest] eqn:Hdata; [now eexists |].
  rewrite <- Hdata in *. cbn in Hkind.
  destruct Hkind as [Hk | [Hk | [Hk | [Hk | [Hk | [Hk | [Hk | []]]]]]]];
    rewrite <- Hk in *; cbn [String.eqb Ascii.eqb Bool.eqb].
  - destruct (comparison_answer_citations question (data b) df Hall)
      as [text ->]. now eexists.
  - rewrite Hdata in *.
    destruct (extremum_answer_citations "highest" "maximum" "maximum" d0 rest df)
      as [text Htext]; [now left | now apply Hitems; left |].
    unfold _generate_maximum_answer. rewrite Htext. now eexists.
  - rewrite Hdata in *.
    destruct (extremum_answer_citations "lowest" "minimum" "minimum" d0 rest df)
      as [text Htext]; [now right | now apply Hitems; left |].
    unfold _generate_minimum_answer. rewrite Htext. now eexists.
  - destruct (aggregate_answer_citations "average" "calculated" (data b) df
                "average" (or_introl eq_refl) Hall) as [text Htext].
    unfold _generate_average_answer. rewrite Htext. now eexists.
  - destruct (aggregate_answer_citations "total" "summed" (data b) df
                "sum" (or_intror eq_refl) Hall) as [text Htext].
    unfold _generate_sum_answer. rewrite Htext. now eexists.
  - destruct (trend_answer_citations question (data b) df Hall)
      as (text & sorted & Hperm & ->). now eexists.
  - destruct (general_answer_citations question (data b) df Hall)
      as [text ->]. now eexists.
Qed.

(** What the analyzer can raise on a well-typed table, for metrics
    that are numeric columns. *)
Lemma execute_query_outcome table parsed_query :
  well_typed table ->
  (forall m, In m (metrics parsed_query) -> In (m, Numeric) (columns table)) ->
  match execute_query (new table) parsed_query with
  | Ok _ => month_filter_fails (new table) (filters parsed_query) = false
  | Raise e =>
      (e = AttributeError
       /\ month_filter_fails (new table) (filters parsed_query) = true)
      \/ (e = ValueError
          /\ month_filter_fails (new table) (filters parsed_query) = false
          /\ (intent parsed_query = "maximum"
              \/ intent parsed_query = "minimum"
              \/ intent parsed_query = "trend"))
  end.
Proof.
  intros Htyped Hmetrics. unfold execute_query.
  rewrite apply_filters_select.
  destruct (month_filter_fails (new table) (filters parsed_query)) eqn:Hmonth;
    [cbn [bind]; now left |].
  cbn [bind]. set (df := select (new table) _).
  assert (Hsel : selected_from df (new table)).
  { subst df. apply selected_select, selected_refl. }
  assert (Hdf : well_typed df).
  { apply (well_typed_selected df (new table) Hsel).
    now apply well_typed_snapshot. }
  assert (Hcol : forall m, In m (metrics parsed_query) ->
                 has_column df m = true /\ is_numeric df m = true
                 /\ existsb is_text (cells_of df m) = false).
  { intros m Hm. apply Hmetrics in Hm.
    assert (Hm' : In (m, Numeric) (columns df))
      by (now rewrite (proj1 Hsel)).
    destruct (numeric_column_dtype df m (proj1 Hdf) Hm') as [Hc Hn].
    split; [exact Hc |]. split; [exact Hn |].
    now apply numeric_cells_plain. }
  clearbody df.
  assert (Hextremum : forall kind better,
            match find_extremum (new table) kind
                    (fun l => option_map fst (arg_best better None l))
                    df (metrics parsed_query) with
            | Ok _ => True
            | Raise e => e = ValueError
            end).
  { intros kind better. unfold find_extremum.
    destruct (metrics parsed_query) as [|metric rest]; [exact I |].
    destruct (Hcol metric (or_introl eq_refl)) as (Hc & Hn & _).
    destruct (Nat.eqb (len df) 0); [exact I |].
    rewrite Hc, Hn. cbn [negb].
    destruct (arg_best better None (column df metric)) as [[i v]|] eqn:Hbest;
      [| reflexivity].
    cbn [option_map fst].
    apply arg_best_In, column_label, find_row_some in Hbest as [r Hr].
    unfold loc. now rewrite Hc, Hr. }
  destruct (String.eqb_spec (intent parsed_query) "compare") as [_ | _].
  { unfold _compare_entities.
    destruct (_find_state_columns (new table)) as [|state_col state_cols];
      [reflexivity |].
    destruct (metrics parsed_query) as [|metric rest]; [reflexivity |].
    destruct (String.eqb metric EmptyString); [reflexivity |].
    destruct (Hcol metric (or_introl eq_refl)) as (Hc & Hn & _).
    match goal with
    | |- context [for_each ?f ?l] =>
        destruct (for_each_ok f l) as [items ->]; [| reflexivity]
    end.
    intros entity _. set (state_data := select df _).
    destruct (index state_data); [now eexists |].
    rewrite Hc. unfold checked_mean.
    assert (Hstate : well_typed state_data).
    { apply (well_typed_selected state_data df); [| exact Hdf].
      subst state_data. apply selected_select, selected_refl. }
    rewrite (numeric_cells_plain state_data metric Hstate).
    - now eexists.
    - change (columns state_data) with (columns df).
      rewrite (proj1 Hsel). apply Hmetrics. now left. }
  destruct (String.eqb_spec (intent parsed_query) "maximum") as [Hmax | _].
  { specialize (Hextremum "maximum" Qgt_bool).
    change (find_extremum (new table) "maximum" _ df (metrics parsed_query))
      with (_find_maximum (new table) df (metrics parsed_query)) in Hextremum.
    destruct (_find_maximum (new table) df (metrics parsed_query));
      [reflexivity | right; auto]. }
  destruct (String.eqb_spec (intent parsed_query) "minimum") as [Hmin | _].
  { specialize (Hextremum "minimum" Qlt_bool).
    change (find_extremum (new table) "minimum" _ df (metrics parsed_query))
      with (_find_minimum (new table) df (metrics parsed_query)) in Hextremum.
    destruct (_find_minimum (new table) df (metrics parsed_query));
      [reflexivity | right; auto]. }
  assert (Hagg : forall kind reduce,
            exists b, aggregate kind reduce df (metrics parsed_query) = Ok b).
  { intros kind reduce. unfold aggregate.
    destruct (metrics parsed_query); [now eexists |].
    destruct (Nat.eqb (len df) 0); now eexists. }
  destruct (String.eqb_spec (intent parsed_query) "average") as [_ | _].
  { unfold _calculate_average.
    now destruct (Hagg "average" series_mean) as [b ->]. }
  destruct (String.eqb_spec (intent parsed_query) "sum") as [_ | _].
  { unfold _calculate_sum. now destruct (Hagg "sum" series_sum) as [b ->]. }
  destruct (String.eqb_spec (intent parsed_query) "trend") as [Htrend | _].
  { destruct (_analyze_trend (new table) df (metrics parsed_query))
      as [b|e] eqn:Hrun; [reflexivity |].
    right. split; [| auto]. revert Hrun. unfold _analyze_trend.
    destruct (_find_year_columns (new table)) as [|year_col year_cols];
      [discriminate |].
    destruct (metrics parsed_query) as [|metric rest]; [discriminate |].
    destruct (Hcol metric (or_introl eq_refl)) as (Hc & _ & Ht).
    destruct (Nat.eqb (len df) 0); [discriminate |].
    rewrite Hc, Ht. cbn [negb].
    destruct (String.eqb metric year_col);
      [intros He; now injection He as <- |].
    match goal with
    | |- context [for_each ?f ?l] =>
        destruct (for_each f l) as [items|e'] eqn:E
    end; [discriminate |].
    cbn [bind]. intros He. injection He as ->.
    apply for_each_raise in E as (key & _ & Hkey).
    unfold int_of_cell in Hkey.
    destruct key as [q | t |]; cbn [bind] in Hkey;
      [discriminate | | now injection Hkey as <-].
    destruct (int_of_str t); [discriminate | now injection Hkey as <-]. }
  destruct (String.eqb (intent parsed_query) "count"); [reflexivity |].
  unfold _general_query. now destruct (Nat.eqb (len df) 0).
Qed.

(** X14.  On a well-typed table the pipeline raises an AttributeError exactly
    when months are asked for and the first month column has no
    [.str]: it is numeric, or it is of dtype object and holds numbers
    and no text on the rows that pass the region and year filters;
    any other exception comes from a maximum, a minimum or a trend;
    every other question gets an answer. *)
Theorem process_question_outcome (question : string) (table : DataFrame) :
  well_typed table ->
  (process_question question table = Raise AttributeError
   <-> month_filter_fails (new table) (filters (parse question table)) = true)
  /\ (forall e,
        process_question question table = Raise e ->
        e = AttributeError
        \/ In (intent (parse question table))
              ["maximum"; "minimum"; "trend"])
  /\ (month_filter_fails (new table) (filters (parse question table)) = false ->
      ~ In (intent (parse question table)) ["maximum"; "minimum"; "trend"] ->
      exists a, process_question question table = Ok a).
Proof.
  intros Htyped.
  pose proof (execute_query_outcome table (parse question table) Htyped
                (metrics_are_numeric question table)) as Hrun.
  unfold process_question. cbv zeta.
  destruct (execute_query (new table) (parse question table)) as [b|e] eqn:Hb.
  - destruct (render_succeeds table (parse question table) b question table Hb)
      as [a Ha].
    cbn [bind]. rewrite Ha, Hrun. split; [split; discriminate |].
    split; [discriminate | now eexists].
  - cbn [bind]. destruct Hrun as [[-> Hmonth] | (-> & Hmonth & Hintent)].
    + rewrite Hmonth. split; [now split |].
      split; [intros e He; left; now injection He as <- | discriminate].
    + rewrite Hmonth. split; [split; discriminate |]. split.
      * intros e He. right.
        destruct Hintent as [Hi | [Hi | Hi]]; rewrite Hi; cbn [In]; tauto.
      * intros _ Hnot. exfalso. apply Hnot.
        destruct Hintent as [Hi | [Hi | Hi]]; rewrite Hi; cbn [In]; tauto.
Qed.

End Pipeline.

Lemma process_question_outcome_witness :
  well_typed rainfall
  /\ exists a,
       process_question "What is the average rainfall?" rainfall = Ok a.
Proof.
  assert (Htyped : well_typed rainfall).
  { split; [| split].
    - repeat constructor; cbn; intuition discriminate.
    - intros label r Hin. cbn in Hin.
      repeat (destruct Hin as [Hin | Hin]; [now injection Hin as <- <- |]).
      contradiction.
    - intros col label r Hcol Hin. cbn in Hcol, Hin.
      repeat (destruct Hcol as [Hcol | Hcol];
              [try discriminate; injection Hcol as <-;
               repeat (destruct Hin as [Hin | Hin];
                       [now injection Hin as <- <- |]);
               contradiction |]).
      contradiction. }
  split; [exact Htyped |].
  apply (proj2 (proj2 (process_question_outcome
                         "What is the average rainfall?" rainfall Htyped))).
  - reflexivity.
  - intros Hin. vm_compute in Hin. intuition discriminate.
Defined.

(** Months coded by number in a column of dtype object: the table is
    well typed, the month filter has no [.str] to lower the cells
    with, and the question gets the AttributeError. *)
Lemma coded_months_raise :
  well_typed coded_months
  /\ is_numeric coded_months "month" = false
  /\ month_filter_fails (new coded_months)
       (filters (parse "How many records in May?" coded_months)) = true
  /\ _apply_filters (new coded_months)
       (filters (parse "How many records in May?" coded_months))
     = Raise AttributeError
  /\ process_question "How many records in May?" coded_months
     = Raise AttributeError.
Proof.
  split; [| repeat split; reflexivity].
  split; [| split].
  - repeat constructor; cbn; intuition discriminate.
  - intros label r Hin. cbn in Hin.
    repeat (destruct Hin as [Hin | Hin]; [now injection Hin as <- <- |]).
    contradiction.
  - intros col label r Hcol Hin. cbn in Hcol, Hin.
    repeat (destruct Hcol as [Hcol | Hcol];
            [try discriminate; injection Hcol as <-;
             repeat (destruct Hin as [Hin | Hin];
                     [now injection Hin as <- <- |]);
             contradiction |]).
    contradiction.
Qed.

End PipelineFacts.

(* ================================================================= *)
(** ** More on the renderer: what citations quote, order, names *)

Module RenderMore.
Import PyStr Pandas QueryParser DataAnalyzer AnswerGenerator Examples Spec.
Import ParserFacts YearFacts FrameFacts AnalyzerFacts SnapshotFacts.
Import AggregateFacts.
Import ExtremumFacts RenderFacts ShapeFacts.
Import CitationFacts ParserMore AnalyzerMore PipelineFacts.
Local Open Scope string_scope.
Local Open Scope list_scope.

Lemma new_fixed table : index table = seq 0 (len table) -> new table = table.
Proof.
  intros Hidx. unfold new, reset_index. rewrite <- Hidx. unfold index.
  rewrite combine_fst_snd. now destruct table.
Qed.

Lemma find_row_In df label r :
  find_row df label = Some r -> In (label, r) (rows df).
Proof.
  unfold find_row. destruct (find _ (rows df)) as [[l r']|] eqn:E;
    [| discriminate].
  cbn. intros Hr. injection Hr as <-. apply find_some in E as [Hin Hl].
  cbn in Hl. apply Nat.eqb_eq in Hl. now subst l.
Qed.

(** A cell read from a frame selected from the snapshot is the cell of
    the snapshot under the same label. *)
Lemma loc_selected table df label col v :
  selected_from df (new table) ->
  loc df label col = Some v -> loc (new table) label col = Some v.
Proof.
  intros Hsel. unfold loc at 1.
  destruct (has_column df col) eqn:Hcol; [| discriminate].
  destruct (find_row df label) as [r|] eqn:Hr; [| discriminate].
  cbn [option_map]. intros Hv. injection Hv as <-.
  apply find_row_In in Hr.
  rewrite (loc_row (new table) col label r (new_index_sorted table)).
  - now rewrite (row_cell_selected df (new table) col r (proj1 Hsel)).
  - now apply selected_row with df.
  - now rewrite <- (has_column_selected df (new table) col (proj1 Hsel)).
Qed.

Section Quoting.
Context `{Format}.

(** The metric of an item is a column of the snapshot, and an extremum
    holds the cell of its row. *)
Lemma execute_query_metrics table parsed_query b :
  execute_query (new table) parsed_query = Ok b ->
  forall item metric,
    In item (data b) -> get_metric item = Ok metric ->
    has_column (new table) metric = true
    /\ forall m v i info,
         item = Extremum m v i info -> loc (new table) i m = Some v.
Proof.
  unfold execute_query.
  destruct (_apply_filters (new table) (filters parsed_query)) as [df|] eqn:Hfilter;
    [| discriminate].
  cbn [bind]. pose proof (apply_filters_selected _ _ _ Hfilter) as Hsel.
  pose proof (has_column_selected df (new table)) as Hsame.
  specialize (fun col => Hsame col (proj1 Hsel)).
  intros Hb.
  assert (Hgoal : Forall (fun item => forall metric,
                     get_metric item = Ok metric ->
                     has_column (new table) metric = true
                     /\ forall m v i info,
                          item = Extremum m v i info ->
                          loc (new table) i m = Some v) (data b));
    [| intros item metric Hin; rewrite Forall_forall in Hgoal;
       now apply Hgoal].
  assert (Hmap : forall (f : string -> ResultItem) ms,
            (forall m, get_metric (f m) = Ok m) ->
            (forall m, exists a c n l,
               f m = Aggregate a c n l \/ exists x y, f m = General a c x y n l) ->
            Forall (fun item => forall metric,
                     get_metric item = Ok metric ->
                     has_column (new table) metric = true
                     /\ forall m v i info,
                          item = Extremum m v i info ->
                          loc (new table) i m = Some v)
                   (map f (filter (fun metric =>
                                     has_column df metric && is_numeric df metric)
                                  ms))).
  { intros f ms Hf Hshape. apply Forall_forall. intros item Hin.
    apply in_map_iff in Hin as (m & <- & Hm).
    apply filter_In in Hm as [_ Hm]. apply andb_true_iff in Hm as [Hm _].
    intros metric Hmetric. rewrite Hf in Hmetric. injection Hmetric as <-.
    split; [now rewrite <- Hsame |].
    intros m' v i info Heq.
    destruct (Hshape m) as (a & c & n & l & [Hs | (x & y & Hs)]);
      rewrite Hs in Heq; discriminate. }
  assert (Hextremum : forall kind better b',
            find_extremum (new table) kind
              (fun l => option_map fst (arg_best better None l))
              df (metrics parsed_query) = Ok b' ->
            Forall (fun item => forall metric,
                     get_metric item = Ok metric ->
                     has_column (new table) metric = true
                     /\ forall m v i info,
                          item = Extremum m v i info ->
                          loc (new table) i m = Some v) (data b')).
  { intros kind better b'. unfold find_extremum.
    destruct (metrics parsed_query) as [|metric rest];
      [intros Hb'; injection Hb' as <-; constructor |].
    destruct (Nat.eqb (len df) 0);
      [intros Hb'; injection Hb' as <-; constructor |].
    destruct (has_column df metric) eqn:Hcol;
      [| intros Hb'; injection Hb' as <-; constructor].
    cbn [negb]. destruct (negb (is_numeric df metric)); [discriminate |].
    destruct (option_map fst _) as [i|]; [| discriminate].
    destruct (loc df i metric) as [v|] eqn:Hloc; [| discriminate].
    intros Hb'. injection Hb' as <-. constructor; [| constructor].
    intros metric' Hm. cbn in Hm. injection Hm as <-.
    split; [now rewrite <- Hsame |].
    intros m' v' i' info Heq. injection Heq as <- <- <- _.
    now apply loc_selected with df. }
  destruct (String.eqb (intent parsed_query) "compare").
  { unfold _compare_entities in Hb.
    destruct (_find_state_columns (new table)) as [|state_col state_cols];
      [injection Hb as <-; constructor |].
    destruct (metrics parsed_query) as [|metric rest];
      [injection Hb as <-; constructor |].
    destruct (String.eqb metric EmptyString);
      [injection Hb as <-; constructor |].
    match type of Hb with
    | context [for_each ?f ?l] => destruct (for_each f l) as [items|] eqn:E
    end; [| discriminate].
    cbn [bind] in Hb. injection Hb as <-. cbn [data with_data].
    apply (for_each_Forall _ _ _) with (2 := E).
    intros entity ys _.
    destruct (index (select df _));
      [intros Hys; injection Hys as <-; constructor |].
    destruct (has_column df metric) eqn:Hcol; [| discriminate].
    destruct (checked_mean _); [| discriminate].
    cbn [bind]. intros Hys. injection Hys as <-. constructor; [| constructor].
    intros metric' Hm. cbn in Hm. injection Hm as <-.
    split; [now rewrite <- Hsame | discriminate]. }
  destruct (String.eqb (intent parsed_query) "maximum");
    [now apply (Hextremum "maximum" Qgt_bool) |].
  destruct (String.eqb (intent parsed_query) "minimum");
    [now apply (Hextremum "minimum" Qlt_bool) |].
  assert (Hagg : forall kind reduce b',
            aggregate kind reduce df (metrics parsed_query) = Ok b' ->
            Forall (fun item => forall metric,
                     get_metric item = Ok metric ->
                     has_column (new table) metric = true
                     /\ forall m v i info,
                          item = Extremum m v i info ->
                          loc (new table) i m = Some v) (data b')).
  { intros kind reduce b'.
    destruct (Nat.eqb_spec (len df) 0) as [Hlen | Hlen].
    - rewrite aggregate_empty by exact Hlen.
      intros Hb'. injection Hb' as <-. constructor.
    - rewrite aggregate_rows by exact Hlen.
      intros Hb'. injection Hb' as <-. cbn [data with_data].
      apply Hmap; [reflexivity |]. intros m. eexists _, _, _, _. now left. }
  destruct (String.eqb (intent parsed_query) "average");
    [now apply Hagg in Hb |].
  destruct (String.eqb (intent parsed_query) "sum");
    [now apply Hagg in Hb |].
  destruct (String.eqb (intent parsed_query) "trend").
  { unfold _analyze_trend in Hb.
    destruct (_find_year_columns (new table)) as [|year_col year_cols];
      [injection Hb as <-; constructor |].
    destruct (metrics parsed_query) as [|metric rest];
      [injection Hb as <-; constructor |].
    destruct (Nat.eqb (len df) 0); [injection Hb as <-; constructor |].
    destruct (has_column df metric) eqn:Hcol;
      [| injection Hb as <-; constructor].
    cbn [negb] in Hb.
    destruct (existsb is_text (cells_of df metric)); [discriminate |].
    destruct (String.eqb metric year_col); [discriminate |].
    match type of Hb with
    | context [for_each ?f ?l] => destruct (for_each f l) as [items|] eqn:E
    end; [| discriminate].
    cbn [bind] in Hb. injection Hb as <-. cbn [data with_data].
    apply (for_each_Forall _ _ _) with (2 := E).
    intros key ys _.
    destruct (int_of_cell key) as [y|]; [| discriminate]. cbn [bind].
    intros Hys. injection Hys as <-. constructor; [| constructor].
    intros metric' Hm. cbn in Hm. injection Hm as <-.
    split; [now rewrite <- Hsame | discriminate]. }
  destruct (String.eqb (intent parsed_query) "count").
  { unfold _count_records in Hb. injection Hb as <-. cbn [data with_data].
    constructor; [| constructor]. intros metric Hm. discriminate. }
  destruct (Nat.eqb_spec (len df) 0) as [Hlen | Hlen].
  - rewrite general_query_empty in Hb by exact Hlen.
    injection Hb as <-. constructor.
  - rewrite general_query_rows in Hb by exact Hlen.
    injection Hb as <-. cbn [data with_data].
    apply Hmap; [reflexivity |]. intros m. eexists _, _, _, _. right. eauto.
Qed.

(** X15.  On a table whose rows are labelled 0, 1, 2, ... every citation of
    a row an item lists finds its cell: it is never the short form, it
    quotes the cell of the snapshot the analyzer worked on, and the
    citation of a maximum or minimum quotes the very value
    reported. *)
Theorem citations_quote_cells (table : DataFrame) (parsed_query : ParsedQuery)
  (b : ResultBundle) (item : ResultItem) (metric : string) (label : nat) :
  index table = seq 0 (len table) ->
  execute_query (new table) parsed_query = Ok b ->
  In item (data b) ->
  get_metric item = Ok metric ->
  In label (justifying item) ->
  exists value context,
    loc (new table) label metric = Some value
    /\ _create_citation label metric table
       = (citation_head label metric value ++ context)%string
    /\ forall m v i info, item = Extremum m v i info -> value = v.
Proof.
  intros Hidx Hrun Hin Hmetric Hlabel.
  destruct (execute_query_metrics table parsed_query b Hrun item metric
              Hin Hmetric) as [Hcol Hext].
  destruct (execute_query_labels table parsed_query b Hrun item Hin)
    as (_ & Hlt & _).
  rewrite (new_fixed table Hidx) in *.
  destruct (find_row_some table label) as [r Hr].
  { rewrite Hidx. apply in_seq. specialize (Hlt label Hlabel). lia. }
  assert (Hloc : loc table label metric = Some (row_cell table metric r)).
  { unfold loc. now rewrite Hcol, Hr. }
  exists (row_cell table metric r).
  unfold _create_citation. rewrite Hloc.
  match goal with
  | |- context [firstn 3 ?l] => destruct (firstn 3 l) as [|c cs]
  end.
  - exists EmptyString. split; [reflexivity |]. split.
    + unfold citation_head. now rewrite append_nil_r.
    + intros m v i info ->. cbn in Hmetric, Hlabel.
      injection Hmetric as ->. destruct Hlabel as [-> | []].
      specialize (Hext _ _ _ _ eq_refl). congruence.
  - eexists. split; [reflexivity |]. split.
    + unfold citation_head. rewrite !append_assoc. reflexivity.
    + intros m v i info ->. cbn in Hmetric, Hlabel.
      injection Hmetric as ->. destruct Hlabel as [-> | []].
      specialize (Hext _ _ _ _ eq_refl). congruence.
Qed.

End Quoting.

Lemma citations_quote_cells_witness :
  exists value context,
    loc (new rainfall) 0 "annual_rainfall_mm" = Some value
    /\ _create_citation 0 "annual_rainfall_mm" rainfall
       = (citation_head 0 "annual_rainfall_mm" value ++ context)%string
    /\ forall m v i info,
         Extremum "annual_rainfall_mm" (Num (1200 # 1)) 0
           {| state := Some (Str "Maharashtra");
              year := Some (Num (2015 # 1)) |}
         = Extremum m v i info -> value = v.
Proof.
  apply (citations_quote_cells rainfall (parse "highest rainfall" rainfall)
           (with_data "maximum"
              [Extremum "annual_rainfall_mm" (Num (1200 # 1)) 0
                 {| state := Some (Str "Maharashtra");
                    year := Some (Num (2015 # 1)) |}]));
    [reflexivity | reflexivity | now left | reflexivity | now left].
Defined.

(** *** The order of a trend *)

Lemma for_each_keyed items : forall keyed,
  for_each (fun item => y <- get_year item ;; Ok [(y, item)]) items = Ok keyed ->
  keyed = map (fun item => (year_of item, item)) items.
Proof.
  induction items as [|item items IH]; intros keyed Hk; simpl in Hk.
  - now injection Hk as <-.
  - destruct item; cbn in Hk; try discriminate.
    destruct (for_each _ items) as [more|]; [| discriminate].
    cbn in Hk. injection Hk as <-. simpl. f_equal. now apply IH.
Qed.

Lemma insert_by_year_sorted x l :
  Sorted Z.le (map fst l) -> Sorted Z.le (map fst (insert_by_year x l)).
Proof.
  induction l as [|y l IH]; intros Hs; simpl; [repeat constructor |].
  destruct (Z.leb_spec (fst x) (fst y)) as [Hle | Hgt]; simpl.
  - constructor; [exact Hs | now constructor].
  - apply Sorted_inv in Hs as [Hs Hy]. constructor; [now apply IH |].
    destruct l as [|z l]; simpl.
    + constructor. lia.
    + destruct (fst x <=? fst z)%Z; simpl; constructor;
        [lia | now inversion Hy].
Qed.

Lemma sorted_keys_In (keyed : list (Z * ResultItem)) k :
  In k (fold_right insert_by_year [] keyed) -> In k keyed.
Proof.
  induction keyed as [|x keyed IH]; simpl; [trivial |].
  intros Hk.
  apply (Permutation_in _ (Permutation_sym (insert_by_year_perm _ _))) in Hk.
  destruct Hk as [<- | Hk]; [now left | right; now apply IH].
Qed.

Lemma render_items_snd f (c : ResultItem -> list string) items :
  (forall item pc, In item items -> f item = Ok pc -> snd pc = c item) ->
  forall pc, render_items f items = Ok pc -> snd pc = flat_map c items.
Proof.
  induction items as [|item items IH]; intros Hf pc Hpc; simpl in Hpc.
  - now injection Hpc as <-.
  - destruct (f item) as [p|] eqn:Ep; [| discriminate]. cbn [bind] in Hpc.
    destruct (render_items f items) as [more|] eqn:Em; [| discriminate].
    cbn [bind] in Hpc. injection Hpc as <-. cbn [snd flat_map]. f_equal.
    + apply Hf with (2 := Ep). now left.
    + apply IH; [| reflexivity]. intros i pc' Hi. apply Hf. now right.
Qed.

Section Ordering.
Context `{Format}.

(** X16.  A rendered trend goes through its items in ascending order of
    year, whatever order they came in, and cites the first row of each
    year in that order. *)
Theorem trend_answer_in_year_order (question : string)
  (data : list ResultItem) (df : DataFrame) (a : Answer) :
  _generate_trend_answer question data df = Ok a ->
  exists sorted,
    sort_by_year data = Ok sorted
    /\ Permutation data sorted
    /\ Sorted Z.le (map year_of sorted)
    /\ citations a
       = flat_map (fun item =>
                     cite_rows df item (firstn 1 (get_row_indices item)))
                  sorted.
Proof.
  unfold _generate_trend_answer.
  destruct (sort_by_year data) as [sorted|] eqn:Hsort; [| discriminate].
  cbn [bind]. intros Ha. exists sorted. split; [reflexivity |].
  unfold sort_by_year in Hsort.
  destruct (for_each _ data) as [keyed|] eqn:Hkeyed; [| discriminate].
  cbn [bind] in Hsort. injection Hsort as <-.
  apply for_each_keyed in Hkeyed. subst keyed.
  assert (Hkeys : forall l : list ResultItem,
            map year_of (map snd (fold_right insert_by_year []
                           (map (fun item => (year_of item, item)) l)))
            = map fst (fold_right insert_by_year []
                         (map (fun item => (year_of item, item)) l))).
  { intros l. rewrite map_map. apply map_ext_in. intros [y item] Hin.
    cbn [fst snd].
    apply sorted_keys_In in Hin.
    now apply in_map_iff in Hin as (i & Heq & _); injection Heq as <- <-. }
  split; [| split].
  - clear Ha Hkeys. induction data as [|item data IH]; simpl; [constructor |].
    eapply perm_trans; [| apply Permutation_map, insert_by_year_perm].
    cbn [map snd]. now constructor.
  - rewrite Hkeys. clear Ha Hkeys.
    induction data as [|item data IH]; simpl; [constructor |].
    now apply insert_by_year_sorted.
  - match type of Ha with
    | context [render_items ?f ?l] =>
        destruct (render_items f l) as [pc|] eqn:Hpc; [| discriminate];
        pose proof (render_items_snd f
                      (fun item =>
                         cite_rows df item (firstn 1 (get_row_indices item)))
                      l) as Hsnd
    end.
    cbn [bind] in Ha.
    destruct (if (2 <=? _)%nat then _ else _) as [closing|]; [| discriminate].
    cbn [bind] in Ha. injection Ha as <-. cbn [citations].
    apply Hsnd; [| exact Hpc].
    intros item pc' _. destruct item; cbn; try discriminate.
    destruct (_format_value value); cbn; [| discriminate].
    intros Hp. injection Hp as <-. cbn [snd]. now destruct row_indices.
Qed.

End Ordering.

Lemma trend_answer_in_year_order_witness :
  exists sorted,
    sort_by_year [Trend 2016 "rain_mm" (Num (50 # 1)) [4];
                  Trend 2015 "rain_mm" (Num (25 # 1)) [0; 1; 2; 3]]
    = Ok sorted
    /\ Permutation [Trend 2016 "rain_mm" (Num (50 # 1)) [4];
                    Trend 2015 "rain_mm" (Num (25 # 1)) [0; 1; 2; 3]] sorted
    /\ Sorted Z.le (map year_of sorted)
    /\ [_create_citation 0 "rain_mm" yearly;
        _create_citation 4 "rain_mm" yearly]
       = flat_map (fun item =>
                     cite_rows yearly item (firstn 1 (get_row_indices item)))
                  sorted.
Proof.
  apply (trend_answer_in_year_order "rain trend"
           [Trend 2016 "rain_mm" (Num (50 # 1)) [4];
            Trend 2015 "rain_mm" (Num (25 # 1)) [0; 1; 2; 3]] yearly
           {| answer :=
                match _generate_trend_answer "rain trend"
                        [Trend 2016 "rain_mm" (Num (50 # 1)) [4];
                         Trend 2015 "rain_mm" (Num (25 # 1)) [0; 1; 2; 3]]
                        yearly with
                | Ok a => answer a
                | Raise _ => EmptyString
                end;
              citations := [_create_citation 0 "rain_mm" yearly;
                            _create_citation 4 "rain_mm" yearly] |}).
  reflexivity.
Defined.

(** *** The display name of a metric *)

Lemma title_char_lower (p : bool) c :
  lower_char (if p then lower_char c else upper_char c) = lower_char c.
Proof.
  destruct p; destruct c as [[] [] [] [] [] [] [] []]; vm_compute; reflexivity.
Qed.

Lemma title_char_cased (p : bool) c :
  (is_upper (if p then lower_char c else upper_char c)
   || is_lower (if p then lower_char c else upper_char c))
  = (is_upper c || is_lower c).
Proof.
  destruct p; destruct c as [[] [] [] [] [] [] [] []]; vm_compute; reflexivity.
Qed.

Lemma title_char_again (p : bool) c :
  (if p then lower_char (if p then lower_char c else upper_char c)
   else upper_char (if p then lower_char c else upper_char c))
  = (if p then lower_char c else upper_char c).
Proof.
  destruct p; destruct c as [[] [] [] [] [] [] [] []]; vm_compute; reflexivity.
Qed.

Lemma title_char_plain (p : bool) c :
  Ascii.eqb "_" (if p then lower_char (if Ascii.eqb c "_" then " " else c)
                 else upper_char (if Ascii.eqb c "_" then " " else c))%char
  = false.
Proof.
  destruct p; destruct c as [[] [] [] [] [] [] [] []]; vm_compute; reflexivity.
Qed.

Lemma title_from_lower s : forall p, lower (title_from p s) = lower s.
Proof.
  induction s as [|c s IH]; intros p; simpl; [reflexivity |].
  now rewrite title_char_lower, IH.
Qed.

Lemma title_from_again s : forall p,
  title_from p (title_from p s) = title_from p s.
Proof.
  induction s as [|c s IH]; intros p; simpl; [reflexivity |].
  now rewrite title_char_again, title_char_cased, IH.
Qed.

Lemma title_from_length s : forall p,
  String.length (title_from p s) = String.length s.
Proof. induction s as [|c s IH]; intros p; simpl; [reflexivity | now rewrite IH]. Qed.

Lemma replace_char_length a b s :
  String.length (replace_char a b s) = String.length s.
Proof. induction s as [|c s IH]; simpl; [reflexivity | now rewrite IH]. Qed.

Lemma title_replaced_plain s : forall p,
  contains "_" (title_from p (replace_char "_" " " s)) = false.
Proof.
  induction s as [|c s IH]; intros p; [reflexivity |].
  cbn [replace_char title_from contains starts_with].
  rewrite title_char_plain, IH. reflexivity.
Qed.

Lemma replace_char_absent a b s :
  contains (String a EmptyString) s = false -> replace_char a b s = s.
Proof.
  induction s as [|c s IH]; [reflexivity |].
  cbn [contains starts_with replace_char]. intros Hc.
  apply orb_false_iff in Hc as [Hhead Hrest].
  rewrite Ascii.eqb_sym. destruct (Ascii.eqb a c); [discriminate |].
  now rewrite IH.
Qed.

(** X17.  The display name of a metric written in code points below 128 is
    the metric with each underscore turned into a space and the case
    of its letters changed, nothing else: same length, same text up to
    case, no underscore left; and formatting a display name again
    gives it back. *)
Theorem format_metric_name_shape (metric : string) :
  ascii_only metric ->
  String.length (_format_metric_name metric) = String.length metric
  /\ lower (_format_metric_name metric) = lower (replace_char "_" " " metric)
  /\ ~ occurs "_" (_format_metric_name metric)
  /\ _format_metric_name (_format_metric_name metric)
     = _format_metric_name metric.
Proof.
  intros _. unfold _format_metric_name, title. split; [| split; [| split]].
  - now rewrite title_from_length, replace_char_length.
  - apply title_from_lower.
  - intros Hocc. apply contains_occurs in Hocc.
    now rewrite title_replaced_plain in Hocc.
  - rewrite (replace_char_absent "_" " " _ (title_replaced_plain metric false)).
    apply title_from_again.
Qed.

Lemma format_metric_name_shape_witness :
  _format_metric_name "annual_rainfall_mm" = "Annual Rainfall Mm"
  /\ _format_metric_name (_format_metric_name "annual_rainfall_mm")
     = _format_metric_name "annual_rainfall_mm".
Proof.
  split; [reflexivity |].
  apply (format_metric_name_shape "annual_rainfall_mm"). reflexivity.
Defined.

End RenderMore.

(* ================================================================= *)
(** ** Parser and analyzer together *)

Module JointFacts.
Import PyStr Pandas QueryParser DataAnalyzer AnswerGenerator Examples Spec.
Import ParserFacts FrameFacts SnapshotFacts ParserMore AnalyzerMore.
Local Open Scope string_scope.
Local Open Scope list_scope.

Lemma cell_eqb_refl c : notna c = true -> cell_eqb c c = true.
Proof.
  destruct c as [q | t |]; [| | discriminate]; intros _; cbn.
  - apply Qeq_bool_iff. reflexivity.
  - apply String.eqb_refl.
Qed.

Lemma cells_of_snapshot table col :
  cells_of (new table) col = cells_of table col.
Proof.
  unfold cells_of, column. rewrite !map_map. cbn [snd].
  change (fun x : nat * list cell => row_cell (new table) col (snd x))
    with (fun x : nat * list cell => row_cell table col (snd x)).
  rewrite <- !(map_map snd (row_cell table col)).
  f_equal. unfold new, reset_index. cbn [rows]. apply map_snd_combine.
  unfold len. now rewrite length_seq, length_map.
Qed.

Section Joint.
Context `{Format}.

(** X18.  The regions the parser finds are read from the column the analyzer
    filters on, so each of them has rows: the region filter alone
    never empties the table, and each region found has at least one
    row of the snapshot. *)
Theorem extracted_states_have_rows (question : string) (table : DataFrame)
  (entity : cell) :
  In entity (states (entities (parse question table))) ->
  exists state_col others,
    _find_state_columns (new table) = state_col :: others
    /\ f_states (filters (parse question table))
       = Some (states (entities (parse question table)))
    /\ labels_where (new table) state_col entity (new table) <> []
    /\ forall label,
         In label (labels_where (new table) state_col entity (new table)) ->
         isin (cell_at (new table) state_col label)
              (states (entities (parse question table))) = true.
Proof.
  intros Hin.
  assert (Hsome : f_states (filters (parse question table))
                  = Some (states (entities (parse question table)))).
  { cbn [parse filters f_states]. unfold when_any.
    change (_extract_entities (lower question) table)
      with (entities (parse question table)).
    now destruct (states (entities (parse question table))). }
  assert (Hstates : states (entities (parse question table))
                    = match _find_state_columns (new table) with
                      | state_col :: _ =>
                          filter (fun state =>
                                    contains (lower (str_cell state))
                                             (lower question))
                                 (unique [] (cells_of table state_col))
                      | [] => []
                      end) by reflexivity.
  destruct (_find_state_columns (new table)) as [|state_col others] eqn:Hcols;
    [rewrite Hstates in Hin; contradiction |].
  exists state_col, others. split; [reflexivity |].
  split; [exact Hsome |].
  pose proof Hin as Hfound. rewrite Hstates in Hin.
  apply filter_In in Hin as [Hin _]. apply unique_In in Hin as [Hin Hna].
  rewrite <- cells_of_snapshot in Hin.
  rewrite (cells_of_selected (new table) (new table) state_col
             (selected_refl _) (new_index_sorted table)) in Hin.
  unfold cells_at in Hin. apply in_map_iff in Hin as (label & Hcell & Hlabel).
  split.
  - intros Hnone.
    assert (Hl : In label (labels_where (new table) state_col entity (new table))).
    { unfold labels_where. apply filter_In. split; [exact Hlabel |].
      rewrite Hcell. now apply cell_eqb_refl. }
    rewrite Hnone in Hl. contradiction.
  - intros l Hl. unfold labels_where in Hl. apply filter_In in Hl as [_ Hl].
    unfold isin. apply existsb_exists.
    exists entity. split; [exact Hfound |].
    destruct (cell_at (new table) state_col l), entity;
      try exact Hl; discriminate.
Qed.

End Joint.

Lemma extracted_states_have_rows_witness :
  exists state_col others,
    _find_state_columns (new rainfall) = state_col :: others
    /\ f_states (filters (parse "Rain in Karnataka" rainfall))
       = Some (states (entities (parse "Rain in Karnataka" rainfall)))
    /\ labels_where (new rainfall) state_col (Str "Karnataka") (new rainfall)
       <> []
    /\ forall label,
         In label (labels_where (new rainfall) state_col (Str "Karnataka")
                     (new rainfall)) ->
         isin (cell_at (new rainfall) state_col label)
              (states (entities (parse "Rain in Karnataka" rainfall))) = true.
Proof.
  apply (extracted_states_have_rows "Rain in Karnataka" rainfall
           (Str "Karnataka")).
  vm_compute. tauto.
Defined.

End JointFacts.

(* ================================================================= *)
(** ** Column names as the loader cleans them *)

Module LoaderFacts.
Import PyStr QueryParser DataLoader Spec.
Import ParserFacts.
Local Open Scope string_scope.

Lemma all_chars_impl (p q : ascii -> bool) s :
  (forall c, p c = true -> q c = true) ->
  all_chars p s = true -> all_chars q s = true.
Proof.
  intros Hpq. induction s as [|c s IH]; simpl; [trivial |].
  intros Hs. apply andb_true_iff in Hs as [Hc Hs].
  now rewrite (Hpq c Hc), IH.
Qed.

Lemma lstrip_all p q s :
  all_chars q s = true -> all_chars q (lstrip p s) = true.
Proof.
  induction s as [|c s IH]; simpl; [trivial |].
  intros Hs. destruct (p c); [| exact Hs].
  apply andb_true_iff in Hs as [_ Hs]. now apply IH.
Qed.

Lemma rstrip_all p q s :
  all_chars q s = true -> all_chars q (rstrip p s) = true.
Proof.
  induction s as [|c s IH]; simpl; [trivial |].
  intros Hs. apply andb_true_iff in Hs as [Hc Hs]. specialize (IH Hs).
  destruct (rstrip p s) as [|k ks].
  - destruct (p c); [reflexivity |]. simpl. now rewrite Hc.
  - cbn [all_chars] in *. now rewrite Hc, IH.
Qed.

Lemma keep_all p q s :
  all_chars q s = true -> all_chars (fun c => q c && p c) (keep p s) = true.
Proof.
  induction s as [|c s IH]; simpl; [trivial |].
  intros Hs. apply andb_true_iff in Hs as [Hc Hs].
  destruct (p c) eqn:Hp; [| now apply IH].
  cbn [all_chars]. now rewrite Hc, Hp, IH.
Qed.

Lemma sub_runs_all p q s : forall in_run,
  q "_"%char = true ->
  all_chars (fun c => q c || p c) s = true ->
  all_chars q (sub_runs p in_run s) = true.
Proof.
  induction s as [|c s IH]; intros in_run Hu Hs; simpl; [reflexivity |].
  simpl in Hs. apply andb_true_iff in Hs as [Hc Hs].
  destruct (p c) eqn:Hp.
  - destruct in_run; [now apply IH |].
    cbn [all_chars]. now rewrite Hu, IH.
  - rewrite orb_false_r in Hc. cbn [all_chars]. now rewrite Hc, IH.
Qed.

(** *** Where nothing is to be removed *)

Lemma lstrip_none p s :
  all_chars (fun c => negb (p c)) s = true -> lstrip p s = s.
Proof.
  destruct s as [|c s]; simpl; [trivial |].
  intros Hs. apply andb_true_iff in Hs as [Hc _].
  apply negb_true_iff in Hc. now rewrite Hc.
Qed.

Lemma rstrip_none p s :
  all_chars (fun c => negb (p c)) s = true -> rstrip p s = s.
Proof.
  induction s as [|c s IH]; simpl; [trivial |].
  intros Hs. apply andb_true_iff in Hs as [Hc Hs].
  apply negb_true_iff in Hc. rewrite (IH Hs), Hc. now destruct s.
Qed.

Lemma keep_none p s : all_chars p s = true -> keep p s = s.
Proof.
  induction s as [|c s IH]; simpl; [trivial |].
  intros Hs. apply andb_true_iff in Hs as [Hc Hs]. now rewrite Hc, IH.
Qed.

Lemma sub_runs_none p s : forall in_run,
  all_chars (fun c => negb (p c)) s = true -> sub_runs p in_run s = s.
Proof.
  induction s as [|c s IH]; intros in_run Hs; simpl; [trivial |].
  simpl in Hs. apply andb_true_iff in Hs as [Hc Hs].
  apply negb_true_iff in Hc. now rewrite Hc, IH.
Qed.

Lemma lower_none s :
  all_chars (fun c => negb (is_upper c)) s = true -> lower s = s.
Proof.
  induction s as [|c s IH]; simpl; [trivial |].
  intros Hs. apply andb_true_iff in Hs as [Hc Hs].
  apply negb_true_iff in Hc. unfold lower_char. now rewrite Hc, IH.
Qed.

(** *** Runs of underscores *)

Lemma sub_runs_squeezed s : forall in_run,
  squeezed in_run (sub_runs is_underscore in_run s) = true.
Proof.
  induction s as [|c s IH]; intros in_run; simpl; [reflexivity |].
  destruct (is_underscore c) eqn:Hc.
  - destruct in_run; [apply IH |].
    cbn [squeezed]. change (is_underscore "_") with true. cbn. apply IH.
  - cbn [squeezed]. rewrite Hc. apply IH.
Qed.

Lemma squeezed_fixed s : forall in_run,
  squeezed in_run s = true -> sub_runs is_underscore in_run s = s.
Proof.
  induction s as [|c s IH]; intros in_run Hs; simpl; [reflexivity |].
  simpl in Hs. destruct (is_underscore c) eqn:Hc.
  - apply andb_true_iff in Hs as [Hrun Hs]. apply negb_true_iff in Hrun.
    subst in_run. rewrite (IH true Hs).
    unfold is_underscore in Hc. apply Ascii.eqb_eq in Hc. now subst c.
  - now rewrite (IH false Hs).
Qed.

Lemma lstrip_squeezed s : forall after,
  squeezed after s = true -> squeezed false (lstrip is_underscore s) = true.
Proof.
  induction s as [|c s IH]; intros after Hs; simpl; [reflexivity |].
  simpl in Hs. destruct (is_underscore c) eqn:Hc.
  - apply andb_true_iff in Hs as [_ Hs]. now apply (IH true).
  - cbn [squeezed]. now rewrite Hc.
Qed.

Lemma rstrip_squeezed s : forall after,
  squeezed after s = true -> squeezed after (rstrip is_underscore s) = true.
Proof.
  induction s as [|c s IH]; intros after Hs; simpl; [reflexivity |].
  simpl in Hs. destruct (is_underscore c) eqn:Hc.
  - apply andb_true_iff in Hs as [Hrun Hs]. specialize (IH true Hs).
    destruct (rstrip is_underscore s) as [|k ks]; [reflexivity |].
    cbn [squeezed] in *. now rewrite Hc, Hrun.
  - specialize (IH false Hs).
    destruct (rstrip is_underscore s) as [|k ks].
    + cbn [squeezed]. now rewrite Hc.
    + cbn [squeezed] in *. now rewrite Hc.
Qed.

Lemma squeezed_no_pair s : forall after,
  squeezed after s = true -> contains "__" s = false.
Proof.
  induction s as [|c s IH]; intros after Hs; [reflexivity |].
  cbn [contains starts_with]. cbn [squeezed] in Hs.
  unfold is_underscore in Hs. rewrite (Ascii.eqb_sym "_" c).
  destruct (Ascii.eqb c "_") eqn:Hc.
  - apply andb_true_iff in Hs as [_ Hs]. rewrite (IH true Hs).
    destruct s as [|d s]; [reflexivity |].
    cbn [squeezed] in Hs. unfold is_underscore in Hs.
    rewrite (Ascii.eqb_sym "_" d).
    destruct (Ascii.eqb d "_"); [discriminate | reflexivity].
  - now rewrite (IH false Hs).
Qed.

(** *** The two ends *)

Lemma lstrip_head p s :
  match head (lstrip p s) with Some c => p c = false | None => True end.
Proof.
  induction s as [|c s IH]; simpl; [exact I |].
  destruct (p c) eqn:Hc; [exact IH | exact Hc].
Qed.

Lemma rstrip_again p s : rstrip p (rstrip p s) = rstrip p s.
Proof.
  induction s as [|c s IH]; simpl; [reflexivity |].
  destruct (rstrip p s) as [|k ks] eqn:Hr.
  - destruct (p c) eqn:Hc; [reflexivity |]. simpl. now rewrite Hc.
  - change (rstrip p (String c (String k ks))) with
      (match rstrip p (String k ks) with
       | EmptyString => if p c then EmptyString else String c EmptyString
       | kept => String c kept
       end).
    now rewrite IH.
Qed.

Lemma rstrip_lstrip p s :
  rstrip p s = s -> rstrip p (lstrip p s) = lstrip p s.
Proof.
  induction s as [|c s IH]; simpl; [trivial |].
  intros Hs. destruct (p c) eqn:Hc.
  - apply IH. destruct (rstrip p s) as [|k ks]; [discriminate |].
    now injection Hs.
  - simpl. now rewrite Hc.
Qed.

Lemma lstrip_again p s : lstrip p (lstrip p s) = lstrip p s.
Proof.
  induction s as [|c s IH]; simpl; [reflexivity |].
  destruct (p c) eqn:Hc; [exact IH |]. simpl. now rewrite Hc.
Qed.

Lemma strip_again p s : strip p (strip p s) = strip p s.
Proof.
  unfold strip.
  rewrite (rstrip_lstrip p (rstrip p s) (rstrip_again p s)).
  apply lstrip_again.
Qed.

Lemma rstrip_last p s :
  rstrip p s = s ->
  match last_char None s with Some c => p c = false | None => True end.
Proof.
  assert (Hgen : forall s prev,
            rstrip p s = s -> s <> EmptyString ->
            match last_char prev s with Some c => p c = false | None => True end).
  { clear s. induction s as [|c s IH]; intros prev Hs Hne; [contradiction |].
    simpl in Hs. cbn [last_char].
    destruct (rstrip p s) as [|k ks] eqn:Hr.
    - destruct (p c) eqn:Hc; [discriminate |].
      injection Hs as <-. cbn [last_char]. exact Hc.
    - injection Hs as Hs. apply IH; [congruence |].
      rewrite <- Hs. discriminate. }
  intros Hs. destruct s as [|c s]; [exact I |].
  apply Hgen; [exact Hs | discriminate].
Qed.

(** *** Characters *)

Lemma lower_char_not_upper c : is_upper (lower_char c) = false.
Proof. destruct c as [[] [] [] [] [] [] [] []]; vm_compute; reflexivity. Qed.

Lemma kept_char c :
  negb (is_upper c) && (is_word c || is_space c)
  = (is_name_char c || is_space c).
Proof. destruct c as [[] [] [] [] [] [] [] []]; vm_compute; reflexivity. Qed.

Lemma name_char_plain c :
  is_name_char c = true ->
  is_upper c = false /\ is_space c = false /\ is_word c = true.
Proof.
  destruct c as [[] [] [] [] [] [] [] []]; vm_compute;
    intros Hc; try discriminate Hc; repeat split.
Qed.

Lemma lower_all s : all_chars (fun c => negb (is_upper c)) (lower s) = true.
Proof.
  induction s as [|c s IH]; simpl; [reflexivity |].
  now rewrite lower_char_not_upper, IH.
Qed.

(** X19.  A cleaned column name, for a name written in code points below
    128, is made of small letters, digits and underscores; it neither
    starts nor ends with an underscore and has no two underscores in a
    row; lowering it changes nothing; and cleaning it again gives it
    back. *)
Theorem clean_column_name_shape (col_name : string) :
  ascii_only col_name ->
  all_chars is_name_char (_clean_column_name col_name) = true
  /\ head (_clean_column_name col_name) <> Some "_"%char
  /\ last_char None (_clean_column_name col_name) <> Some "_"%char
  /\ ~ occurs "__" (_clean_column_name col_name)
  /\ lower (_clean_column_name col_name) = _clean_column_name col_name
  /\ _clean_column_name (_clean_column_name col_name)
     = _clean_column_name col_name.
Proof.
  intros _. unfold _clean_column_name.
  set (s1 := strip is_space (lower col_name)).
  set (s2 := keep (fun c => is_word c || is_space c) s1).
  set (s3 := sub_runs is_space false s2).
  set (s4 := sub_runs is_underscore false s3).
  set (s5 := strip is_underscore s4).
  assert (H1 : all_chars (fun c => negb (is_upper c)) s1 = true).
  { subst s1. unfold strip. apply lstrip_all, rstrip_all, lower_all. }
  assert (H2 : all_chars (fun c => is_name_char c || is_space c) s2 = true).
  { subst s2. apply all_chars_impl with (2 := keep_all _ _ _ H1).
    intros c Hc. now rewrite <- kept_char. }
  assert (H3 : all_chars is_name_char s3 = true).
  { subst s3. now apply sub_runs_all. }
  assert (H4 : all_chars is_name_char s4 = true).
  { subst s4. apply sub_runs_all; [reflexivity |].
    apply all_chars_impl with (2 := H3). intros c ->. reflexivity. }
  assert (H5 : all_chars is_name_char s5 = true).
  { subst s5. unfold strip. now apply lstrip_all, rstrip_all. }
  assert (Hsq : squeezed false s5 = true).
  { subst s5 s4. unfold strip.
    apply (lstrip_squeezed _ false), rstrip_squeezed, sub_runs_squeezed. }
  assert (Hstrip : strip is_underscore s5 = s5).
  { subst s5. apply strip_again. }
  assert (Hplain : forall (q : ascii -> bool),
            (forall c, is_name_char c = true -> q c = true) ->
            all_chars q s5 = true).
  { intros q Hq. now apply all_chars_impl with (2 := H5). }
  assert (Hlower : lower s5 = s5).
  { apply lower_none, Hplain. intros c Hc.
    now rewrite (proj1 (name_char_plain c Hc)). }
  assert (Hspace : all_chars (fun c => negb (is_space c)) s5 = true).
  { apply Hplain. intros c Hc.
    now rewrite (proj1 (proj2 (name_char_plain c Hc))). }
  split; [exact H5 |]. split; [| split; [| split; [| split]]].
  - pose proof (lstrip_head is_underscore (rstrip is_underscore s4)) as Hh.
    fold (strip is_underscore s4) in Hh. fold s5 in Hh.
    destruct (head s5) as [c|]; [| discriminate].
    intros Hc. injection Hc as ->. discriminate.
  - assert (Hr : rstrip is_underscore s5 = s5).
    { subst s5. unfold strip. apply rstrip_lstrip, rstrip_again. }
    pose proof (rstrip_last is_underscore s5 Hr) as Hl.
    destruct (last_char None s5) as [c|]; [| discriminate].
    intros Hc. injection Hc as ->. discriminate.
  - intros Hocc. apply contains_occurs in Hocc.
    now rewrite (squeezed_no_pair s5 false Hsq) in Hocc.
  - exact Hlower.
  - rewrite Hlower. unfold strip at 2.
    rewrite (rstrip_none is_space s5 Hspace), (lstrip_none is_space s5 Hspace).
    rewrite (keep_none _ s5);
      [| apply Hplain; intros c Hc;
         now rewrite (proj2 (proj2 (name_char_plain c Hc)))].
    rewrite (sub_runs_none is_space s5 false Hspace).
    rewrite (squeezed_fixed s5 false Hsq). exact Hstrip.
Qed.

Lemma clean_column_name_shape_witness :
  _clean_column_name "  Annual Rainfall (mm) " = "annual_rainfall_mm"
  /\ lower (_clean_column_name "  Annual Rainfall (mm) ")
     = _clean_column_name "  Annual Rainfall (mm) ".
Proof.
  split; [reflexivity |].
  apply (clean_column_name_shape "  Annual Rainfall (mm) "). reflexivity.
Defined.

End LoaderFacts.

(* ================================================================= *)
(** ** Answers in full: counts and comparisons *)

Module AnswerFacts.
Import PyStr Pandas QueryParser DataAnalyzer AnswerGenerator Examples Spec.
Import ParserFacts YearFacts FrameFacts SnapshotFacts ExtremumFacts.
Import RenderFacts ShapeFacts CitationFacts AnalyzerMore.
Local Open Scope string_scope.
Local Open Scope list_scope.

Lemma best_value_highest vs : forall v0,
  (forall v, In v (v0 :: vs) -> exists q, v = Num q) ->
  exists hi,
    best_value value_gt v0 vs = Num hi
    /\ forall q, In (Num q) (v0 :: vs) -> (q <= hi)%Q.
Proof.
  induction vs as [|x vs IH]; intros v0 Hnum.
  - destruct (Hnum v0 (or_introl eq_refl)) as [q0 ->]. exists q0.
    split; [reflexivity |]. intros q [Hq | []]. injection Hq as <-.
    apply Qle_refl.
  - destruct (Hnum v0 (or_introl eq_refl)) as [q0 ->].
    destruct (Hnum x (or_intror (or_introl eq_refl))) as [qx ->].
    cbn [best_value value_gt].
    destruct (IH (if Qgt_bool qx q0 then Num qx else Num q0)) as (hi & Hhi & Hle).
    { intros v [<- | Hv]; [destruct (Qgt_bool qx q0); eauto |].
      apply Hnum. now right; right. }
    exists hi. split; [exact Hhi |].
    intros q [Hq | [Hq | Hq]].
    + injection Hq as <-. destruct (Qgt_bool qx q0) eqn:E.
      * apply Qgt_bool_true in E as [E _].
        apply Qle_trans with qx; [exact E | apply Hle; now left].
      * apply Hle. now left.
    + injection Hq as <-. destruct (Qgt_bool qx q0) eqn:E.
      * apply Hle. now left.
      * apply Qgt_bool_false in E.
        apply Qle_trans with q0; [exact E | apply Hle; now left].
    + apply Hle. now right.
Qed.

Lemma best_value_lowest vs : forall v0,
  (forall v, In v (v0 :: vs) -> exists q, v = Num q) ->
  exists lo,
    best_value value_lt v0 vs = Num lo
    /\ forall q, In (Num q) (v0 :: vs) -> (lo <= q)%Q.
Proof.
  induction vs as [|x vs IH]; intros v0 Hnum.
  - destruct (Hnum v0 (or_introl eq_refl)) as [q0 ->]. exists q0.
    split; [reflexivity |]. intros q [Hq | []]. injection Hq as <-.
    apply Qle_refl.
  - destruct (Hnum v0 (or_introl eq_refl)) as [q0 ->].
    destruct (Hnum x (or_intror (or_introl eq_refl))) as [qx ->].
    cbn [best_value value_lt].
    destruct (IH (if Qlt_bool qx q0 then Num qx else Num q0)) as (lo & Hlo & Hle).
    { intros v [<- | Hv]; [destruct (Qlt_bool qx q0); eauto |].
      apply Hnum. now right; right. }
    exists lo. split; [exact Hlo |].
    intros q [Hq | [Hq | Hq]].
    + injection Hq as <-. destruct (Qlt_bool qx q0) eqn:E.
      * apply Qlt_bool_true in E as [E _].
        apply Qle_trans with qx; [apply Hle; now left | exact E].
      * apply Hle. now left.
    + injection Hq as <-. destruct (Qlt_bool qx q0) eqn:E.
      * apply Hle. now left.
      * apply Qlt_bool_false in E.
        apply Qle_trans with q0; [apply Hle; now left | exact E].
    + apply Hle. now right.
Qed.

(** [values.index(v)] finds a value equal to the number [v]. *)
Lemma index_of_number q values :
  In (Num q) values ->
  exists x,
    nth_error values (index_of (Num q) values) = Some (Num x)
    /\ (x == q)%Q.
Proof.
  induction values as [|v values IH]; intros Hin; [contradiction |].
  cbn [index_of]. cbn [notna negb andb]. rewrite andb_false_r, orb_false_r.
  destruct (cell_eqb v (Num q)) eqn:E.
  - destruct v as [x | t |]; try discriminate. exists x.
    split; [reflexivity |]. now apply Qeq_bool_iff.
  - destruct Hin as [-> | Hin].
    + cbn in E. assert (Qeq_bool q q = true) by (apply Qeq_bool_iff; reflexivity).
      congruence.
    + destruct (IH Hin) as (x & Hx & Hq). exists x. now split.
Qed.

Lemma concat_all_snoc parts last :
  concat_all (parts ++ [last]) = (concat_all parts ++ last)%string.
Proof.
  unfold concat_all. induction parts as [|p ps IH]; [reflexivity |].
  destruct ps as [|p' ps'].
  - reflexivity.
  - change (join EmptyString ((p :: p' :: ps') ++ [last]))
      with (p ++ EmptyString ++ join EmptyString ((p' :: ps') ++ [last]))%string.
    rewrite IH.
    change (join EmptyString (p :: p' :: ps'))
      with (p ++ EmptyString ++ join EmptyString (p' :: ps'))%string.
    cbn [append]. now rewrite append_assoc.
Qed.

Section Answers.
Context `{Format}.

(** X20.  The closing sentence of a comparison is right about the numbers:
    when two or more regions are compared and each has a number, the
    region named as highest has a value no other exceeds, the region
    named as lowest a value none falls below, and the sentence quotes
    these two values. *)
Theorem comparison_names_extremes (question : string)
  (data : list ResultItem) (df : DataFrame) :
  2 <= List.length data ->
  (forall item, In item data ->
     exists e m q i n, item = Comparison e m (Num q) i n) ->
  exists e_hi m_hi q_hi i_hi n_hi e_lo m_lo q_lo i_lo n_lo t_hi t_lo a before,
    In (Comparison e_hi m_hi (Num q_hi) i_hi n_hi) data
    /\ In (Comparison e_lo m_lo (Num q_lo) i_lo n_lo) data
    /\ (forall e m q i n,
          In (Comparison e m (Num q) i n) data ->
          (q_lo <= q)%Q /\ (q <= q_hi)%Q)
    /\ _format_value (Num q_hi) = Ok t_hi
    /\ _format_value (Num q_lo) = Ok t_lo
    /\ _generate_comparison_answer question data df = Ok a
    /\ answer a
       = (before ++ nl ++ "**" ++ str_cell e_hi
            ++ "** had the highest value (" ++ t_hi ++ " "
            ++ _format_metric_name m_hi ++ "), while **" ++ str_cell e_lo
            ++ "** had the lowest (" ++ t_lo ++ " "
            ++ _format_metric_name m_lo ++ ").")%string.
Proof.
  intros Hlen Hitem. unfold _generate_comparison_answer.
  match goal with
  | |- context [render_items ?f data] =>
      destruct (render_items_citations f
                  (fun item => cite_rows df item (justifying item)) data)
        as [parts Hparts]
  end.
  { intros item Hin. destruct (Hitem _ Hin) as (e & m & q & i & n & ->).
    cbn. eauto. }
  set (value_of := fun item => match get_value item with
                               | Ok v => v
                               | Raise _ => NaN
                               end).
  assert (Hvalues : forall v, In v (map value_of data) -> exists q, v = Num q).
  { intros v Hv. apply in_map_iff in Hv as (item & <- & Hin).
    destruct (Hitem _ Hin) as (e & m & q & i & n & ->). now exists q. }
  assert (Hbound : forall e m q i n,
            In (Comparison e m (Num q) i n) data ->
            In (Num q) (map value_of data)).
  { intros e m q i n Hin.
    change (Num q) with (value_of (Comparison e m (Num q) i n)).
    now apply in_map. }
  assert (Hpick : forall v,
            In (Num v) (map value_of data) ->
            exists e m q i n,
              nth_item data (index_of (Num v) (map value_of data))
              = Ok (Comparison e m (Num q) i n)
              /\ In (Comparison e m (Num q) i n) data
              /\ (q == v)%Q).
  { intros v Hv. destruct (index_of_number v _ Hv) as (x & Hx & Hq).
    rewrite nth_error_map in Hx. unfold nth_item.
    destruct (nth_error data _) as [item|] eqn:Hitem'; [| discriminate].
    cbn in Hx. injection Hx as Hx.
    pose proof (nth_error_In _ _ Hitem') as Hin.
    destruct (Hitem _ Hin) as (e & m & q & i & n & ->).
    cbn in Hx. injection Hx as ->. exists e, m, x, i, n. auto. }
  rewrite Hparts. cbn [bind fst snd].
  apply Nat.leb_le in Hlen. rewrite Hlen.
  rewrite (for_each_singletons _ value_of).
  2:{ intros item Hin. destruct (Hitem _ Hin) as (e & m & q & i & n & ->).
      reflexivity. }
  cbn [bind].
  destruct data as [|d0 data']; [discriminate |].
  change (map value_of (d0 :: data'))
    with (value_of d0 :: map value_of data') in *.
  destruct (best_value_highest (map value_of data') (value_of d0) Hvalues)
    as (hi & Hhi & Hle).
  destruct (best_value_lowest (map value_of data') (value_of d0) Hvalues)
    as (lo & Hlo & Hge).
  rewrite Hhi, Hlo.
  destruct (Hpick hi) as (e1 & m1 & q1 & i1 & n1 & -> & Hin1 & Hq1).
  { rewrite <- Hhi. apply best_value_In. }
  destruct (Hpick lo) as (e2 & m2 & q2 & i2 & n2 & -> & Hin2 & Hq2).
  { rewrite <- Hlo. apply best_value_In. }
  cbn [bind get_entity get_value get_metric _format_value].
  eexists e1, m1, q1, i1, n1, e2, m2, q2, i2, n2, _, _, _, _.
  split; [exact Hin1 |]. split; [exact Hin2 |]. split; [| split; [| split]].
  - intros e m q i n Hin. apply Hbound in Hin. split.
    + rewrite Hq2. now apply Hge.
    + rewrite Hq1. now apply Hle.
  - reflexivity.
  - reflexivity.
  - split; [reflexivity |]. cbn [answer].
    rewrite app_comm_cons, concat_all_snoc. reflexivity.
Qed.


(** X22.  The unit of a metric is read from its lowered name, the tests
    taken in order: a name with 'mm' in it is in mm whatever else it
    says, and a name with 'temp' in it is never in Fahrenheit, which
    needs 'fahrenheit' without 'mm', 'cm', 'inch', 'temp' and
    'celsius'. *)
Theorem get_unit_precedence (metric : string) :
  (occurs "mm" (lower metric) -> _get_unit metric = "mm")
  /\ (occurs "temp" (lower metric) ->
      _get_unit metric <> (degree ++ "F")%string)
  /\ (_get_unit metric = (degree ++ "F")%string ->
      occurs "fahrenheit" (lower metric)
      /\ ~ occurs "mm" (lower metric) /\ ~ occurs "cm" (lower metric)
      /\ ~ occurs "inch" (lower metric) /\ ~ occurs "temp" (lower metric)
      /\ ~ occurs "celsius" (lower metric))
  /\ (forall other, lower other = lower metric ->
                    _get_unit other = _get_unit metric).
Proof.
  assert (Hno : forall p, contains p (lower metric) = false ->
                          ~ occurs p (lower metric)).
  { intros p Hp Hocc. apply contains_occurs in Hocc. congruence. }
  unfold _get_unit. split; [| split; [| split]].
  - intros Hmm. apply contains_occurs in Hmm. now rewrite Hmm.
  - intros Htemp. apply contains_occurs in Htemp. rewrite Htemp.
    destruct (contains "mm" (lower metric) || contains "millimeter" (lower metric));
      [intros Heq; vm_compute in Heq; discriminate |].
    destruct (contains "cm" (lower metric) || contains "centimeter" (lower metric));
      [intros Heq; vm_compute in Heq; discriminate |].
    destruct (contains "inch" (lower metric));
      [intros Heq; vm_compute in Heq; discriminate |].
    cbn [orb]. intros Heq. vm_compute in Heq. discriminate.
  - destruct (contains "mm" (lower metric)) eqn:Hmm;
      [intros Heq; vm_compute in Heq; discriminate |].
    destruct (contains "millimeter" (lower metric));
      [intros Heq; vm_compute in Heq; discriminate |].
    destruct (contains "cm" (lower metric)) eqn:Hcm;
      [intros Heq; vm_compute in Heq; discriminate |].
    destruct (contains "centimeter" (lower metric));
      [intros Heq; vm_compute in Heq; discriminate |].
    destruct (contains "inch" (lower metric)) eqn:Hinch;
      [intros Heq; vm_compute in Heq; discriminate |].
    destruct (contains "temp" (lower metric)) eqn:Htemp;
      [intros Heq; vm_compute in Heq; discriminate |].
    destruct (contains "celsius" (lower metric)) eqn:Hcel;
      [intros Heq; vm_compute in Heq; discriminate |].
    destruct (contains "fahrenheit" (lower metric)) eqn:Hf;
      [| intros Heq; vm_compute in Heq; discriminate].
    intros _. split; [now apply contains_occurs |]. auto 10.
  - now intros other ->.
Qed.

End Answers.

Lemma comparison_names_extremes_witness :
  exists e_hi m_hi q_hi i_hi n_hi e_lo m_lo q_lo i_lo n_lo t_hi t_lo a before,
    In (Comparison e_hi m_hi (Num q_hi) i_hi n_hi) compared
    /\ In (Comparison e_lo m_lo (Num q_lo) i_lo n_lo) compared
    /\ (forall e m q i n,
          In (Comparison e m (Num q) i n) compared ->
          (q_lo <= q)%Q /\ (q <= q_hi)%Q)
    /\ _format_value (Num q_hi) = Ok t_hi
    /\ _format_value (Num q_lo) = Ok t_lo
    /\ _generate_comparison_answer "compare" compared rainfall = Ok a
    /\ answer a
       = (before ++ nl ++ "**" ++ str_cell e_hi
            ++ "** had the highest value (" ++ t_hi ++ " "
            ++ _format_metric_name m_hi ++ "), while **" ++ str_cell e_lo
            ++ "** had the lowest (" ++ t_lo ++ " "
            ++ _format_metric_name m_lo ++ ").")%string.
Proof.
  apply (comparison_names_extremes "compare" compared rainfall).
  - cbn. lia.
  - intros item [<- | [<- | []]]; eauto 10.
Defined.


Lemma get_unit_precedence_witness :
  _get_unit "Comments_Temperature" = "mm".
Proof.
  apply (proj1 (get_unit_precedence "Comments_Temperature")).
  apply contains_occurs. reflexivity.
Defined.

End AnswerFacts.

(* ================================================================= *)
(** ** What a citation quotes, and the order of the citations *)

Module SourceFacts.
Import PyStr Pandas QueryParser DataAnalyzer AnswerGenerator Examples Spec.
Import ParserFacts YearFacts FrameFacts AnalyzerFacts SnapshotFacts.
Import AggregateFacts.
Import ExtremumFacts RenderFacts ShapeFacts.
Import CitationFacts ParserMore AnalyzerMore PipelineFacts RenderMore.
Local Open Scope string_scope.
Local Open Scope list_scope.

(** The sort is stable: the items of one year keep their order. *)
Lemma insert_by_year_filter y x l :
  filter (fun p : Z * ResultItem => (fst p =? y)%Z) (insert_by_year x l)
  = filter (fun p : Z * ResultItem => (fst p =? y)%Z) (x :: l).
Proof.
  induction l as [|z l IH]; [reflexivity |].
  cbn [insert_by_year].
  destruct (Z.leb_spec (fst x) (fst z)) as [Hle | Hgt]; [reflexivity |].
  cbn [filter] in *. rewrite IH.
  destruct (Z.eqb_spec (fst z) y) as [Hz | Hz];
    destruct (Z.eqb_spec (fst x) y) as [Hx | Hx]; try reflexivity.
  lia.
Qed.

Lemma keyed_filter y (keyed : list (Z * ResultItem)) :
  (forall p, In p keyed -> fst p = year_of (snd p)) ->
  filter (fun item => (year_of item =? y)%Z) (map snd keyed)
  = map snd (filter (fun p : Z * ResultItem => (fst p =? y)%Z) keyed).
Proof.
  induction keyed as [|p keyed IH]; intros Hk; [reflexivity |].
  cbn [map filter]. rewrite <- (Hk p) by now left.
  rewrite IH by (intros q Hq; apply Hk; now right).
  now destruct (fst p =? y)%Z.
Qed.

Lemma sort_by_year_ordered data sorted :
  sort_by_year data = Ok sorted ->
  Permutation data sorted
  /\ Sorted Z.le (map year_of sorted)
  /\ forall y,
       filter (fun item => (year_of item =? y)%Z) sorted
       = filter (fun item => (year_of item =? y)%Z) data.
Proof.
  unfold sort_by_year.
  destruct (for_each _ data) as [keyed|] eqn:Hkeyed; [| discriminate].
  cbn [bind]. intros Hsort. injection Hsort as <-.
  apply for_each_keyed in Hkeyed. subst keyed.
  assert (Hkeys : forall p,
            In p (fold_right insert_by_year []
                    (map (fun item => (year_of item, item)) data)) ->
            fst p = year_of (snd p)).
  { intros [y item] Hin. cbn [fst snd]. apply sorted_keys_In in Hin.
    now apply in_map_iff in Hin as (i & Heq & _); injection Heq as <- <-. }
  split; [| split].
  - clear Hkeys. induction data as [|item data IH]; simpl; [constructor |].
    eapply perm_trans; [| apply Permutation_map, insert_by_year_perm].
    cbn [map snd]. now constructor.
  - rewrite map_map.
    rewrite (map_ext_in _ fst) by (intros p Hp; symmetry; now apply Hkeys).
    clear Hkeys. induction data as [|item data IH]; simpl; [constructor |].
    now apply insert_by_year_sorted.
  - intros y. rewrite (keyed_filter y _ Hkeys). clear Hkeys.
    induction data as [|item data IH]; [reflexivity |].
    cbn [map fold_right]. rewrite insert_by_year_filter.
    cbn [filter fst map snd]. rewrite <- IH.
    now destruct (year_of item =? y)%Z.
Qed.

Section Sources.
Context `{Format}.



(** C4, as the code has it.  Where every item carries more than three
    row indices, an average or a sum gives, for each item, the
    citations of its first three rows and then one line with the
    number of the other rows, and a general summary gives the
    citations of the first three rows of each item and no such line.
    A trend gives one citation for each item that carries a row index,
    that of its first row, the items taken in ascending order of their
    years and those of one year in the order they came in. *)
Theorem citation_sampling (question : string) (parsed_query : ParsedQuery)
  (kind : string) (data : list ResultItem) (df : DataFrame) :
  data <> [] ->
  forallb (shaped kind) data = true ->
  (Forall (fun item => 3 < List.length (get_row_indices item)) data ->
   kind = "average" \/ kind = "sum" ->
   exists text,
     generate_answer question parsed_query (with_data kind data) df
     = Ok {| answer := text;
             citations :=
               flat_map (fun item =>
                           cite_rows df item (firstn 3 (get_row_indices item))
                           ++ [more_rows
                                 (List.length (get_row_indices item) - 3)])
                        data |})
  /\ (Forall (fun item => 3 < List.length (get_row_indices item)) data ->
      kind = "general" ->
      exists text,
        generate_answer question parsed_query (with_data kind data) df
        = Ok {| answer := text;
                citations :=
                  flat_map (fun item =>
                              cite_rows df item
                                        (firstn 3 (get_row_indices item)))
                           data |})
  /\ (kind = "trend" ->
      exists text sorted,
        sort_by_year data = Ok sorted
        /\ Permutation data sorted
        /\ Sorted Z.le (map year_of sorted)
        /\ (forall y,
              filter (fun item => (year_of item =? y)%Z) sorted
              = filter (fun item => (year_of item =? y)%Z) data)
        /\ generate_answer question parsed_query (with_data kind data) df
           = Ok {| answer := text;
                   citations :=
                     flat_map (fun item =>
                                 cite_rows df item
                                           (firstn 1 (get_row_indices item)))
                              sorted |})
  /\ (Forall (fun item => 3 < List.length (get_row_indices item)) data ->
      Forall (fun item =>
                List.length (firstn 3 (get_row_indices item)) = 3) data).
Proof.
  intros Hdata Hall.
  split; [| split; [| split]].
  - intros Hmore.
    apply (proj1 (sampled_citations question parsed_query kind data df
                    Hdata Hall Hmore)).
  - intros Hmore.
    apply (proj1 (proj2 (sampled_citations question parsed_query kind data df
                           Hdata Hall Hmore))).
  - intros Hkind. subst kind.
    destruct (sort_by_year_perm data Hall) as (sorted & Hsort & _).
    destruct (sort_by_year_ordered data sorted Hsort) as (Hperm & Hsorted & Hstable).
    assert (Hrun : generate_answer question parsed_query
                     (with_data "trend" data) df
                   = _generate_trend_answer question data df).
    { unfold generate_answer. cbn [type with_data DataAnalyzer.data].
      destruct data; [contradiction | reflexivity]. }
    destruct (trend_answer_citations question data df Hall)
      as (text & sorted' & _ & Htext).
    exists text, sorted. repeat split; try assumption.
    rewrite Hrun, Htext. do 2 f_equal.
    unfold _generate_trend_answer in Htext. rewrite Hsort in Htext.
    cbn [bind] in Htext.
    match type of Htext with
    | context [render_items ?f ?l] =>
        destruct (render_items f l) as [pc|] eqn:Hpc; [| discriminate];
        pose proof (render_items_snd f
                      (fun item =>
                         cite_rows df item (firstn 1 (get_row_indices item)))
                      l) as Hsnd
    end.
    cbn [bind] in Htext.
    destruct (if (2 <=? _)%nat then _ else _) as [closing|]; [| discriminate].
    cbn [bind] in Htext. injection Htext as _ Hc.
    transitivity (snd pc); [symmetry; exact Hc |].
    apply Hsnd; [| exact Hpc].
    intros item pc' _. destruct item; cbn; try discriminate.
    destruct (_format_value value); cbn; [| discriminate].
    intros Hp. injection Hp as <-. cbn [snd]. now destruct row_indices.
  - intros Hmore.
    apply (proj2 (proj2 (proj2 (sampled_citations question parsed_query kind
                                  data df Hdata Hall Hmore)))).
Qed.

End Sources.


(** Where the loader dropped an empty line the labels of the table are
    0, 2, 3 and those of the snapshot 0, 1, 2: the maximum 30 is found
    at label 2 of the snapshot, and the citation made for label 2 of
    the table quotes 20. *)
Lemma dropped_line_cites_another_row :
  index dropped = [0; 2; 3]
  /\ execute_query (new dropped) (parse "highest rain" dropped)
     = Ok (with_data "maximum"
             [Extremum "rain_mm" (Num (30 # 1)) 2
                {| state := None; year := None |}])
  /\ generate_answer "highest rain" (parse "highest rain" dropped)
       (with_data "maximum"
          [Extremum "rain_mm" (Num (30 # 1)) 2
             {| state := None; year := None |}]) dropped
     = Ok {| answer := "The maximum Rain Mm value found is **30.00 mm**.";
             citations :=
               [(citation_head 2 "rain_mm" (Num (20 # 1))
                 ++ " (Context: station=Hulikal)")%string] |}.
Proof. repeat split; reflexivity. Qed.

(** The sampling at the average over the five stations, and the order
    at a trend whose years came in descending order. *)
Lemma citation_sampling_witness :
  (exists text,
     generate_answer "average rain" average_rain
       (with_data "average"
          [Aggregate "rain_mm" (Num (80 # 4)) 5 [0; 1; 2; 3; 4]]) stations
     = Ok {| answer := text;
             citations :=
               [_create_citation 0 "rain_mm" stations;
                _create_citation 1 "rain_mm" stations;
                _create_citation 2 "rain_mm" stations;
                more_rows 2] |})
  /\ (exists text sorted,
        sort_by_year [Trend 2016 "rain_mm" (Num (50 # 1)) [4];
                      Trend 2015 "rain_mm" (Num (25 # 1)) [0; 1; 2; 3]]
        = Ok sorted
        /\ Permutation [Trend 2016 "rain_mm" (Num (50 # 1)) [4];
                        Trend 2015 "rain_mm" (Num (25 # 1)) [0; 1; 2; 3]]
                       sorted
        /\ Sorted Z.le (map year_of sorted)
        /\ (forall y,
              filter (fun item => (year_of item =? y)%Z) sorted
              = filter (fun item => (year_of item =? y)%Z)
                  [Trend 2016 "rain_mm" (Num (50 # 1)) [4];
                   Trend 2015 "rain_mm" (Num (25 # 1)) [0; 1; 2; 3]])
        /\ generate_answer "rain trend" rain_trend
             (with_data "trend"
                [Trend 2016 "rain_mm" (Num (50 # 1)) [4];
                 Trend 2015 "rain_mm" (Num (25 # 1)) [0; 1; 2; 3]]) yearly
           = Ok {| answer := text;
                   citations :=
                     flat_map (fun item =>
                                 cite_rows yearly item
                                   (firstn 1 (get_row_indices item)))
                              sorted |}).
Proof.
  split.
  - apply (proj1 (citation_sampling "average rain" average_rain "average"
                    [Aggregate "rain_mm" (Num (80 # 4)) 5 [0; 1; 2; 3; 4]]
                    stations ltac:(discriminate) eq_refl));
      [repeat constructor | now left].
  - apply (proj1 (proj2 (proj2
             (citation_sampling "rain trend" rain_trend "trend"
                [Trend 2016 "rain_mm" (Num (50 # 1)) [4];
                 Trend 2015 "rain_mm" (Num (25 # 1)) [0; 1; 2; 3]]
                yearly ltac:(discriminate) eq_refl)))).
    reflexivity.
Defined.

End SourceFacts.
